(** * Aichatbot.py: the shop chatbot, embedded and verified

    A shallow embedding of [src/Aichatbot.py]: the JSON values held by
    [product.json] and [sale.json], the name matcher
    [find_product_by_name], the sale transaction [record_sale], the
    command interpreter [parse_and_handle] with its regular expressions,
    and [main].

    Conventions of the embedding.
    - Text is [string].  [str.lower], [str.upper], [str.strip],
      [str.isdigit], [\s] and [\d] are written out for ASCII text, on
      which they are the Python operations; on other characters the
      Python operations follow the Unicode tables, which are not part
      of the repository, and the model says nothing true or false
      there.  The statements that depend on these operations carry the
      hypothesis that the text is ASCII ([ascii_text], [plain_line],
      [plain_json], [plain_files], [plain_world]).
    - [int(s)] is written out for strings of ASCII digits
      ([PyStr.int_of_digits]); CPython refuses more than 4300 digits, so
      the statements that reach [int] bound the length of the line.
    - The two files hold JSON values ([None] when the file is absent);
      text that [json.load] would reject is not represented.  JSON
      numbers are integers ([Z]) or binary64 floating-point numbers
      ([spec_float], with the arithmetic of [SpecFloat] at precision 53
      and maximal exponent 1024); Python's [bool] counts as the integers
      0 and 1 in arithmetic, as in Python.
    - Writing a file, or a line on the output, succeeds: the file
      system and the terminal are not part of the program.  For
      [json.dump] this is so when the data holds no text that UTF-8
      cannot encode and no integer above the 4300 digits that CPython
      prints, which [plain_files] and [plain_world] guarantee.
    - The product objects are mutable and shared: they live in the list
      object [w_products] of the [world], and a reference to a product is
      its index in that list.  [products_raw] is a reference to the
      list object, to the product object, or [None].
    - Python exceptions are the [Raise] results of the monad [M]; the
      effects done before a raise stay done.  [KeyboardInterrupt], a
      signal, is not represented: the input is a list of lines.
    - The clock and [uuid4] are read from the world ([w_entropy]).
    - [difflib] is outside the repository: the similarity [ratio] is a
      parameter of the matcher, and [RatcliffObershelp.ratio] an
      instance for the examples.

    The file has three parts: the program, the definitions used by the
    statements, the verification. *)

From Stdlib Require Import ZArith QArith List String Ascii Bool Lia Arith.
From Stdlib Require Import SpecFloat.
Import ListNotations.

#[local] Open Scope string_scope.
#[local] Open Scope Z_scope.

Set Warnings "-register-all".

(* ================================================================== *)
(** ** Python strings *)

Module PyStr.

Definition code (c : ascii) : nat := nat_of_ascii c.

(** [str.isspace] on one character: TAB..CR, FS..US and the space. *)
Definition is_space (c : ascii) : bool :=
  let n := code c in
  ((9 <=? n) && (n <=? 13) || (28 <=? n) && (n <=? 32))%nat.

(** [\d] / [str.isdigit] on one character. *)
Definition is_digit (c : ascii) : bool :=
  let n := code c in ((48 <=? n) && (n <=? 57))%nat.

Definition is_upper (c : ascii) : bool :=
  let n := code c in ((65 <=? n) && (n <=? 90))%nat.

Definition is_lower (c : ascii) : bool :=
  let n := code c in ((97 <=? n) && (n <=? 122))%nat.

Definition lower_char (c : ascii) : ascii :=
  if is_upper c then ascii_of_nat (code c + 32) else c.

Definition upper_char (c : ascii) : ascii :=
  if is_lower c then ascii_of_nat (code c - 32) else c.

Fixpoint map_chars (f : ascii -> ascii) (s : string) : string :=
  match s with
  | EmptyString => EmptyString
  | String c r => String (f c) (map_chars f r)
  end.

(** [s.lower()] and [s.upper()]. *)
Definition lower (s : string) : string := map_chars lower_char s.
Definition upper (s : string) : string := map_chars upper_char s.

Fixpoint lstrip (s : string) : string :=
  match s with
  | EmptyString => EmptyString
  | String c r => if is_space c then lstrip r else s
  end.

Fixpoint rstrip (s : string) : string :=
  match s with
  | EmptyString => EmptyString
  | String c r =>
      match rstrip r with
      | EmptyString => if is_space c then EmptyString else String c EmptyString
      | r' => String c r'
      end
  end.

(** [s.strip()]. *)
Definition strip (s : string) : string := rstrip (lstrip s).

(** [not s] for a string. *)
Definition is_empty (s : string) : bool :=
  match s with EmptyString => true | _ => false end.

(** [s.startswith(p)]. *)
Fixpoint startswith (s p : string) {struct p} : bool :=
  match p with
  | EmptyString => true
  | String a p' =>
      match s with
      | EmptyString => false
      | String b s' => Ascii.eqb a b && startswith s' p'
      end
  end.

(** [a in b] for strings. *)
Fixpoint contains (a b : string) : bool :=
  startswith b a ||
  match b with
  | EmptyString => false
  | String _ r => contains a r
  end.

Fixpoint all_chars (cls : ascii -> bool) (s : string) : bool :=
  match s with
  | EmptyString => true
  | String c r => cls c && all_chars cls r
  end.

Definition all_digits (s : string) : bool := all_chars is_digit s.

(** [s.isdigit()]: non-empty and all digits. *)
Definition isdigit (s : string) : bool := negb (is_empty s) && all_digits s.

(** [int(s)] for a string of decimal digits. *)
Fixpoint int_acc (acc : Z) (s : string) : Z :=
  match s with
  | EmptyString => acc
  | String c r => int_acc (10 * acc + Z.of_nat (code c - 48)) r
  end.

Definition int_of_digits (s : string) : Z := int_acc 0 s.

(** [s[:n]]. *)
Definition take (n : nat) (s : string) : string := String.substring 0 n s.

(** The one-character string [chr(10)]. *)
Definition nl : string := String (ascii_of_nat 10) EmptyString.

End PyStr.

(* ================================================================== *)
(** ** JSON values, as [json.load] returns them *)

Inductive json : Type :=
| JNull
| JBool (b : bool)
| JInt (z : Z)
| JFloat (f : spec_float)
| JStr (s : string)
| JList (l : list json)
| JDict (kv : list (string * json)).

(** A [dict] keeps its keys in insertion order, each key once. *)
Definition pydict := list (string * json).

Module PyDict.

(** [d.get(k)] as an option. *)
Fixpoint lookup (d : pydict) (k : string) : option json :=
  match d with
  | [] => None
  | (k', v) :: r => if String.eqb k' k then Some v else lookup r k
  end.

(** [d.get(k, default)]. *)
Definition get (d : pydict) (k : string) (default : json) : json :=
  match lookup d k with Some v => v | None => default end.

(** [d[k] = v]: overwrite in place, or append a new key. *)
Fixpoint set (d : pydict) (k : string) (v : json) : pydict :=
  match d with
  | [] => [(k, v)]
  | (k', v') :: r =>
      if String.eqb k' k then (k', v) :: r else (k', v') :: set r k v
  end.

End PyDict.

(** Python's [float]: IEEE 754 binary64. *)
Module PyFloat.

Definition prec : Z := 53.
Definition emax : Z := 1024.

Definition mul : spec_float -> spec_float -> spec_float := SFmul prec emax.
Definition sub : spec_float -> spec_float -> spec_float := SFsub prec emax.

(** [float(n)] for an integer: the nearest float, ties to even;
    [None] stands for the [OverflowError] of an integer too large. *)
Definition of_int (n : Z) : option spec_float :=
  match binary_normalize prec emax n 0 false with
  | S754_infinity _ => None
  | f => Some f
  end.

Definition is_zero (f : spec_float) : bool :=
  match f with S754_zero _ => true | _ => false end.

(** [n > f] for an integer [n]: Python compares the two exactly, and
    no number is above or below a NaN. *)
Definition lt_int (f : spec_float) (n : Z) : bool :=
  match f with
  | S754_nan => false
  | S754_infinity s => s
  | S754_zero _ => 0 <? n
  | S754_finite s m e =>
      let v := if s then Z.neg m else Z.pos m in
      if 0 <=? e then v * 2 ^ e <? n else v <? n * 2 ^ (- e)
  end.

End PyFloat.

(** Python truthiness, [bool(v)]. *)
Definition truthy (v : json) : bool :=
  match v with
  | JNull => false
  | JBool b => b
  | JInt z => negb (z =? 0)
  | JFloat f => negb (PyFloat.is_zero f)
  | JStr s => negb (PyStr.is_empty s)
  | JList l => match l with [] => false | _ => true end
  | JDict d => match d with [] => false | _ => true end
  end.

(** The integer a value stands for in arithmetic and comparisons,
    when it is an [int] ([bool], its subclass, included). *)
Definition as_int (v : json) : option Z :=
  match v with
  | JInt z => Some z
  | JBool b => Some (Z.b2z b)
  | _ => None
  end.

(* ================================================================== *)
(** ** Exceptions and the state-and-exception monad *)

Inductive exn : Type :=
| ValueError | TypeError | AttributeError | KeyError | IndexError
| OverflowError | MemoryError | EOFError | SystemExit.

Inductive result (A : Type) : Type :=
| Ok (a : A)
| Raise (e : exn).
Arguments Ok {A} a.
Arguments Raise {A} e.

(** Pure computations that may raise. *)
Definition rbind {A B} (r : result A) (f : A -> result B) : result B :=
  match r with Ok a => f a | Raise e => Raise e end.

(** What the program writes on standard output.  A [print] of a literal
    is [Print]; each formatted line is one constructor carrying the
    values it interpolates, named by the source line that prints it. *)
Inductive out : Type :=
| Print (s : string)
| Prompt (s : string)                              (* input(prompt) *)
| PrintProductRow (name price stock : json)        (* line 85 *)
| PrintProductName (name : json)                   (* line 92 *)
| PrintProductPrice (price : json)                 (* line 93 *)
| PrintProductStock (stock : json)                 (* line 94 *)
| PrintSaleRow (invoice_number product_name quantity unit_price
                total payment_method date : json)  (* line 108 *)
| PrintNotEnoughStock (stock : json)               (* line 119 *)
| PrintSaleRecorded (invoice_number : json)        (* line 150 *)
| PrintSaleSummary (name : json) (qty : Z) (total : json). (* line 151 *)

(** One reading of the environment by a sale: [datetime.now()] as
    [%Y%m%d], [str(uuid.uuid4())], and [datetime.now()] as
    [%Y-%m-%d %H:%M:%S]. *)
Record entropy : Type := mkEntropy {
  e_today : string;
  e_uuid4 : string;
  e_now : string
}.

(** A Python reference into the catalog: [None], one product object
    (by its index in the list object), or the list object itself. *)
Inductive pyref : Type :=
| RefNone
| RefProduct (i : nat)
| RefProducts.

(** The dict [state] of [main].  Its key ["products_list"] always refers
    to the list object [w_products] of the world and has no field. *)
Record state : Type := mkState {
  products_raw : pyref;
  last_selected_product : option nat;
  last_sales : json
}.

Inductive path : Type := PRODUCT_FILE | SALE_FILE.

Record world : Type := mkWorld {
  w_products : list json;        (* the list object products_list *)
  w_state : state;               (* the dict object state *)
  w_product_file : option json;  (* product.json, None when absent *)
  w_sale_file : option json;     (* sale.json, None when absent *)
  w_stdin : list string;         (* the lines still to be read *)
  w_stdout : list out;           (* everything printed so far *)
  w_entropy : nat -> entropy;    (* clock and random source *)
  w_tick : nat                   (* readings of [w_entropy] so far *)
}.

Definition with_products (l : list json) (w : world) : world :=
  mkWorld l (w_state w) (w_product_file w) (w_sale_file w)
          (w_stdin w) (w_stdout w) (w_entropy w) (w_tick w).

Definition with_state (s : state) (w : world) : world :=
  mkWorld (w_products w) s (w_product_file w) (w_sale_file w)
          (w_stdin w) (w_stdout w) (w_entropy w) (w_tick w).

Definition with_file (p : path) (v : option json) (w : world) : world :=
  match p with
  | PRODUCT_FILE =>
      mkWorld (w_products w) (w_state w) v (w_sale_file w)
              (w_stdin w) (w_stdout w) (w_entropy w) (w_tick w)
  | SALE_FILE =>
      mkWorld (w_products w) (w_state w) (w_product_file w) v
              (w_stdin w) (w_stdout w) (w_entropy w) (w_tick w)
  end.

Definition with_stdin (l : list string) (w : world) : world :=
  mkWorld (w_products w) (w_state w) (w_product_file w) (w_sale_file w)
          l (w_stdout w) (w_entropy w) (w_tick w).

Definition with_stdout (l : list out) (w : world) : world :=
  mkWorld (w_products w) (w_state w) (w_product_file w) (w_sale_file w)
          (w_stdin w) l (w_entropy w) (w_tick w).

Definition with_tick (n : nat) (w : world) : world :=
  mkWorld (w_products w) (w_state w) (w_product_file w) (w_sale_file w)
          (w_stdin w) (w_stdout w) (w_entropy w) n.

Definition file (p : path) (w : world) : option json :=
  match p with
  | PRODUCT_FILE => w_product_file w
  | SALE_FILE => w_sale_file w
  end.

(** The monad of the program: a world transformer that returns a value
    or raises; the world reached is kept in both cases. *)
Definition M (A : Type) : Type := world -> result A * world.

Definition ret {A} (a : A) : M A := fun w => (Ok a, w).

Definition raise {A} (e : exn) : M A := fun w => (Raise e, w).

Definition bind {A B} (m : M A) (f : A -> M B) : M B :=
  fun w =>
    match m w with
    | (Ok a, w') => f a w'
    | (Raise e, w') => (Raise e, w')
    end.

Definition lift {A} (r : result A) : M A := fun w => (r, w).

Declare Scope py_scope.
Delimit Scope py_scope with py.
Notation "x <- c ;; k" := (bind c (fun x => k))
  (at level 61, c at next level, right associativity) : py_scope.
Notation "c ;; k" := (bind c (fun _ => k))
  (at level 61, right associativity) : py_scope.
#[local] Open Scope py_scope.

Definition get_world : M world := fun w => (Ok w, w).

Definition get_state : M state := fun w => (Ok (w_state w), w).

Definition set_state (s : state) : M unit :=
  fun w => (Ok tt, with_state s w).

(** [state["last_sales"] = v] *)
Definition set_last_sales (v : json) : M unit :=
  fun w =>
    let st := w_state w in
    (Ok tt,
     with_state (mkState (products_raw st) (last_selected_product st) v) w).

(** [state["last_selected_product"] = p] *)
Definition set_last_selected_product (p : option nat) : M unit :=
  fun w =>
    let st := w_state w in
    (Ok tt, with_state (mkState (products_raw st) p (last_sales st)) w).

(** [print(...)]. *)
Definition print (o : out) : M unit :=
  fun w => (Ok tt, with_stdout (w_stdout w ++ [o]) w).

(** [input(prompt)]: writes the prompt, then reads one line;
    [EOFError] at end of input. *)
Definition input (prompt : string) : M string :=
  fun w =>
    let w1 := with_stdout (w_stdout w ++ [Prompt prompt]) w in
    match w_stdin w1 with
    | [] => (Raise EOFError, w1)
    | l :: r => (Ok l, with_stdin r w1)
    end.

(* ================================================================== *)
(** ** Utilities (lines 21-50) *)

Definition path_exists (p : path) : M bool :=
  fun w => (Ok (match file p w with Some _ => true | None => false end), w).

(** [load_json(path, default)]; the Python [None] is [JNull]. *)
Definition load_json (p : path) (default : json) : M json :=
  fun w => (Ok (match file p w with Some v => v | None => default end), w).

Definition save_json (p : path) (data : json) : M unit :=
  fun w => (Ok tt, with_file p (Some data) w).

Definition normalize_products (raw : json) : result (list json) :=
  match raw with
  | JNull => Ok []
  | JDict _ => Ok [raw]
  | JList l => Ok l
  | _ => Raise ValueError
  end.

Definition ensure_sales_list (raw : json) : list json :=
  match raw with
  | JNull => []
  | JList l => l
  | JDict _ => [raw]
  | _ => []
  end.

Definition read_entropy : M entropy :=
  fun w => (Ok (w_entropy w (w_tick w)), with_tick (S (w_tick w)) w).

(** [create_invoice_number()], on the reading [e] of the date and of the
    random token. *)
Definition create_invoice_number (e : entropy) : string :=
  "INV-" ++ e_today e ++ "-" ++ PyStr.upper (PyStr.take 8 (e_uuid4 e)).

Notation "x <~ c ;; k" := (rbind c (fun x => k))
  (at level 61, c at next level, right associativity) : py_scope.

(* ================================================================== *)
(** ** Operations on Python values used by the program *)

(** [p.get(k, default)]: only a dict has [get]. *)
Definition py_get (p : json) (k : string) (default : json) : result json :=
  match p with
  | JDict d => Ok (PyDict.get d k default)
  | _ => Raise AttributeError
  end.

(** The receiver of a [str] method ([.strip()], [.lower()],
    [.isdigit()]): anything else has no such attribute. *)
Definition as_str (v : json) : result string :=
  match v with
  | JStr s => Ok s
  | _ => Raise AttributeError
  end.

(** [s[k]] with a string key. *)
Definition py_subscript (s : json) (k : string) : result json :=
  match s with
  | JDict d =>
      match PyDict.lookup d k with
      | Some v => Ok v
      | None => Raise KeyError
      end
  | _ => Raise TypeError
  end.

Fixpoint chars_of (s : string) : list json :=
  match s with
  | EmptyString => []
  | String c r => JStr (String c EmptyString) :: chars_of r
  end.

(** The elements a [for] loop (or [reversed]) goes through. *)
Definition py_iter (v : json) : result (list json) :=
  match v with
  | JList l => Ok l
  | JDict d => Ok (map (fun kv => JStr (fst kv)) d)
  | JStr s => Ok (chars_of s)
  | _ => Raise TypeError
  end.

(** [v[-1]]. *)
Definition py_last (v : json) : result json :=
  match v with
  | JList l => match rev l with x :: _ => Ok x | [] => Raise IndexError end
  | JStr s =>
      match rev (chars_of s) with x :: _ => Ok x | [] => Raise IndexError end
  | JDict _ => Raise KeyError
  | _ => Raise TypeError
  end.

Fixpoint repeat_string (s : string) (n : nat) : string :=
  match n with
  | O => EmptyString
  | S m => s ++ repeat_string s m
  end.

(** The largest size of a string or a list, [sys.maxsize], on a
    64-bit CPython. *)
Definition maxsize : Z := 2 ^ 63 - 1.

(** [v * n] for an integer [n]: arithmetic on numbers, repetition on
    strings and lists.  A float takes [n] as a float, which overflows for
    an [n] too large; a repetition is refused when the count or the size
    of the result does not fit [sys.maxsize] ([OverflowError] for a
    string, [MemoryError] for the size of a list).  Memory is otherwise
    taken to suffice. *)
Definition py_mul (v : json) (n : Z) : result json :=
  match v with
  | JInt z => Ok (JInt (z * n))
  | JBool b => Ok (JInt (Z.b2z b * n))
  | JFloat f =>
      match PyFloat.of_int n with
      | Some fn => Ok (JFloat (PyFloat.mul f fn))
      | None => Raise OverflowError
      end
  | JStr s =>
      if maxsize <? n then Raise OverflowError
      else if maxsize <? Z.of_nat (String.length s) * n then Raise OverflowError
      else Ok (JStr (repeat_string s (Z.to_nat n)))
  | JList l =>
      if maxsize <? n then Raise OverflowError
      else if maxsize <? Z.of_nat (List.length l) * n then Raise MemoryError
      else Ok (JList (List.concat (List.repeat l (Z.to_nat n))))
  | JNull | JDict _ => Raise TypeError
  end.

(** [n > v] for an integer [n] (line 118): defined on numbers. *)
Definition py_int_gt (n : Z) (v : json) : result bool :=
  match v with
  | JInt z => Ok (z <? n)
  | JBool b => Ok (Z.b2z b <? n)
  | JFloat f => Ok (PyFloat.lt_int f n)
  | _ => Raise TypeError
  end.

(** [v - n] for an integer [n] (line 135). *)
Definition py_sub_int (v : json) (n : Z) : result json :=
  match v with
  | JInt z => Ok (JInt (z - n))
  | JBool b => Ok (JInt (Z.b2z b - n))
  | JFloat f =>
      match PyFloat.of_int n with
      | Some fn => Ok (JFloat (PyFloat.sub f fn))
      | None => Raise OverflowError
      end
  | _ => Raise TypeError
  end.

(** [v == s] for a string [s]. *)
Definition eq_str (v : json) (s : string) : bool :=
  match v with
  | JStr s' => String.eqb s' s
  | _ => false
  end.

Definition is_dict (v : json) : bool :=
  match v with JDict _ => true | _ => false end.

Definition is_list (v : json) : bool :=
  match v with JList _ => true | _ => false end.

(** [l[i] = v] on the list object. *)
Fixpoint list_set (l : list json) (i : nat) (v : json) : list json :=
  match l, i with
  | [], _ => []
  | _ :: r, O => v :: r
  | x :: r, S j => x :: list_set r j v
  end.

(** The object a product reference points to. *)
Definition deref (products : list json) (i : nat) : json :=
  nth i products JNull.

(** The value a catalog reference points to. *)
Definition ref_value (products : list json) (r : pyref) : json :=
  match r with
  | RefNone => JNull
  | RefProduct i => deref products i
  | RefProducts => JList products
  end.

(* ================================================================== *)
(** ** Product search (lines 53-76) *)

(** [for p in products: if test(p): return p], from index [i] on. *)
Fixpoint first_match (test : json -> result bool) (products : list json)
    (i : nat) : result (option nat) :=
  match products with
  | [] => Ok None
  | p :: r =>
      b <~ test p ;;
      if b then Ok (Some i) else first_match test r (S i)
  end.

(** [p.get("name","").strip().lower() == name.lower()] *)
Definition exact_test (name : string) (p : json) : result bool :=
  n <~ py_get p "name" (JStr "") ;;
  s <~ as_str n ;;
  Ok (String.eqb (PyStr.lower (PyStr.strip s)) (PyStr.lower name)).

(** [name.lower() in p.get("name","").strip().lower()] *)
Definition substring_test (name : string) (p : json) : result bool :=
  n <~ py_get p "name" (JStr "") ;;
  s <~ as_str n ;;
  Ok (PyStr.contains (PyStr.lower name) (PyStr.lower (PyStr.strip s))).

(** [p.get("name","") == matched_name] *)
Definition name_test (matched_name : string) (p : json) : result bool :=
  n <~ py_get p "name" (JStr "") ;;
  Ok (eq_str n matched_name).

(** [[p.get("name","") for p in products]] *)
Fixpoint names_of (products : list json) : result (list json) :=
  match products with
  | [] => Ok []
  | p :: r =>
      n <~ py_get p "name" (JStr "") ;;
      ns <~ names_of r ;;
      Ok (n :: ns)
  end.

Definition default_cutoff : Q := 6 # 10.

Section Matcher.

(** [difflib] is not part of the repository.  [ratio a b] stands for
    [difflib.SequenceMatcher(None, a, b).ratio()], a rational
    [2*M/(len a + len b)]; comparing such rationals to the cutoff, or to
    each other, agrees with the floating-point comparison for every
    string that fits in memory. *)
Variable ratio : string -> string -> Q.

(** Python's tuple order on [(score, x)]: is [c1 > c2]? *)
Definition tuple_gt (c1 c2 : Q * string) : bool :=
  if Qeq_bool (fst c1) (fst c2)
  then String.ltb (snd c2) (snd c1)
  else Qle_bool (fst c2) (fst c1).

(** The loop of [get_close_matches] that collects [(ratio, x)] for the
    possibilities at or above the cutoff.  [real_quick_ratio] and
    [quick_ratio] are upper bounds of [ratio], so the three tests amount
    to the last.  A possibility that is not a string is a [TypeError]. *)
Fixpoint close_candidates (word : string) (possibilities : list json)
    (cutoff : Q) : result (list (Q * string)) :=
  match possibilities with
  | [] => Ok []
  | x :: r =>
      match x with
      | JStr s =>
          rest <~ close_candidates word r cutoff ;;
          if Qle_bool cutoff (ratio s word)
          then Ok ((ratio s word, s) :: rest)
          else Ok rest
      | _ => Raise TypeError
      end
  end.

(** [max] of a non-empty list of tuples: the first maximal element. *)
Fixpoint tuple_max (best : Q * string) (l : list (Q * string)) : Q * string :=
  match l with
  | [] => best
  | c :: r => tuple_max (if tuple_gt c best then c else best) r
  end.

(** [difflib.get_close_matches(word, possibilities, n=1, cutoff)]:
    [heapq.nlargest(1, result)] is [max(result)] when there is one. *)
Definition get_close_matches_1 (word : string) (possibilities : list json)
    (cutoff : Q) : result (list string) :=
  if negb (Qle_bool 0 cutoff && Qle_bool cutoff 1) then Raise ValueError
  else
    result <~ close_candidates word possibilities cutoff ;;
    match result with
    | [] => Ok []
    | c :: r => Ok [snd (tuple_max c r)]
    end.

(** [find_product_by_name(products, name, cutoff)]; the product found is
    returned as its index in [products]. *)
Definition find_product_by_name (products : list json) (name : string)
    (cutoff : Q) : result (option nat) :=
  let name := PyStr.strip name in
  if PyStr.is_empty name then Ok None
  else
    (* exact match first *)
    e <~ first_match (exact_test name) products 0 ;;
    match e with
    | Some i => Ok (Some i)
    | None =>
        (* substring match *)
        s <~ first_match (substring_test name) products 0 ;;
        match s with
        | Some i => Ok (Some i)
        | None =>
            (* fuzzy match using difflib *)
            names <~ names_of products ;;
            matches <~ get_close_matches_1 name names cutoff ;;
            match matches with
            | matched_name :: _ =>
                first_match (name_test matched_name) products 0
            | [] => Ok None
            end
        end
    end.

End Matcher.

(* ================================================================== *)
(** ** Display helpers (lines 79-109) *)

Fixpoint print_product_rows (products : list json) : M unit :=
  match products with
  | [] => ret tt
  | p :: r =>
      name <- lift (py_get p "name" JNull) ;;
      price <- lift (py_get p "price" JNull) ;;
      stock <- lift (py_get p "stock" JNull) ;;
      print (PrintProductRow name price stock) ;;
      print_product_rows r
  end.

Definition show_products (products : list json) : M unit :=
  match products with
  | [] => print (Print "No products loaded.")
  | _ =>
      print (Print (PyStr.nl ++ "Products:")) ;;
      print_product_rows products ;;
      print (Print "")
  end.

Definition show_product (product : json) : M unit :=
  if negb (truthy product) then print (Print "Product not found.")
  else
    name <- lift (py_get product "name" JNull) ;;
    print (PrintProductName name) ;;
    price <- lift (py_get product "price" JNull) ;;
    print (PrintProductPrice price) ;;
    stock <- lift (py_get product "stock" JNull) ;;
    print (PrintProductStock stock).

(** [filter_name.lower() in s.get("product_name","").lower()] *)
Definition sale_matches (filter_name : string) (s : json) : result bool :=
  n <~ py_get s "product_name" (JStr "") ;;
  pn <~ as_str n ;;
  Ok (PyStr.contains (PyStr.lower filter_name) (PyStr.lower pn)).

(** [[s for s in sales if ...]] *)
Fixpoint filter_sales (filter_name : string) (sales : list json)
    : result (list json) :=
  match sales with
  | [] => Ok []
  | s :: r =>
      b <~ sale_matches filter_name s ;;
      rest <~ filter_sales filter_name r ;;
      Ok (if b then s :: rest else rest)
  end.

(** The line printed for one sale (line 108). *)
Definition sale_row (s : json) : result out :=
  a <~ py_subscript s "invoice_number" ;;
  b <~ py_subscript s "product_name" ;;
  c <~ py_subscript s "quantity" ;;
  d <~ py_subscript s "unit_price" ;;
  e <~ py_subscript s "total" ;;
  f <~ py_subscript s "payment_method" ;;
  g <~ py_subscript s "date" ;;
  Ok (PrintSaleRow a b c d e f g).

Fixpoint print_sale_rows (items : list json) : M unit :=
  match items with
  | [] => ret tt
  | s :: r =>
      row <- lift (sale_row s) ;;
      print row ;;
      print_sale_rows r
  end.

Definition show_sales (sales : json) (filter_name : option string) : M unit :=
  if negb (truthy sales) then print (Print "No sales recorded yet.")
  else
    items <-
      match filter_name with
      | Some f =>
          if PyStr.is_empty f then ret sales
          else
            l <- lift (py_iter sales) ;;
            kept <- lift (filter_sales f l) ;;
            ret (JList kept)
      | None => ret sales
      end ;;
    if negb (truthy items) then print (Print "No sales match that query.")
    else
      print (Print (PyStr.nl ++ "Sales:")) ;;
      l <- lift (py_iter items) ;;
      print_sale_rows (rev l) ;;
      print (Print "").

(* ================================================================== *)
(** ** Sale recording (lines 112-152) *)

(** [record_sale(product, qty, payment_method, products_raw)].
    [product] is a reference to a product object of the catalog and
    [products_raw] a reference to a dict or to the list object, so the
    stock written through [product] is seen through [products_raw].
    Returns the invoice, or [JNull] for [None]. *)
Definition record_sale (product : nat) (qty : Z) (payment_method : string)
    (products_raw : pyref) : M json :=
  if qty <=? 0 then
    print (Print "Quantity must be positive.") ;;
    ret JNull
  else
    w <- get_world ;;
    stock <- lift (py_get (deref (w_products w) product) "stock" (JInt 0)) ;;
    short <- lift (py_int_gt qty stock) ;;
    if short then
      print (PrintNotEnoughStock stock) ;;
      ret JNull
    else
      unit_price <-
        lift (py_get (deref (w_products w) product) "price" (JInt 0)) ;;
      total <- lift (py_mul unit_price qty) ;;
      e <- read_entropy ;;
      name <- lift (py_get (deref (w_products w) product) "name" JNull) ;;
      let invoice := JDict
        [ ("invoice_number", JStr (create_invoice_number e));
          ("product_name", name);
          ("quantity", JInt qty);
          ("unit_price", unit_price);
          ("total", total);
          ("payment_method", JStr payment_method);
          ("date", JStr (e_now e)) ] in
      (* update stock in products_raw (which might be list) *)
      new_stock <- lift (py_sub_int stock qty) ;;
      match deref (w_products w) product with
      | JDict d =>
          fun w0 =>
            (Ok tt,
             with_products
               (list_set (w_products w0) product
                  (JDict (PyDict.set d "stock" new_stock)))
               w0)
      | _ => raise TypeError
      end ;;
      w1 <- get_world ;;
      (if is_dict (ref_value (w_products w1) products_raw)
       then save_json PRODUCT_FILE (deref (w_products w1) product)
       else save_json PRODUCT_FILE (ref_value (w_products w1) products_raw)) ;;
      (* append to sale history *)
      sales_raw <- load_json SALE_FILE JNull ;;
      let sales := ensure_sales_list sales_raw in
      save_json SALE_FILE (JList (sales ++ [invoice])) ;;
      print (PrintSaleRecorded (JStr (create_invoice_number e))) ;;
      name' <- lift (py_get (deref (w_products w1) product) "name" JNull) ;;
      print (PrintSaleSummary name' qty total) ;;
      ret invoice.

(* ================================================================== *)
(** ** Regular expressions: the fragment of [re] the program uses *)

Module Re.

Inductive regex : Type :=
| Lit (s : string)                  (* literal text *)
| Plus (cls : ascii -> bool)        (* c+   greedy *)
| PlusLazy (cls : ascii -> bool)    (* c+?  lazy *)
| Cat (r1 r2 : regex)               (* r1 r2 *)
| Alt (r1 r2 : regex)               (* r1|r2 *)
| Opt (r : regex)                   (* (?:r)? greedy *)
| Group (n : nat) (r : regex)       (* the n-th capturing group, from 1 *)
| Bol                               (* ^ *)
| Eol.                              (* $ *)

(** [\s], [\d] and [.] (anything but a newline). *)
Definition space : ascii -> bool := PyStr.is_space.
Definition digit : ascii -> bool := PyStr.is_digit.
Definition dot (c : ascii) : bool := negb (PyStr.code c =? 10)%nat.

Definition captures := list (option string).

Fixpoint set_capture (caps : captures) (n : nat) (v : string) : captures :=
  match caps, n with
  | [], _ => []
  | _ :: r, O => Some v :: r
  | x :: r, S m => x :: set_capture r m v
  end.

Definition char_eq (icase : bool) (a b : ascii) : bool :=
  if icase then Ascii.eqb (PyStr.lower_char a) (PyStr.lower_char b)
  else Ascii.eqb a b.

(** Matches the literal [p] at the head of [s]; returns the rest. *)
Fixpoint lit (icase : bool) (p s : string) : option string :=
  match p with
  | EmptyString => Some s
  | String a p' =>
      match s with
      | EmptyString => None
      | String b s' => if char_eq icase a b then lit icase p' s' else None
      end
  end.

Section Backtrack.
Context {A : Type}.

(** One or more [cls], longest first, then shorter on failure of [k]. *)
Fixpoint plus_greedy (cls : ascii -> bool) (pos : nat) (s : string)
    (k : nat -> string -> option A) : option A :=
  match s with
  | EmptyString => None
  | String c r =>
      if cls c then
        match plus_greedy cls (S pos) r k with
        | Some x => Some x
        | None => k (S pos) r
        end
      else None
  end.

(** One or more [cls], shortest first. *)
Fixpoint plus_lazy (cls : ascii -> bool) (pos : nat) (s : string)
    (k : nat -> string -> option A) : option A :=
  match s with
  | EmptyString => None
  | String c r =>
      if cls c then
        match k (S pos) r with
        | Some x => Some x
        | None => plus_lazy cls (S pos) r k
        end
      else None
  end.

End Backtrack.

(** The backtracking matcher, in continuation-passing style: [pos] is
    the number of characters consumed, [s] what is left of the subject. *)
Fixpoint run (icase : bool) (r : regex) (pos : nat) (s : string)
    (caps : captures) (k : nat -> string -> captures -> option captures)
    : option captures :=
  match r with
  | Lit p =>
      match lit icase p s with
      | Some s' => k (pos + String.length p)%nat s' caps
      | None => None
      end
  | Plus cls => plus_greedy cls pos s (fun pos' s' => k pos' s' caps)
  | PlusLazy cls => plus_lazy cls pos s (fun pos' s' => k pos' s' caps)
  | Cat r1 r2 =>
      run icase r1 pos s caps (fun pos' s' caps' => run icase r2 pos' s' caps' k)
  | Alt r1 r2 =>
      match run icase r1 pos s caps k with
      | Some x => Some x
      | None => run icase r2 pos s caps k
      end
  | Opt r1 =>
      match run icase r1 pos s caps k with
      | Some x => Some x
      | None => k pos s caps
      end
  | Group n r1 =>
      run icase r1 pos s caps
        (fun pos' s' caps' =>
           k pos' s' (set_capture caps' (n - 1) (PyStr.take (pos' - pos) s)))
  | Bol => if (pos =? 0)%nat then k pos s caps else None
  | Eol =>
      if PyStr.is_empty s || String.eqb s PyStr.nl then k pos s caps else None
  end.

Fixpoint ngroups (r : regex) : nat :=
  match r with
  | Cat r1 r2 | Alt r1 r2 => ngroups r1 + ngroups r2
  | Opt r1 => ngroups r1
  | Group _ r1 => S (ngroups r1)
  | _ => O
  end.

(** [re.match(r, s)] ([icase] for [re.I]): the groups of the match, or
    [None]. *)
Definition rmatch (icase : bool) (r : regex) (s : string) : option captures :=
  run icase r 0 s (List.repeat None (ngroups r)) (fun _ _ caps => Some caps).

(** [m.group(n)], [None] for a group that took no part. *)
Definition group (m : captures) (n : nat) : option string :=
  nth (n - 1) m None.

End Re.

Import Re.

(** The patterns of [parse_and_handle], in source order. *)

(* r"sales(?:\s+for\s+(.+))?" *)
Definition re_sales : regex :=
  Cat (Lit "sales")
      (Opt (Cat (Plus space) (Cat (Lit "for") (Cat (Plus space)
           (Group 1 (Plus dot)))))).

(* r"(?:show|price of|how many|what is the price of)\s+(.+)" *)
Definition re_show : regex :=
  Cat (Alt (Lit "show") (Alt (Lit "price of") (Alt (Lit "how many")
           (Lit "what is the price of"))))
      (Cat (Plus space) (Group 1 (Plus dot))).

(* r"sell\s+(\d+)\s+(.+)" *)
Definition re_sell_qty_name : regex :=
  Cat (Lit "sell") (Cat (Plus space) (Cat (Group 1 (Plus digit))
      (Cat (Plus space) (Group 2 (Plus dot))))).

(* r"sell\s+(.+?)\s+(\d+)$" *)
Definition re_sell_name_qty : regex :=
  Cat (Lit "sell") (Cat (Plus space) (Cat (Group 1 (PlusLazy dot))
      (Cat (Plus space) (Cat (Group 2 (Plus digit)) Eol)))).

(* r"^(\d+)\s+(.+)$" *)
Definition re_qty_name : regex :=
  Cat Bol (Cat (Group 1 (Plus digit)) (Cat (Plus space)
      (Cat (Group 2 (Plus dot)) Eol))).

(* r"^\d+$" *)
Definition re_number : regex := Cat Bol (Cat (Plus digit) Eol).

(* r"sales\s+for\s+(.+)" *)
Definition re_sales_for : regex :=
  Cat (Lit "sales") (Cat (Plus space) (Cat (Lit "for") (Cat (Plus space)
      (Group 1 (Plus dot))))).

(* ================================================================== *)
(** ** The command interpreter (lines 155-293) *)

Definition help_text : string :=
  PyStr.nl ++ "Available:" ++ PyStr.nl ++
  " - show products / list products" ++ PyStr.nl ++
  " - show <product name>        (shows and selects product)" ++ PyStr.nl ++
  " - <product name>             (same as above)" ++ PyStr.nl ++
  " - <number>                   (sell that quantity of selected product)" ++ PyStr.nl ++
  " - sell <qty> <product>       (sell directly)" ++ PyStr.nl ++
  " - sell <product> <qty>       (also accepted)" ++ PyStr.nl ++
  " - show sales                 (list all sales)" ++ PyStr.nl ++
  " - sales for <product>        (sales filtered by product)" ++ PyStr.nl ++
  " - last sale                  (show most recent)" ++ PyStr.nl ++
  " - help, exit" ++ PyStr.nl.

Definition print_help : M unit := print (Print help_text).

(** [x in (a, b, ...)] for strings. *)
Definition str_in (x : string) (l : list string) : bool :=
  existsb (String.eqb x) l.

(** A method call on [m.group(n)], which is [None] when the group took
    no part in the match. *)
Definition group_str (g : option string) : result string :=
  match g with
  | Some s => Ok s
  | None => Raise AttributeError
  end.

(** [a or b] on two match results. *)
Definition or_match (a b : option captures) : option captures :=
  match a with Some _ => a | None => b end.

(** [bool(p)] for a reference that is [None] or a product object. *)
Definition ref_truthy (products : list json) (p : option nat) : bool :=
  match p with
  | None => false
  | Some i => truthy (deref products i)
  end.

Section Interpreter.

Variable ratio : string -> string -> Q.

(** [find_product_by_name(products_list, name)] on the catalog of the
    session, with the default cutoff. *)
Definition find_in_catalog (name : string) : M (option nat) :=
  w <- get_world ;;
  lift (find_product_by_name ratio (w_products w) name default_cutoff).

(** The block that lines 221-226, 235-240 and 256-261 repeat: ask for
    the payment method, record the sale of [qty] of the product [p],
    and on success refresh the session. *)
Definition sell_block (p : nat) (qty : Z) : M unit :=
  line <- input "Payment method (CASH/CARD/UPI) [CASH]: " ;;
  let pm := let x := PyStr.upper (PyStr.strip line) in
            if PyStr.is_empty x then "CASH" else x in
  st <- get_state ;;
  w <- get_world ;;
  invoice <- record_sale p qty pm
               (if is_list (ref_value (w_products w) (products_raw st))
                then products_raw st else RefProducts) ;;
  if truthy invoice then
    sales <- load_json SALE_FILE (JList []) ;;
    set_last_sales sales ;;
    set_last_selected_product (Some p)
  else ret tt.

(** Lines 263-278: a product name, "sales for <name>", or the fallback. *)
Definition handle_name_or_fallback (u : string) (sales : json) : M unit :=
  p <- find_in_catalog u ;;
  w <- get_world ;;
  if ref_truthy (w_products w) p then
    match p with
    | Some i =>
        show_product (deref (w_products w) i) ;;
        set_last_selected_product (Some i)
    | None => ret tt
    end
  else
    match rmatch true re_sales_for u with
    | Some m =>
        name <- lift (group_str (group m 1)) ;;
        show_sales sales (Some (PyStr.strip name))
    | None =>
        print (Print
          "Sorry — I didn't understand. Try 'help' to see available commands, or 'show products'.")
    end.

(** Lines 250-261: a bare number sells that many of the selected product. *)
Definition handle_number (u : string) (last_product : option nat)
    (sales : json) : M unit :=
  match rmatch false re_number u with
  | Some _ =>
      let qty := PyStr.int_of_digits u in
      w <- get_world ;;
      if negb (ref_truthy (w_products w) last_product) then
        print (Print
          "No product selected. Type product name first or use 'sell <qty> <product>'.")
      else
        match last_product with
        | Some p => sell_block p qty
        | None => ret tt
        end
  | None => handle_name_or_fallback u sales
  end.

(** Lines 228-248: "<qty> <product>". *)
Definition handle_qty_name (u : string) (last_product : option nat)
    (sales : json) : M unit :=
  match rmatch false re_qty_name u with
  | Some m =>
      g1 <- lift (group_str (group m 1)) ;;
      let qty := PyStr.int_of_digits g1 in
      g2 <- lift (group_str (group m 2)) ;;
      let name := PyStr.strip g2 in
      p <- find_in_catalog name ;;
      w <- get_world ;;
      if ref_truthy (w_products w) p then
        match p with
        | Some i => sell_block i qty
        | None => ret tt
        end
      else if ref_truthy (w_products w) last_product then
        print (Print "Product not found. Try 'show products' to see names.")
      else
        print (Print "Product not found.")
  | None => handle_number u last_product sales
  end.

(** Lines 205-226: "sell <qty> <name>" and "sell <name> <qty>". *)
Definition handle_sell (u : string) (last_product : option nat)
    (sales : json) : M unit :=
  match or_match (rmatch true re_sell_qty_name u)
                 (rmatch true re_sell_name_qty u) with
  | Some m =>
      if match m with [] => false | _ => true end && (List.length m =? 2)%nat then
        g1 <- lift (group_str (group m 1)) ;;
        g2 <- lift (group_str (group m 2)) ;;
        if PyStr.isdigit g1 then
          let qty := PyStr.int_of_digits g1 in
          let name := PyStr.strip g2 in
          p <- find_in_catalog name ;;
          w <- get_world ;;
          if negb (ref_truthy (w_products w) p) then
            print (Print "Product not found.")
          else
            match p with
            | Some i => sell_block i qty
            | None => ret tt
            end
        else if PyStr.isdigit g2 then
          let qty := PyStr.int_of_digits g2 in
          let name := PyStr.strip g1 in
          p <- find_in_catalog name ;;
          w <- get_world ;;
          if negb (ref_truthy (w_products w) p) then
            print (Print "Product not found.")
          else
            match p with
            | Some i => sell_block i qty
            | None => ret tt
            end
        else
          print (Print "Couldn't parse quantity.")
      else handle_qty_name u last_product sales
  | None => handle_qty_name u last_product sales
  end.

(** [parse_and_handle(user, state)]; [state] is the dict [w_state] of
    the world. *)
Definition parse_and_handle (user : string) : M unit :=
  st <- get_state ;;
  let last_product := last_selected_product st in
  let sales := last_sales st in
  let u := PyStr.strip user in
  if PyStr.is_empty u then ret tt
  else
    (* common commands *)
    let low := PyStr.lower u in
    if str_in low ["help"; "?"] then print_help
    else if str_in low ["exit"; "quit"] then
      print (Print "Goodbye!") ;;
      raise SystemExit
    else if str_in low ["show products"; "list products"; "products"] then
      w <- get_world ;;
      show_products (w_products w)
    else if PyStr.startswith low "show sales" || PyStr.startswith low "sales" then
      match rmatch true re_sales u with
      | Some m => show_sales sales (group m 1)
      | None => show_sales sales None
      end
    else if str_in low ["show last sale"; "last sale"] then
      if truthy sales then
        last <- lift (py_last sales) ;;
        show_sales (JList [last]) None
      else print (Print "No sales yet.")
    else if PyStr.startswith low "show " || PyStr.startswith low "price of "
            || PyStr.startswith low "how many " then
      match rmatch true re_show u with
      | Some m =>
          g <- lift (group_str (group m 1)) ;;
          let name := PyStr.strip g in
          p <- find_in_catalog name ;;
          w <- get_world ;;
          if ref_truthy (w_products w) p then
            match p with
            | Some i =>
                show_product (deref (w_products w) i) ;;
                set_last_selected_product (Some i)
            | None => ret tt
            end
          else print (Print "Product not found.")
      | None => handle_sell u last_product sales
      end
    else handle_sell u last_product sales.

(* ================================================================== *)
(** ** Main (lines 296-325) *)

Definition default_product : json :=
  JDict [("name", JStr "Galaxy A-17"); ("price", JInt 20000);
         ("stock", JInt 20)].

(** The reference that [products_raw] is, once [products_list] has been
    made from it: the product object itself, the list object itself, or
    [None]. *)
Definition raw_ref (raw : json) : pyref :=
  match raw with
  | JDict _ => RefProduct 0
  | JList _ => RefProducts
  | _ => RefNone
  end.

(** Lines 297-315: create the missing files, load both, build [state],
    greet. *)
Definition startup : M unit :=
  has_products <- path_exists PRODUCT_FILE ;;
  (if negb has_products then save_json PRODUCT_FILE default_product
   else ret tt) ;;
  has_sales <- path_exists SALE_FILE ;;
  (if negb has_sales then save_json SALE_FILE (JList []) else ret tt) ;;
  raw <- load_json PRODUCT_FILE JNull ;;
  products_list <- lift (normalize_products raw) ;;
  (fun w => (Ok tt, with_products products_list w)) ;;
  sales_raw <- load_json SALE_FILE JNull ;;
  let sales := ensure_sales_list sales_raw in
  set_state (mkState (raw_ref raw)
               (if (List.length products_list =? 1)%nat then Some O else None)
               (JList sales)) ;;
  print (Print ("Welcome — AI Shop Chatbot (type 'help' for commands)" ++ PyStr.nl)) ;;
  show_products products_list.

(** [try: m except SystemExit: break]: [true] when the loop is left. *)
Definition breaks_on_exit (m : M unit) : M bool :=
  fun w =>
    match m w with
    | (Ok _, w') => (Ok false, w')
    | (Raise SystemExit, w') => (Ok true, w')
    | (Raise e, w') => (Raise e, w')
    end.

(** The read-eval loop, lines 318-323, for at most [fuel] lines;
    [None] when the fuel ran out before the loop was left. *)
Fixpoint main_loop (fuel : nat) : M (option unit) :=
  match fuel with
  | O => ret None
  | S f =>
      line <- input "You: " ;;
      stop <- breaks_on_exit (parse_and_handle (PyStr.strip line)) ;;
      if stop then ret (Some tt) else main_loop f
  end.

Definition main (fuel : nat) : M (option unit) :=
  startup ;;
  main_loop fuel.

End Interpreter.

(* ================================================================== *)
(** ** A reference instance of [ratio]

    The Ratcliff/Obershelp similarity as [difflib.SequenceMatcher]
    computes it when no character is junk, which is the case in
    [get_close_matches] as long as the word is shorter than 200
    characters: the longest common block that starts earliest in [a],
    then earliest in [b], and recursively the same to its left and to
    its right. *)

Module RatcliffObershelp.

Fixpoint common_prefix (a b : list ascii) : nat :=
  match a, b with
  | x :: a', y :: b' => if Ascii.eqb x y then S (common_prefix a' b') else O
  | _, _ => O
  end.

(** Best block of [a] (whole) against the suffixes of [b] from [j] on. *)
Fixpoint best_in_b (a b : list ascii) (i j : nat) (best : nat * nat * nat)
    : nat * nat * nat :=
  match b with
  | [] => best
  | _ :: b' =>
      let k := common_prefix a b in
      best_in_b a b' i (S j)
        (if (snd best <? k)%nat then (i, j, k) else best)
  end.

(** Best block over the suffixes of [a] from [i] on. *)
Fixpoint best_in_a (a b : list ascii) (i : nat) (best : nat * nat * nat)
    : nat * nat * nat :=
  match a with
  | [] => best
  | _ :: a' => best_in_a a' b (S i) (best_in_b a b i 0 best)
  end.

(** [find_longest_match]: [(i, j, k)] with [a[i:i+k] == b[j:j+k]]. *)
Definition find_longest_match (a b : list ascii) : nat * nat * nat :=
  best_in_a a b 0 (O, O, O).

(** The total size of the matching blocks. *)
Fixpoint matches (fuel : nat) (a b : list ascii) : nat :=
  match fuel with
  | O => O
  | S f =>
      match find_longest_match a b with
      | (i, j, k) =>
          if (k =? 0)%nat then O
          else (k + matches f (firstn i a) (firstn j b)
                  + matches f (skipn (i + k) a) (skipn (j + k) b))%nat
      end
  end.

Definition ratio (a b : string) : Q :=
  let la := list_ascii_of_string a in
  let lb := list_ascii_of_string b in
  let total := (List.length la + List.length lb)%nat in
  match total with
  | O => 1
  | S _ =>
      (2 * Z.of_nat (matches (S total) la lb)) # (Pos.of_nat total)
  end.

End RatcliffObershelp.

(* ================================================================== *)
(** * Definitions used by the statements *)

(* ------------------------------------------------------------------ *)
(** ** Products *)

(** The name of a product as the matcher reads it:
    [p.get("name","")], when that is a string. *)
Definition name_of (p : json) : option string :=
  match p with
  | JDict d =>
      match PyDict.get d "name" (JStr "") with
      | JStr s => Some s
      | _ => None
      end
  | _ => None
  end.

Definition has_name (p : json) : Prop := name_of p <> None.

(** The stock of a product as [record_sale] reads it (line 117). *)
Definition stock_of (p : json) : option Z :=
  match p with
  | JDict d => as_int (PyDict.get d "stock" (JInt 0))
  | _ => None
  end.

Definition stocks_nonneg (l : list json) : Prop :=
  Forall (fun p => forall s, stock_of p = Some s -> 0 <= s) l.

(* ------------------------------------------------------------------ *)
(** ** The sale *)

(** The ledger as the program reads it from [sale.json] (line 145-146). *)
Definition persisted_ledger (w : world) : list json :=
  ensure_sales_list
    (match w_sale_file w with Some v => v | None => JNull end).

(** The invoice that a sale builds (lines 124-132). *)
Definition invoice_of (e : entropy) (name : json) (qty : Z)
    (unit_price total : json) (payment_method : string) : json :=
  JDict
    [ ("invoice_number", JStr (create_invoice_number e));
      ("product_name", name);
      ("quantity", JInt qty);
      ("unit_price", unit_price);
      ("total", total);
      ("payment_method", JStr payment_method);
      ("date", JStr (e_now e)) ].

(** The world a successful sale leaves, [new_stock] being what
    [stock - qty] gave. *)
Definition sold_world (w : world) (product : nat) (d : pydict)
    (new_stock : json) (qty : Z) (total : json) (pm : string)
    (products_raw : pyref) : world :=
  let e := w_entropy w (w_tick w) in
  let name := PyDict.get d "name" JNull in
  let invoice :=
    invoice_of e name qty (PyDict.get d "price" (JInt 0)) total pm in
  let products' :=
    list_set (w_products w) product
      (JDict (PyDict.set d "stock" new_stock)) in
  mkWorld products' (w_state w)
    (Some (if is_dict (ref_value products' products_raw)
           then deref products' product
           else ref_value products' products_raw))
    (Some (JList (persisted_ledger w ++ [invoice])))
    (w_stdin w)
    (w_stdout w ++
       [PrintSaleRecorded (JStr (create_invoice_number e));
        PrintSaleSummary name qty total])
    (w_entropy w) (S (w_tick w)).

Definition payment_prompt : out :=
  Prompt "Payment method (CASH/CARD/UPI) [CASH]: ".

(** The message of a refused sale (lines 115 and 119). *)
Definition refusal (d : pydict) (qty : Z) : out :=
  if qty <=? 0 then Print "Quantity must be positive."
  else PrintNotEnoughStock (PyDict.get d "stock" (JInt 0)).

(** The reference that the three call sites hand to [record_sale]:
    [products_raw if isinstance(products_raw, list) else products_list]. *)
Definition sale_ref (w : world) : pyref :=
  if is_list (ref_value (w_products w) (products_raw (w_state w)))
  then products_raw (w_state w) else RefProducts.

(* ------------------------------------------------------------------ *)
(** ** Startup *)

(** The world in which the process starts: nothing in memory, nothing
    printed yet. *)
Definition initial_world (product_file sale_file : option json)
    (stdin : list string) (e : nat -> entropy) : world :=
  mkWorld [] (mkState RefNone None JNull) product_file sale_file stdin [] e 0.

(** What [main] loads: the file, or the default it has just written. *)
Definition loaded_catalog (w : world) : json :=
  match w_product_file w with Some v => v | None => default_product end.

Definition loaded_ledger (w : world) : json :=
  match w_sale_file w with Some v => v | None => JList [] end.

Definition welcome : out :=
  Print ("Welcome — AI Shop Chatbot (type 'help' for commands)" ++ PyStr.nl).

(** The world once both files exist (lines 298-301). *)
Definition files_created (w : world) : world :=
  with_file SALE_FILE (Some (loaded_ledger w))
    (with_file PRODUCT_FILE (Some (loaded_catalog w)) w).

(** The world once [state] is built and the greeting printed
    (lines 303-314), [l] being [products_list]. *)
Definition started_world (w : world) (l : list json) : world :=
  with_stdout (w_stdout w ++ [welcome])
    (with_state
       (mkState (raw_ref (loaded_catalog w))
          (if (List.length l =? 1)%nat then Some O else None)
          (JList (ensure_sales_list (loaded_ledger w))))
       (with_products l (files_created w))).

(** The row that [show_products] prints for one product (line 85). *)
Definition product_row (p : json) : out :=
  match p with
  | JDict d =>
      PrintProductRow (PyDict.get d "name" JNull) (PyDict.get d "price" JNull)
        (PyDict.get d "stock" JNull)
  | _ => Print ""
  end.

(** What [show_products] prints for a catalog of objects. *)
Definition product_listing (l : list json) : list out :=
  match l with
  | [] => [Print "No products loaded."]
  | _ => [Print (PyStr.nl ++ "Products:")] ++ map product_row l ++ [Print ""]
  end.

(** A JSON value that is neither null, nor an object, nor an array. *)
Definition is_scalar (v : json) : bool :=
  match v with
  | JBool _ | JInt _ | JFloat _ | JStr _ => true
  | _ => false
  end.

Definition no_product_selected : out :=
  Print "No product selected. Type product name first or use 'sell <qty> <product>'.".

(* ------------------------------------------------------------------ *)
(** ** The listing of sales *)

(** The product name of a ledger entry as [show_sales] reads it:
    [s.get("product_name","")], when that is a string. *)
Definition sale_name (s : json) : option string :=
  match s with
  | JDict d =>
      match PyDict.get d "product_name" (JStr "") with
      | JStr n => Some n
      | _ => None
      end
  | _ => None
  end.

(** Does the product name of the entry contain [name], case aside? *)
Definition sale_listed (name : string) (s : json) : bool :=
  match sale_name s with
  | Some n => PyStr.contains (PyStr.lower name) (PyStr.lower n)
  | None => false
  end.

(** What [show_sales] prints for a ledger [l] of which it lists the
    rows [rows]. *)
Definition sales_output (l : list json) (rows : list out) : list out :=
  match l with
  | [] => [Print "No sales recorded yet."]
  | _ =>
      match rows with
      | [] => [Print "No sales match that query."]
      | _ => [Print (PyStr.nl ++ "Sales:")] ++ rows ++ [Print ""]
      end
  end.

(** [rows] are the lines of the entries [shown], in that order. *)
Definition rows_of (shown : list json) (rows : list out) : Prop :=
  Forall2 (fun s r => sale_row s = Ok r) shown rows.

(** A non-empty run of blanks. *)
Definition blanks (s : string) : Prop :=
  s <> EmptyString /\ PyStr.all_chars PyStr.is_space s = true.

(** [s] is empty or begins with a character outside [cls]. *)
Definition starts_without (cls : ascii -> bool) (s : string) : Prop :=
  match s with
  | EmptyString => True
  | String c _ => cls c = false
  end.


(* ------------------------------------------------------------------ *)
(** ** Invariants and frames *)

(** The catalog that [product.json] holds, if it holds one. *)
Definition persisted_stocks_nonneg (w : world) : Prop :=
  forall v l, w_product_file w = Some v ->
              normalize_products v = Ok l -> stocks_nonneg l.

(** [products_raw], when it refers to a product, refers to a dict. *)
Definition raw_ok (w : world) : Prop :=
  match products_raw (w_state w) with
  | RefProduct j => is_dict (deref (w_products w) j) = true
  | _ => True
  end.

(** No stock is negative, neither in memory nor in [product.json]. *)
Definition catalog_ok (w : world) : Prop :=
  stocks_nonneg (w_products w) /\ persisted_stocks_nonneg w /\ raw_ok w.

(** The computation [m] only takes a world to one that [R] relates to
    it, whether it returns or raises. *)
Definition respects (R : world -> world -> Prop) {A} (m : M A) : Prop :=
  forall w r w', m w = (r, w') -> R w w'.

Definition keeps_catalog_ok (w w' : world) : Prop :=
  catalog_ok w -> catalog_ok w'.

(** No line is put back on the input. *)
Definition reads_stdin (w w' : world) : Prop :=
  (List.length (w_stdin w') <= List.length (w_stdin w))%nat.

(** [product.json] is as it was, or holds an array. *)
Definition catalog_file_step (w w' : world) : Prop :=
  raw_ok w ->
  raw_ok w' /\
  (w_product_file w' = w_product_file w \/
   exists l, w_product_file w' = Some (JList l)).

(* ------------------------------------------------------------------ *)
(** ** Sample data: the catalog and the sales of the scenarios *)

(** A clock and a random source. *)
Definition sample_entropy (n : nat) : entropy :=
  mkEntropy "20240101"
    (match n with
     | O => "3f2a9c1e-7b4d-4e8a-9c55-0d1e2f3a4b5c"
     | _ => "b7d04e55-19aa-4c03-8f6e-5a2b7c9d0e1f"
     end)
    "2024-01-01 10:00:00".

Definition widget_fields : pydict :=
  [("name", JStr "Widget"); ("price", JInt 10); ("stock", JInt 5)].

Definition widget : json := JDict widget_fields.

Definition gadget : json :=
  JDict [("name", JStr "Gadget Pro"); ("price", JInt 7); ("stock", JInt 2)].

(** A session on the one-Widget catalog, as [startup] leaves it, with
    one payment line waiting. *)
Definition shop_world : world :=
  mkWorld [widget] (mkState RefProducts (Some O) (JList []))
    (Some (JList [widget])) (Some (JList [])) ["CASH"] [] sample_entropy 0.

(** A product with a decimal price: 0.1 as [json.load] reads it, the
    binary64 number nearest to one tenth. *)
Definition tenth : spec_float := S754_finite false 7205759403792794 (-56).

Definition candy_fields : pydict :=
  [("name", JStr "Candy"); ("price", JFloat tenth); ("stock", JInt 5)].

Definition candy : json := JDict candy_fields.

(** A session on the one-Candy catalog. *)
Definition candy_world : world :=
  mkWorld [candy] (mkState RefProducts (Some O) (JList []))
    (Some (JList [candy])) (Some (JList [])) ["CASH"] [] sample_entropy 0.

(** What Python prints as 0.30000000000000004: the product 0.1 * 3. *)
Definition three_tenths : spec_float :=
  S754_finite false 5404319552844596 (-54).

Definition candy_sale : json :=
  invoice_of (sample_entropy 0) (JStr "Candy") 3 (JFloat tenth)
    (JFloat three_tenths) "CASH".

Definition widget_sale : json :=
  invoice_of (sample_entropy 0) (JStr "Widget") 2 (JInt 10) (JInt 20) "CASH".

Definition gadget_sale : json :=
  invoice_of (sample_entropy 1) (JStr "Gadget Pro") 1 (JInt 7) (JInt 7) "UPI".

(** The same session after those two sales. *)
Definition ledger_world : world :=
  mkWorld [widget; gadget]
    (mkState RefProducts None (JList [widget_sale; gadget_sale]))
    (Some (JList [widget; gadget]))
    (Some (JList [widget_sale; gadget_sale])) [] [] sample_entropy 2.


Definition gadget_row : out :=
  PrintSaleRow (JStr "INV-20240101-B7D04E55") (JStr "Gadget Pro") (JInt 1)
    (JInt 7) (JInt 7) (JStr "UPI") (JStr "2024-01-01 10:00:00").

(* ------------------------------------------------------------------ *)
(** ** Plain data

    The guards of the statements: the data on which the text
    operations of the embedding are the Python ones, and which
    [json.dump] and [print] can write.  The embedding computes on
    every string and always writes, so a proof may leave such a guard
    unused; the guard says for which data the statement is one about
    the Python program. *)

(** ASCII text.  On it [lower], [upper], [strip], [isdigit], [\s], [\d]
    and the case-blind match of [re.I] are the operations written out
    in [PyStr] and [Re], and UTF-8 encodes it. *)
Definition ascii_char (c : ascii) : bool := (PyStr.code c <? 128)%nat.

Definition ascii_text (s : string) : bool := PyStr.all_chars ascii_char s.

Definition line_break (c : ascii) : bool :=
  ((PyStr.code c =? 10) || (PyStr.code c =? 13))%nat.

(** A line as [input] returns it, short enough for [int] to read the
    digits in it (CPython stops at 4300 digits). *)
Definition plain_line (s : string) : bool :=
  ascii_text s && (String.length s <=? 4300)%nat
  && PyStr.all_chars (fun c => negb (line_break c)) s.

(** [|z| < 2 ^ bits], up to one bit. *)
Definition within (bits : Z) (z : Z) : bool := Z.log2 (Z.abs z) <? bits.

(** An integer of at most 14000 bits has fewer than 4300 digits:
    [str], [print] and [json.dump] write it. *)
Definition printable_bits : Z := 14000.

(** The product of two integers of at most 7000 bits each is printable. *)
Definition modest_bits : Z := 7000.

(** A JSON value that [json.dump] writes and [print] prints. *)
Fixpoint plain_json (v : json) : bool :=
  match v with
  | JNull | JBool _ | JFloat _ => true
  | JInt z => within printable_bits z
  | JStr s => ascii_text s
  | JList l => forallb plain_json l
  | JDict d =>
      forallb (fun kv => ascii_text (fst kv) && plain_json (snd kv)) d
  end.

(** A price that is a number, as the data model has it. *)
Definition numeric_price (v : json) : bool :=
  match v with
  | JInt z => within modest_bits z
  | JBool _ | JFloat _ => true
  | _ => false
  end.

(** A stock that is an integer, as the data model has it. *)
Definition integer_stock (v : json) : bool :=
  match v with
  | JInt z => within modest_bits z
  | JBool _ => true
  | _ => false
  end.

(** A catalog entry of plain data whose price and stock, read with the
    defaults of [record_sale], are numbers. *)
Definition plain_product (p : json) : bool :=
  plain_json p &&
  match p with
  | JDict d =>
      numeric_price (PyDict.get d "price" (JInt 0))
      && integer_stock (PyDict.get d "stock" (JInt 0))
  | _ => true
  end.

(** What [product.json] holds: one product or an array of them. *)
Definition plain_catalog (v : json) : bool :=
  match v with
  | JList l => forallb plain_product l
  | _ => plain_product v
  end.

Definition plain_entropy (e : entropy) : bool :=
  ascii_text (e_today e) && ascii_text (e_uuid4 e) && ascii_text (e_now e).

Definition plain_file (ok : json -> bool) (f : option json) : bool :=
  match f with Some v => ok v | None => true end.

(** The surroundings of a session: both files hold plain data, the
    lines typed are plain, and so are the date and the identifier. *)
Definition plain_files (w : world) : Prop :=
  plain_file plain_catalog (w_product_file w) = true /\
  plain_file plain_json (w_sale_file w) = true /\
  forallb plain_line (w_stdin w) = true /\
  (forall n, plain_entropy (w_entropy w n) = true).

(** The same during the session, with the catalog in memory. *)
Definition plain_world (w : world) : Prop :=
  plain_files w /\ forallb plain_product (w_products w) = true.

(** The products have ASCII names. *)
Definition ascii_name (p : json) : bool :=
  match name_of p with Some n => ascii_text n | None => true end.

Definition ascii_names (products : list json) : bool :=
  forallb ascii_name products.

(** The ledger read from [sale.json] in [w'] is the one of [w] with
    entries added at its end. *)
Definition ledger_grows (w w' : world) : Prop :=
  exists added, persisted_ledger w' = (persisted_ledger w ++ added)%list.

(** [product.json] holds the catalog that is in memory: loading it now
    would give [w_products]. *)
Definition catalog_in_sync (w : world) : Prop :=
  exists v, w_product_file w = Some v /\
            normalize_products v = Ok (w_products w).

Definition keeps_catalog_in_sync (w w' : world) : Prop :=
  raw_ok w /\ catalog_in_sync w -> raw_ok w' /\ catalog_in_sync w'.

(** Unless a sale has been recorded in between (which reads the clock),
    the catalog in memory and the two files are the same in [w'] as in
    [w]. *)
Definition writes_only_by_sale (w w' : world) : Prop :=
  (w_tick w <= w_tick w')%nat /\
  (w_tick w' = w_tick w ->
   w_products w' = w_products w /\
   w_product_file w' = w_product_file w /\
   w_sale_file w' = w_sale_file w).


(** The clock has not been read and the two files are the same. *)
Definition same_files (w w' : world) : Prop :=
  w_tick w' = w_tick w /\
  w_product_file w' = w_product_file w /\
  w_sale_file w' = w_sale_file w.

(** The units of a product in stock, as a sale would read them; a
    product whose stock is no number cannot be sold and counts for
    none. *)
Definition stock_count (p : json) : Z :=
  match stock_of p with Some s => s | None => 0 end.

Fixpoint total_stock (l : list json) : Z :=
  match l with
  | [] => 0
  | p :: r => stock_count p + total_stock r
  end.

(** The units that a ledger entry says were sold. *)
Definition quantity_of (s : json) : Z :=
  match py_subscript s "quantity" with
  | Ok (JInt q) => q
  | _ => 0
  end.

Fixpoint quantity_sold (l : list json) : Z :=
  match l with
  | [] => 0
  | s :: r => quantity_of s + quantity_sold r
  end.

(** The units in stock plus the units in the ledger. *)
Definition units (w : world) : Z :=
  total_stock (w_products w) + quantity_sold (persisted_ledger w).

(** The stock of the product, read with the default of [record_sale],
    is an integer: its units are counted. *)
Definition counted (p : json) : bool :=
  match p with
  | JDict d =>
      match as_int (PyDict.get d "stock" (JInt 0)) with
      | Some _ => true
      | None => false
      end
  | _ => true
  end.

Definition keeps_units (w w' : world) : Prop :=
  forallb counted (w_products w) = true ->
  forallb counted (w_products w') = true /\ units w' = units w.

(** The payment method that a sale records for the line typed at the
    prompt (lines 221, 235 and 256):
    [input(...).strip().upper() or "CASH"]. *)
Definition payment_method_of (line : string) : string :=
  let x := PyStr.upper (PyStr.strip line) in
  if PyStr.is_empty x then "CASH" else x.

(** What a sale of [qty] of the product [i] makes of the world [w]:
    the payment line [pay] is read, the stock of the product goes from
    [stock_n] to [stock_n - qty], the invoice is added at the end of
    [sale.json], the ledger of the session is the one of [sale.json],
    the product is selected, and the prompt and the two lines of the
    receipt are printed. *)
Definition sale_effect (w : world) (i : nat) (d : pydict) (stock_n qty : Z)
    (total : json) (pay : string) (rest : list string) (w' : world) : Prop :=
  w_stdin w' = rest /\
  w_products w'
  = list_set (w_products w) i
      (JDict (PyDict.set d "stock" (JInt (stock_n - qty)))) /\
  persisted_ledger w'
  = (persisted_ledger w
     ++ [invoice_of (w_entropy w (w_tick w)) (PyDict.get d "name" JNull)
           qty (PyDict.get d "price" (JInt 0)) total
           (payment_method_of pay)])%list /\
  last_sales (w_state w') = JList (persisted_ledger w') /\
  last_selected_product (w_state w') = Some i /\
  products_raw (w_state w') = products_raw (w_state w) /\
  w_stdout w'
  = (w_stdout w
     ++ [payment_prompt;
         PrintSaleRecorded
           (JStr (create_invoice_number (w_entropy w (w_tick w))));
         PrintSaleSummary (PyDict.get d "name" JNull) qty total])%list.

(** The computation [m] does nothing but print: from any world it
    leaves the same world with lines added to the output, whether it
    returns or raises. *)
Definition prints_only {A} (m : M A) : Prop :=
  forall w, exists o, snd (m w) = with_stdout (w_stdout w ++ o) w.

(** Does the name of [p], trimmed, equal [q] up to case (line 60)? *)
Definition name_equals (q : string) (p : json) : bool :=
  match name_of p with
  | Some n => String.eqb (PyStr.lower (PyStr.strip n)) (PyStr.lower q)
  | None => false
  end.

(** Does the name of [p], trimmed, contain [q] up to case (line 65)? *)
Definition name_contains (q : string) (p : json) : bool :=
  match name_of p with
  | Some n => PyStr.contains (PyStr.lower q) (PyStr.lower (PyStr.strip n))
  | None => false
  end.

(** A price that [record_sale] multiplies by any quantity (line 123):
    an integer. *)
Definition readable_price (v : json) : bool :=
  match as_int v with Some _ => true | None => false end.

(** A product that every function of the program can read: an object
    with a name that is a string, a stock that is an integer (or no
    stock) and a price that is an integer (or no price). *)
Definition wf_product (p : json) : bool :=
  match p with
  | JDict d =>
      match PyDict.lookup d "name" with Some (JStr _) => true | _ => false end
      && match as_int (PyDict.get d "stock" (JInt 0)) with
         | Some _ => true
         | None => false
         end
      && readable_price (PyDict.get d "price" (JInt 0))
  | _ => false
  end.

Definition has_key (d : pydict) (k : string) : bool :=
  match PyDict.lookup d k with Some _ => true | None => false end.

(** A ledger entry that [show_sales] can read: an object with the seven
    keys of an invoice, its product name a string. *)
Definition wf_sale (s : json) : bool :=
  match s with
  | JDict d =>
      match PyDict.lookup d "product_name" with
      | Some (JStr _) => true
      | _ => false
      end
      && forallb (has_key d)
           ["invoice_number"; "quantity"; "unit_price"; "total";
            "payment_method"; "date"]
  | _ => false
  end.

(** The ledger of the session is a list of readable entries. *)
Definition sales_ok (sales : json) : Prop :=
  exists l, sales = JList l /\ forallb wf_sale l = true.

(** A session whose catalog and ledger are readable, the ledger in
    memory being the one of [sale.json]. *)
Definition wf_world (w : world) : Prop :=
  forallb wf_product (w_products w) = true /\
  last_sales (w_state w) = JList (persisted_ledger w) /\
  forallb wf_sale (persisted_ledger w) = true.

(** The outcomes that are not crashes: a result, the [SystemExit] of
    "exit", and the [EOFError] of [input] at the end of the input. *)
Definition benign {A} (r : result A) : Prop :=
  match r with
  | Ok _ => True
  | Raise e => e = SystemExit \/ e = EOFError
  end.

Definition safe_out {A} (x : result A * world) : Prop :=
  benign (fst x) /\ wf_world (snd x).

(** From a readable session, [m] does not crash and leaves a readable
    session. *)
Definition safe {A} (m : M A) : Prop :=
  forall w, wf_world w -> safe_out (m w).

(** A string that [int] reads: not empty, of digits, and of at most the
    4300 digits that CPython converts. *)
Definition int_reads (q : string) : Prop :=
  PyStr.isdigit q = true /\ (String.length q <= 4300)%nat.

(** A product name as it can be typed on a line: trimmed, not empty,
    free of newlines. *)
Definition typed_name (name : string) : Prop :=
  name <> EmptyString /\ PyStr.strip name = name /\
  PyStr.all_chars Re.dot name = true.

(** A quantity as it can be typed: a non-empty string of digits. *)
Definition typed_quantity (qty : string) : Prop :=
  qty <> EmptyString /\ PyStr.all_digits qty = true.

(** [line] reads "sell <qty> <name>": the word in any case, blanks
    between the three parts. *)
Definition is_sell_qty_name (line qty name : string) : Prop :=
  exists kw ws1 ws2,
    line = kw ++ ws1 ++ qty ++ ws2 ++ name /\
    PyStr.lower kw = "sell" /\ blanks ws1 /\ typed_quantity qty /\
    blanks ws2 /\ typed_name name.

(** [line] reads "<qty> <name>". *)
Definition is_qty_name (line qty name : string) : Prop :=
  exists ws,
    line = qty ++ ws ++ name /\
    typed_quantity qty /\ blanks ws /\ typed_name name.

Section Commands.

Variable ratio : string -> string -> Q.

(** Lines 217-226: look the product up and sell [qty] of it. *)
Definition sell_by_name (name : string) (qty : Z) : M unit :=
  p <- find_in_catalog ratio name ;;
  w <- get_world ;;
  if negb (ref_truthy (w_products w) p) then
    print (Print "Product not found.")
  else
    match p with
    | Some i => sell_block i qty
    | None => ret tt
    end.

(** Lines 233-248: the same for "<qty> <name>", where the answer for an
    unknown name depends on whether a product is selected. *)
Definition sell_by_name_or_hint (name : string) (qty : Z) : M unit :=
  p <- find_in_catalog ratio name ;;
  w <- get_world ;;
  if ref_truthy (w_products w) p then
    match p with
    | Some i => sell_block i qty
    | None => ret tt
    end
  else if ref_truthy (w_products w)
            (last_selected_product (w_state w)) then
    print (Print "Product not found. Try 'show products' to see names.")
  else
    print (Print "Product not found.").

End Commands.

(** [line] reads "sell <name> <qty>", the name beginning with no
    digit. *)
Definition is_sell_name_qty (line name qty : string) : Prop :=
  exists kw ws1 ws2,
    line = kw ++ ws1 ++ name ++ ws2 ++ qty /\
    PyStr.lower kw = "sell" /\ blanks ws1 /\ typed_name name /\
    starts_without PyStr.is_digit name /\
    blanks ws2 /\ typed_quantity qty.

(** [line] reads "show <name>", "price of <name>" or "how many <name>":
    the words in any case, one space after them, then blanks or none. *)
Definition is_show_line (line name : string) : Prop :=
  exists kw ws,
    line = kw ++ " " ++ ws ++ name /\
    (PyStr.lower kw = "show" \/ PyStr.lower kw = "price of" \/
     PyStr.lower kw = "how many") /\
    PyStr.all_chars PyStr.is_space ws = true /\ typed_name name.

(** The lines that list the products or the sales (lines 176-190),
    which are tried first. *)
Definition is_listing (low : string) : bool :=
  str_in low ["show products"; "list products"; "products"]
  || (PyStr.startswith low "show sales" || PyStr.startswith low "sales")
  || str_in low ["show last sale"; "last sale"].

Section ShowCommand.

Variable ratio : string -> string -> Q.

(** Lines 196-203: look the product up, show it and select it. *)
Definition show_by_name (name : string) : M unit :=
  p <- find_in_catalog ratio name ;;
  w <- get_world ;;
  if ref_truthy (w_products w) p then
    match p with
    | Some i =>
        show_product (deref (w_products w) i) ;;
        set_last_selected_product (Some i)
    | None => ret tt
    end
  else print (Print "Product not found.").

End ShowCommand.

(* ================================================================== *)
(** * Verification *)

(* ================================================================== *)
(** ** Running the monad *)

Ltac mrun :=
  repeat (cbv beta iota delta
            [bind lift ret raise get_world get_state set_state set_last_sales
             set_last_selected_product print
             save_json load_json read_entropy path_exists];
          cbn [w_products w_state w_product_file w_sale_file w_stdin
               w_stdout w_entropy w_tick with_products with_state
               with_file with_stdin with_stdout with_tick file]).

(* ================================================================== *)
(** ** Lists and dicts *)

Lemma deref_nth_error (l : list json) (i : nat) (x : json) :
  nth_error l i = Some x -> deref l i = x.
Proof.
  unfold deref. revert i. induction l as [|a l IH]; intros [|i] H; simpl in *;
    try discriminate; [now inversion H | now apply IH].
Qed.

Lemma deref_list_set (l : list json) (i : nat) (x v : json) :
  nth_error l i = Some x -> deref (list_set l i v) i = v.
Proof.
  unfold deref. revert i. induction l as [|a l IH]; intros [|i] H; simpl in *;
    try discriminate; [reflexivity | now apply IH].
Qed.

Lemma deref_dict (l : list json) (i : nat) (d : pydict) :
  deref l i = JDict d -> nth_error l i = Some (JDict d).
Proof.
  unfold deref. revert i. induction l as [|a l IH]; intros [|i] H; simpl in *;
    try discriminate; [now subst | now apply IH].
Qed.

Lemma dict_get_set (d : pydict) (k : string) (v dflt : json) :
  PyDict.get (PyDict.set d k v) k dflt = v.
Proof.
  unfold PyDict.get. induction d as [|[k' v'] d IH]; simpl.
  - now rewrite String.eqb_refl.
  - destruct (String.eqb k' k) eqn:E; simpl; rewrite E; [reflexivity | exact IH].
Qed.

Lemma dict_get_set_other (d : pydict) (k k' : string) (v dflt : json) :
  k <> k' -> PyDict.get (PyDict.set d k v) k' dflt = PyDict.get d k' dflt.
Proof.
  intros N. unfold PyDict.get. induction d as [|[k0 v0] d IH]; simpl.
  - destruct (String.eqb_spec k k'); [contradiction | reflexivity].
  - destruct (String.eqb_spec k0 k) as [->|Nk]; simpl.
    + destruct (String.eqb_spec k k'); [contradiction | reflexivity].
    + destruct (String.eqb k0 k'); [reflexivity | exact IH].
Qed.

Lemma stocks_nonneg_list_set (l : list json) (i : nat) (p : json) :
  stocks_nonneg l -> (forall s, stock_of p = Some s -> 0 <= s) ->
  stocks_nonneg (list_set l i p).
Proof.
  unfold stocks_nonneg. intros Hl Hp. revert i.
  induction Hl as [|x l Hx Hl IH]; intros [|i]; simpl; auto.
Qed.

Lemma is_dict_list_set (l : list json) (i j : nat) (d : pydict) :
  is_dict (deref l j) = true ->
  is_dict (deref (list_set l i (JDict d)) j) = true.
Proof.
  unfold deref. revert i j.
  induction l as [|x l IH]; intros [|i] [|j]; simpl; auto.
Qed.

(* ================================================================== *)
(** ** Strings *)

Lemma digit_not_space (c : ascii) :
  PyStr.is_digit c = true -> PyStr.is_space c = false.
Proof.
  unfold PyStr.is_digit, PyStr.is_space. intros H.
  apply andb_true_iff in H as [H1 H2].
  apply Nat.leb_le in H1. apply Nat.leb_le in H2.
  apply orb_false_iff; split; apply andb_false_iff.
  - right. apply Nat.leb_gt. lia.
  - right. apply Nat.leb_gt. lia.
Qed.

Lemma digit_lower (c : ascii) :
  PyStr.is_digit c = true -> PyStr.lower_char c = c.
Proof.
  unfold PyStr.is_digit, PyStr.lower_char, PyStr.is_upper. intros H.
  apply andb_true_iff in H as [H1 H2].
  apply Nat.leb_le in H1. apply Nat.leb_le in H2.
  replace (65 <=? PyStr.code c)%nat with false; [reflexivity|].
  symmetry. apply Nat.leb_gt. lia.
Qed.

Lemma digit_dot (c : ascii) : PyStr.is_digit c = true -> Re.dot c = true.
Proof.
  unfold PyStr.is_digit, Re.dot. intros H.
  apply andb_true_iff in H as [H1 H2]. apply Nat.leb_le in H1.
  apply negb_true_iff, Nat.eqb_neq. lia.
Qed.

Lemma digit_neqb (c x : ascii) :
  PyStr.is_digit c = true -> PyStr.is_digit x = false -> Ascii.eqb x c = false.
Proof.
  intros Hc Hx. destruct (Ascii.eqb_spec x c); [subst; congruence | reflexivity].
Qed.

Lemma all_digits_tail (c : ascii) (r : string) :
  PyStr.all_digits (String c r) = true -> PyStr.all_digits r = true.
Proof.
  unfold PyStr.all_digits. cbn. intros H.
  now apply andb_true_iff in H as [_ H].
Qed.

Lemma lower_digits (s : string) :
  PyStr.all_digits s = true -> PyStr.lower s = s.
Proof.
  unfold PyStr.all_digits, PyStr.lower.
  induction s as [|c s IH]; cbn; [reflexivity|].
  intros H. apply andb_true_iff in H as [Hc Hs].
  now rewrite digit_lower, IH.
Qed.

Lemma rstrip_length (s : string) :
  (String.length (PyStr.rstrip s) <= String.length s)%nat.
Proof.
  induction s as [|c s IH]; cbn; [lia|].
  destruct (PyStr.rstrip s); [destruct (PyStr.is_space c)|]; cbn in *; lia.
Qed.

Lemma lstrip_length (s : string) :
  (String.length (PyStr.lstrip s) <= String.length s)%nat.
Proof.
  induction s as [|c s IH]; cbn; [lia|].
  destruct (PyStr.is_space c); cbn; lia.
Qed.

(** A string that [strip] leaves alone has no blank at either end. *)
Lemma strip_fixed (s : string) :
  PyStr.strip s = s -> PyStr.lstrip s = s /\ PyStr.rstrip s = s.
Proof.
  unfold PyStr.strip. intros H.
  assert (L : PyStr.lstrip s = s).
  { destruct s as [|c s]; [reflexivity|]. cbn in *.
    destruct (PyStr.is_space c); [|reflexivity].
    pose proof (rstrip_length (PyStr.lstrip s)) as H1.
    pose proof (lstrip_length s) as H2.
    rewrite H in H1. cbn in H1. lia. }
  split; [exact L | now rewrite L in H].
Qed.

Lemma rstrip_app (a b : string) :
  PyStr.rstrip b <> EmptyString ->
  PyStr.rstrip (a ++ b) = a ++ PyStr.rstrip b.
Proof.
  intros Hb. induction a as [|c a IH]; cbn; [reflexivity|].
  rewrite IH. destruct (a ++ PyStr.rstrip b) eqn:E; [|reflexivity].
  destruct a; cbn in E; [contradiction | discriminate].
Qed.

Lemma rstrip_app_fixed (a b : string) :
  b <> EmptyString -> PyStr.rstrip b = b ->
  PyStr.rstrip (a ++ b) = a ++ b /\ a ++ b <> EmptyString.
Proof.
  intros Hne Hr. split.
  - rewrite rstrip_app; rewrite Hr; [reflexivity | exact Hne].
  - destruct a; cbn; [exact Hne | discriminate].
Qed.

Lemma strip_digits (s : string) :
  PyStr.all_digits s = true -> PyStr.strip s = s.
Proof.
  unfold PyStr.all_digits, PyStr.strip. intros H.
  assert (L : PyStr.lstrip s = s).
  { destruct s as [|c s]; [reflexivity|]. cbn in *.
    apply andb_true_iff in H as [Hc _]. now rewrite digit_not_space. }
  rewrite L. induction s as [|c s IH]; [reflexivity|]. cbn in *.
  apply andb_true_iff in H as [Hc Hs].
  rewrite IH; auto.
  - destruct s; [now rewrite digit_not_space | reflexivity].
  - destruct s as [|c' s]; [reflexivity|]. cbn in *.
    apply andb_true_iff in Hs as [Hc' _]. now rewrite digit_not_space.
Qed.

Lemma code_lower_upper (c : ascii) :
  PyStr.is_upper c = true ->
  PyStr.code (ascii_of_nat (PyStr.code c + 32)) = (PyStr.code c + 32)%nat.
Proof.
  unfold PyStr.is_upper, PyStr.code. intros H.
  apply andb_true_iff in H as [_ H]. apply Nat.leb_le in H.
  apply nat_ascii_embedding. lia.
Qed.

Lemma is_space_lower_char (c : ascii) :
  PyStr.is_space (PyStr.lower_char c) = PyStr.is_space c.
Proof.
  unfold PyStr.lower_char. destruct (PyStr.is_upper c) eqn:U; [|reflexivity].
  unfold PyStr.is_space. rewrite (code_lower_upper c U).
  unfold PyStr.is_upper in U. apply andb_true_iff in U as [U1 U2].
  apply Nat.leb_le in U1. apply Nat.leb_le in U2.
  repeat match goal with
         | |- context [(?a <=? ?b)%nat] => destruct (Nat.leb_spec a b)
         end; cbn; try reflexivity; lia.
Qed.




Lemma rstrip_idem (s : string) : PyStr.rstrip (PyStr.rstrip s) = PyStr.rstrip s.
Proof.
  induction s as [|c s IH]; cbn; [reflexivity|].
  destruct (PyStr.rstrip s) as [|c' r] eqn:E.
  - destruct (PyStr.is_space c) eqn:Sc; cbn; [reflexivity | now rewrite Sc].
  - cbn [PyStr.rstrip] in *. fold PyStr.rstrip in *.
    change (PyStr.rstrip (String c (String c' r)))
      with (match PyStr.rstrip (String c' r) with
            | EmptyString =>
                if PyStr.is_space c then EmptyString else String c EmptyString
            | r' => String c r'
            end).
    rewrite IH. reflexivity.
Qed.

Lemma lstrip_head (s : string) :
  match PyStr.lstrip s with
  | EmptyString => True
  | String c _ => PyStr.is_space c = false
  end.
Proof.
  induction s as [|c s IH]; cbn; [exact I|].
  destruct (PyStr.is_space c) eqn:E; [exact IH | exact E].
Qed.

Lemma rstrip_head (s : string) (c : ascii) (r : string) :
  s = String c r -> PyStr.is_space c = false ->
  exists r', PyStr.rstrip s = String c r'.
Proof.
  intros -> Hc. cbn. destruct (PyStr.rstrip r); [rewrite Hc|]; eauto.
Qed.

Lemma strip_idem (s : string) : PyStr.strip (PyStr.strip s) = PyStr.strip s.
Proof.
  unfold PyStr.strip.
  assert (L : PyStr.lstrip (PyStr.rstrip (PyStr.lstrip s))
              = PyStr.rstrip (PyStr.lstrip s)).
  { pose proof (lstrip_head s) as H.
    destruct (PyStr.lstrip s) as [|c r] eqn:E; [reflexivity|].
    destruct (rstrip_head _ c r eq_refl H) as [r' ->]. cbn. now rewrite H. }
  rewrite L. apply rstrip_idem.
Qed.


Lemma trimmed_head (name : string) :
  PyStr.strip name = name -> starts_without PyStr.is_space name.
Proof.
  intros Hs. destruct (strip_fixed name Hs) as [Hl _].
  destruct name as [|c n]; [exact I|]. cbn in *.
  destruct (PyStr.is_space c) eqn:E; [|reflexivity].
  pose proof (lstrip_length n) as L. rewrite Hl in L. cbn in L. lia.
Qed.

Lemma lower_app (a b : string) :
  PyStr.lower (a ++ b) = PyStr.lower a ++ PyStr.lower b.
Proof.
  unfold PyStr.lower. induction a as [|c a IH]; cbn; [reflexivity|].
  now rewrite IH.
Qed.

Lemma lower_head (kw : string) (a : ascii) (p : string) :
  PyStr.lower kw = String a p ->
  exists c k, kw = String c k /\ PyStr.lower_char c = a /\ PyStr.lower k = p.
Proof.
  destruct kw as [|c k]; [discriminate|]. cbn. intros [= H1 H2]. eauto.
Qed.


Lemma startswith_refl (s : string) : PyStr.startswith s s = true.
Proof.
  induction s as [|c s IH]; cbn; [reflexivity|].
  now rewrite Ascii.eqb_refl, IH.
Qed.

Lemma contains_refl (s : string) : PyStr.contains s s = true.
Proof.
  destruct s; [reflexivity|]. cbn [PyStr.contains].
  now rewrite startswith_refl.
Qed.

Lemma startswith_digits (x : ascii) (p : string) (c : ascii) (u : string) :
  PyStr.is_digit c = true -> PyStr.is_digit x = false ->
  PyStr.startswith (String c u) (String x p) = false.
Proof. intros Hc Hx. cbn. now rewrite (digit_neqb c x Hc Hx). Qed.

Lemma eqb_digits (x : ascii) (p : string) (c : ascii) (u : string) :
  PyStr.is_digit c = true -> PyStr.is_digit x = false ->
  String.eqb (String c u) (String x p) = false.
Proof.
  intros Hc Hx. cbn. 
  destruct (Ascii.eqb_spec c x); [subst; congruence | reflexivity].
Qed.


(* ================================================================== *)
(** ** Regular expressions *)

Lemma plus_greedy_cons {A} (cls : ascii -> bool) (c : ascii) (r : string)
    (pos : nat) (k : nat -> string -> option A) :
  Re.plus_greedy cls pos (String c r) k =
  if cls c then
    match Re.plus_greedy cls (S pos) r k with
    | Some x => Some x
    | None => k (S pos) r
    end
  else None.
Proof. reflexivity. Qed.

(** A run of [cls] up to the end of the subject is taken whole by the
    greedy [+], if what follows accepts the end. *)
Lemma plus_greedy_all {A} (cls : ascii -> bool) (s : string) :
  forall (c : ascii) (pos : nat) (k : nat -> string -> option A),
    PyStr.all_chars cls (String c s) = true ->
    k (pos + S (String.length s))%nat EmptyString <> None ->
    Re.plus_greedy cls pos (String c s) k
    = k (pos + S (String.length s))%nat EmptyString.
Proof.
  induction s as [|c' s IH]; intros c pos k H Hk.
  - cbn in *. apply andb_true_iff in H as [Hc _]. rewrite Hc.
    now rewrite Nat.add_1_r in *.
  - cbn [PyStr.all_chars] in H. apply andb_true_iff in H as [Hc Hs].
    rewrite plus_greedy_cons, Hc.
    cbn [String.length] in *.
    replace (pos + S (S (String.length s)))%nat
      with (S pos + S (String.length s))%nat in * by lia.
    rewrite (IH c' (S pos) k Hs Hk).
    destruct (k (S pos + S (String.length s))%nat EmptyString);
      [reflexivity | contradiction].
Qed.

(** The greedy [+] fails when what follows fails on every rest that
    satisfies [Q], a property that rests inherit. *)
Lemma plus_greedy_none {A} (cls : ascii -> bool) (Q : string -> Prop)
    (k : nat -> string -> option A) :
  (forall c r, Q (String c r) -> Q r) ->
  (forall pos r, Q r -> k pos r = None) ->
  forall s pos, Q s -> Re.plus_greedy cls pos s k = None.
Proof.
  intros Htail Hk. induction s as [|c s IH]; intros pos Hs; cbn; [reflexivity|].
  destruct (cls c); [|reflexivity].
  rewrite IH by eauto. apply Hk; eauto.
Qed.

(** A run of [cls] followed by something else is taken whole by the
    greedy [+], if what follows accepts there. *)
Lemma plus_greedy_run {A} (cls : ascii -> bool) (ws rest : string) (x : A) :
  forall (pos : nat) (k : nat -> string -> option A),
    ws <> EmptyString -> PyStr.all_chars cls ws = true ->
    starts_without cls rest ->
    k (pos + String.length ws)%nat rest = Some x ->
    Re.plus_greedy cls pos (ws ++ rest) k = Some x.
Proof.
  induction ws as [|c ws IH]; intros pos k Hne Hall Hrest Hk; [contradiction|].
  cbn [PyStr.all_chars] in Hall. apply andb_true_iff in Hall as [Hc Hws].
  cbn [String.append]. rewrite plus_greedy_cons, Hc.
  cbn [String.length] in Hk. rewrite <- Nat.add_succ_comm in Hk.
  destruct ws as [|c' ws'].
  - cbn [String.append]. cbn [String.length] in Hk. rewrite Nat.add_0_r in Hk.
    destruct rest as [|d rest]; cbn in *; [|rewrite Hrest]; now rewrite Hk.
  - rewrite (IH (S pos) k); [reflexivity | discriminate | exact Hws
                            | exact Hrest | exact Hk].
Qed.

Lemma plus_space_digits {A} (s : string) (pos : nat)
    (k : nat -> string -> option A) :
  PyStr.all_digits s = true -> Re.plus_greedy Re.space pos s k = None.
Proof.
  destruct s as [|c s]; [reflexivity|]. unfold PyStr.all_digits. cbn.
  intros H. apply andb_true_iff in H as [Hc _].
  unfold Re.space. now rewrite digit_not_space.
Qed.

Lemma lit_digits (p : string) (c : ascii) (u : string) (x : ascii) :
  PyStr.is_digit c = true -> PyStr.is_digit x = false ->
  PyStr.lower_char x = x ->
  Re.lit true (String x p) (String c u) = None.
Proof.
  intros Hc Hx Hl. cbn. unfold Re.char_eq.
  now rewrite Hl, (digit_lower c Hc), (digit_neqb c x Hc Hx).
Qed.

(** With [re.I] a literal matches the same word in any case. *)
Lemma lit_lower (p kw rest : string) :
  PyStr.lower kw = PyStr.lower p -> Re.lit true p (kw ++ rest) = Some rest.
Proof.
  revert kw. induction p as [|a p IH]; intros kw H.
  - destruct kw; [reflexivity | discriminate].
  - cbn in H. destruct (lower_head kw _ _ H) as (c & k & -> & Hc & Hk).
    cbn. unfold Re.char_eq. rewrite Hc, Ascii.eqb_refl. now apply IH.
Qed.

(** A line of digits is matched by [^\d+$] ... *)
Lemma rmatch_number (u : string) :
  u <> EmptyString -> PyStr.all_digits u = true ->
  rmatch false re_number u = Some [].
Proof.
  intros Hne Hd. destruct u as [|c u]; [contradiction|].
  unfold rmatch, re_number. cbn [run ngroups Nat.eqb Nat.add List.repeat].
  unfold digit. rewrite plus_greedy_all; auto; cbn; discriminate.
Qed.

(** ... and by none of the patterns tried before it. *)
Lemma rmatch_qty_name_digits (u : string) :
  PyStr.all_digits u = true -> rmatch false re_qty_name u = None.
Proof.
  intros Hd. unfold rmatch, re_qty_name.
  cbn [run ngroups Nat.eqb Nat.add List.repeat].
  apply (plus_greedy_none _ (fun s => PyStr.all_digits s = true)); auto.
  - apply all_digits_tail.
  - intros pos r Hr. now apply plus_space_digits.
Qed.

Lemma rmatch_sell_digits (u : string) :
  u <> EmptyString -> PyStr.all_digits u = true ->
  or_match (rmatch true re_sell_qty_name u) (rmatch true re_sell_name_qty u)
  = None.
Proof.
  intros Hne Hd. destruct u as [|c u]; [contradiction|].
  unfold PyStr.all_digits in Hd. cbn in Hd.
  apply andb_true_iff in Hd as [Hc _].
  unfold rmatch, re_sell_qty_name, re_sell_name_qty.
  cbn [run]. rewrite !(lit_digits _ c u) by (assumption || reflexivity).
  reflexivity.
Qed.

(* ================================================================== *)
(** ** The name matcher *)

Lemma exact_test_named (name : string) (p : json) (n : string) :
  name_of p = Some n ->
  exact_test name p
  = Ok (String.eqb (PyStr.lower (PyStr.strip n)) (PyStr.lower name)).
Proof.
  unfold name_of, exact_test. destruct p; try discriminate. cbn.
  destruct (PyDict.get kv "name" (JStr "")); try discriminate.
  now intros [= ->].
Qed.

Lemma substring_test_named (name : string) (p : json) (n : string) :
  name_of p = Some n ->
  substring_test name p
  = Ok (PyStr.contains (PyStr.lower name) (PyStr.lower (PyStr.strip n))).
Proof.
  unfold name_of, substring_test. destruct p; try discriminate. cbn.
  destruct (PyDict.get kv "name" (JStr "")); try discriminate.
  now intros [= ->].
Qed.

Lemma first_match_none (test : json -> result bool) (l : list json) (i0 : nat) :
  Forall (fun p => test p = Ok false) l -> first_match test l i0 = Ok None.
Proof.
  intros H. revert i0. induction H as [|p l Hp Hl IH]; intros i0; cbn;
    [reflexivity|]. rewrite Hp. cbn. apply IH.
Qed.


Lemma names_of_named (l : list json) :
  Forall has_name l ->
  exists ns, names_of l = Ok (map JStr ns) /\
             Forall2 (fun p n => name_of p = Some n) l ns.
Proof.
  induction 1 as [|p l Hp Hl [ns [E F]]].
  - exists []. split; [reflexivity | constructor].
  - unfold has_name, name_of in Hp. destruct p; try contradiction.
    destruct (PyDict.get kv "name" (JStr "")) eqn:G; try contradiction.
    exists (s :: ns). split.
    + cbn. unfold PyDict.get in G |- *. 
      destruct (PyDict.lookup kv "name"); cbn in *; rewrite ?G, E; subst; reflexivity.
    + constructor; [|exact F]. cbn. now rewrite G.
Qed.

Section MatcherFacts.

Variable ratio : string -> string -> Q.




End MatcherFacts.





(* ================================================================== *)
(** ** The sale transaction *)

Lemma py_int_gt_int (stock : json) (s qty : Z) :
  as_int stock = Some s -> py_int_gt qty stock = Ok (s <? qty).
Proof. destruct stock; cbn; try discriminate; now intros [= ->]. Qed.

Lemma py_sub_int_int (stock : json) (s qty : Z) :
  as_int stock = Some s -> py_sub_int stock qty = Ok (JInt (s - qty)).
Proof. destruct stock; cbn; try discriminate; now intros [= ->]. Qed.

(** A sale that passes the stock test, of a product whose price can be
    multiplied and whose stock can be lowered, succeeds, and this is the
    world it leaves. *)
Lemma py_sub_int_nonneg (q : Z) (v s : json) (s' : Z) :
  py_int_gt q v = Ok false -> py_sub_int v q = Ok s ->
  as_int s = Some s' -> 0 <= s'.
Proof.
  destruct v as [|b|z|f| | |]; cbn; try discriminate.
  - intros Hg Hs Hi. inversion Hs; subst s. cbn in Hi. inversion Hi.
    assert (Hlt : (Z.b2z b <? q) = false) by congruence.
    apply Z.ltb_ge in Hlt. lia.
  - intros Hg Hs Hi. inversion Hs; subst s. cbn in Hi. inversion Hi.
    assert (Hlt : (z <? q) = false) by congruence.
    apply Z.ltb_ge in Hlt. lia.
  - intros _ Hs Hi. destruct (PyFloat.of_int q); [|discriminate].
    inversion Hs; subst s. discriminate.
Qed.

Lemma record_sale_done (w : world) (product : nat) (d : pydict)
    (new_stock : json) (qty : Z) (total : json) (pm : string) (raw : pyref) :
  nth_error (w_products w) product = Some (JDict d) ->
  py_int_gt qty (PyDict.get d "stock" (JInt 0)) = Ok false ->
  py_mul (PyDict.get d "price" (JInt 0)) qty = Ok total ->
  py_sub_int (PyDict.get d "stock" (JInt 0)) qty = Ok new_stock ->
  0 < qty ->
  record_sale product qty pm raw w
  = (Ok (invoice_of (w_entropy w (w_tick w)) (PyDict.get d "name" JNull) qty
           (PyDict.get d "price" (JInt 0)) total pm),
     sold_world w product d new_stock qty total pm raw).
Proof.
  intros Hp Hg Hm Hs Hq.
  unfold record_sale.
  destruct (Z.leb_spec qty 0) as [?|_]; [lia|].
  mrun. rewrite (deref_nth_error _ _ _ Hp). cbn [py_get]. mrun. rewrite Hg.
  mrun. rewrite Hm. mrun. rewrite Hs. mrun.
  rewrite (deref_list_set _ _ _ _ Hp).
  unfold sold_world, persisted_ledger, invoice_of.
  rewrite (deref_list_set _ _ _ _ Hp).
  destruct (is_dict _); mrun; cbn [py_get]; mrun;
    rewrite dict_get_set_other by discriminate;
    rewrite <- app_assoc; reflexivity.
Qed.

(** The same for a stock that is an integer. *)
Lemma record_sale_sold (w : world) (product : nat) (d : pydict)
    (stock_n qty : Z) (total : json) (pm : string) (raw : pyref) :
  nth_error (w_products w) product = Some (JDict d) ->
  as_int (PyDict.get d "stock" (JInt 0)) = Some stock_n ->
  py_mul (PyDict.get d "price" (JInt 0)) qty = Ok total ->
  0 < qty <= stock_n ->
  record_sale product qty pm raw w
  = (Ok (invoice_of (w_entropy w (w_tick w)) (PyDict.get d "name" JNull) qty
           (PyDict.get d "price" (JInt 0)) total pm),
     sold_world w product d (JInt (stock_n - qty)) qty total pm raw).
Proof.
  intros Hp Hs Hm [Hq1 Hq2].
  apply record_sale_done; auto.
  - rewrite (py_int_gt_int _ stock_n) by exact Hs.
    destruct (Z.ltb_spec stock_n qty); [lia | reflexivity].
  - now apply py_sub_int_int.
Qed.

(** Every way [record_sale] can end. *)
Lemma record_sale_cases (product : nat) (qty : Z) (pm : string) (raw : pyref)
    (w : world) :
  (qty <= 0 /\
   record_sale product qty pm raw w
   = (Ok JNull,
      with_stdout (w_stdout w ++ [Print "Quantity must be positive."]) w))
  \/ (0 < qty /\ exists e, record_sale product qty pm raw w = (Raise e, w))
  \/ (exists d,
        nth_error (w_products w) product = Some (JDict d) /\
        py_int_gt qty (PyDict.get d "stock" (JInt 0)) = Ok true /\
        0 < qty /\
        record_sale product qty pm raw w
        = (Ok JNull,
           with_stdout
             (w_stdout w ++ [PrintNotEnoughStock (PyDict.get d "stock" (JInt 0))])
             w))
  \/ (0 < qty /\
      exists e, record_sale product qty pm raw w
                = (Raise e, with_tick (S (w_tick w)) w))
  \/ (exists d new_stock total,
        nth_error (w_products w) product = Some (JDict d) /\
        py_int_gt qty (PyDict.get d "stock" (JInt 0)) = Ok false /\
        py_sub_int (PyDict.get d "stock" (JInt 0)) qty = Ok new_stock /\
        py_mul (PyDict.get d "price" (JInt 0)) qty = Ok total /\
        0 < qty /\
        record_sale product qty pm raw w
        = (Ok (invoice_of (w_entropy w (w_tick w)) (PyDict.get d "name" JNull)
                 qty (PyDict.get d "price" (JInt 0)) total pm),
           sold_world w product d new_stock qty total pm raw)).
Proof.
  destruct (Z.leb_spec qty 0) as [Hq|Hq].
  - left. split; [exact Hq|]. unfold record_sale.
    destruct (Z.leb_spec qty 0); [reflexivity | lia].
  - right.
    destruct (deref (w_products w) product) as [| | | | | |d] eqn:Ed;
      try (left; split; [exact Hq|]; exists AttributeError; unfold record_sale;
           destruct (Z.leb_spec qty 0); [lia|]; mrun; rewrite Ed; reflexivity).
    pose proof (deref_dict _ _ _ Ed) as Hp.
    destruct (py_int_gt qty (PyDict.get d "stock" (JInt 0))) as [[|]|e0] eqn:Eg.
    + right; left. exists d. repeat split; try assumption.
      unfold record_sale. destruct (Z.leb_spec qty 0); [lia|].
      mrun. rewrite Ed. cbn [py_get]. mrun. rewrite Eg. reflexivity.
    + destruct (py_mul (PyDict.get d "price" (JInt 0)) qty) as [t|e] eqn:Em.
      * destruct (py_sub_int (PyDict.get d "stock" (JInt 0)) qty)
          as [ns|e] eqn:Es.
        -- right; right; right. exists d, ns, t.
           repeat split; try assumption. now apply record_sale_done.
        -- right; right; left. split; [exact Hq|]. exists e.
           unfold record_sale. destruct (Z.leb_spec qty 0); [lia|].
           mrun. rewrite Ed. cbn [py_get]. mrun. rewrite Eg. mrun.
           rewrite Em. mrun. rewrite Es. reflexivity.
      * left. split; [exact Hq|]. exists e. unfold record_sale.
        destruct (Z.leb_spec qty 0); [lia|].
        mrun. rewrite Ed. cbn [py_get]. mrun. rewrite Eg. mrun.
        rewrite Em. reflexivity.
    + left. split; [exact Hq|]. exists e0. unfold record_sale.
      destruct (Z.leb_spec qty 0); [lia|].
      mrun. rewrite Ed. cbn [py_get]. mrun. rewrite Eg. reflexivity.
Qed.

Lemma record_sale_stdin (p : nat) (q : Z) (pm : string) (raw : pyref)
    (w w' : world) (r : result json) :
  record_sale p q pm raw w = (r, w') -> w_stdin w' = w_stdin w.
Proof.
  intros H.
  destruct (record_sale_cases p q pm raw w)
    as [[_ E]|[[_ [e E]]|[(d & _ & _ & _ & E)|[[_ [e E]]|
        (d & ns & t & _ & _ & _ & _ & _ & E)]]]];
    rewrite E in H; inversion H; subst; reflexivity.
Qed.

(** C1: a successful sale of [qty] of a product whose stock is an
    integer makes an invoice whose total is its unit price times [qty]
    as Python multiplies them: the exact product [u * qty] for a price
    that is the integer [u], the binary64 product, rounded to nearest,
    for a decimal price.  It leaves the product with its former stock
    minus [qty], and makes the persisted ledger one entry longer, the new
    entry being the invoice. *)
Theorem record_sale_success (w : world) (product : nat) (d : pydict)
    (stock_n qty : Z) (pm : string) (raw : pyref) (invoice : json)
    (w' : world) :
  nth_error (w_products w) product = Some (JDict d) ->
  as_int (PyDict.get d "stock" (JInt 0)) = Some stock_n ->
  record_sale product qty pm raw w = (Ok invoice, w') ->
  truthy invoice = true ->
  exists total,
    py_subscript invoice "quantity" = Ok (JInt qty) /\
    py_subscript invoice "unit_price" = Ok (PyDict.get d "price" (JInt 0)) /\
    py_subscript invoice "total" = Ok total /\
    py_mul (PyDict.get d "price" (JInt 0)) qty = Ok total /\
    (forall u, as_int (PyDict.get d "price" (JInt 0)) = Some u ->
       total = JInt (u * qty)) /\
    (forall f, PyDict.get d "price" (JInt 0) = JFloat f ->
       exists fq, PyFloat.of_int qty = Some fq /\
                  total = JFloat (PyFloat.mul f fq)) /\
    0 < qty <= stock_n /\
    py_get (deref (w_products w') product) "stock" (JInt 0)
      = Ok (JInt (stock_n - qty)) /\
    persisted_ledger w' = (persisted_ledger w ++ [invoice])%list /\
    List.length (persisted_ledger w')
      = S (List.length (persisted_ledger w)).
Proof.
  intros Hp Hst H Ht.
  destruct (record_sale_cases product qty pm raw w)
    as [[_ E]|[[_ [e E]]|[(d' & _ & _ & _ & E)|[[_ [e E]]|
        (d' & ns & t & Hp' & Hg & Hs & Hm & Hq & E)]]]];
    rewrite E in H; inversion H; subst; try discriminate.
  rewrite Hp in Hp'. inversion Hp'; subst d'. clear Hp'.
  rewrite (py_int_gt_int _ stock_n) in Hg by exact Hst.
  rewrite (py_sub_int_int _ stock_n) in Hs by exact Hst.
  inversion Hs; subst ns.
  assert (Hlt : (stock_n <? qty) = false) by congruence.
  apply Z.ltb_ge in Hlt. clear Hg Hs.
  exists t.
  split; [reflexivity|]. split; [reflexivity|]. split; [reflexivity|].
  split; [exact Hm|]. split; [|split; [|split; [lia|split; [|split]]]].
  - intros u Hu.
    destruct (PyDict.get d "price" (JInt 0)); cbn in Hu, Hm; try discriminate;
      inversion Hu; inversion Hm; subst; reflexivity.
  - intros f Hf. rewrite Hf in Hm. cbn in Hm.
    destruct (PyFloat.of_int qty) as [fq|]; [|discriminate].
    exists fq. split; [reflexivity|]. now inversion Hm.
  - unfold sold_world. cbn [w_products].
    rewrite (deref_list_set _ _ _ _ Hp). cbn [py_get].
    now rewrite dict_get_set.
  - unfold sold_world, persisted_ledger at 1.
    cbn [w_sale_file ensure_sales_list]. reflexivity.
  - unfold sold_world, persisted_ledger at 1.
    cbn [w_sale_file ensure_sales_list].
    rewrite length_app. cbn. lia.
Qed.

Lemma record_sale_success_witness :
  (exists total,
     py_subscript widget_sale "quantity" = Ok (JInt 2) /\
     py_subscript widget_sale "unit_price" = Ok (JInt 10) /\
     py_subscript widget_sale "total" = Ok total /\
     total = JInt (10 * 2) /\
     py_get
       (deref
          (w_products
             (sold_world shop_world 0 widget_fields (JInt 3) 2 (JInt 20)
                "CASH" RefProducts)) 0) "stock" (JInt 0)
     = Ok (JInt (5 - 2)) /\
     persisted_ledger
       (sold_world shop_world 0 widget_fields (JInt 3) 2 (JInt 20) "CASH"
          RefProducts)
     = (persisted_ledger shop_world ++ [widget_sale])%list) /\
  (exists total fq,
     py_subscript candy_sale "quantity" = Ok (JInt 3) /\
     py_subscript candy_sale "unit_price" = Ok (JFloat tenth) /\
     py_subscript candy_sale "total" = Ok total /\
     PyFloat.of_int 3 = Some fq /\
     total = JFloat (PyFloat.mul tenth fq) /\
     py_get
       (deref
          (w_products
             (sold_world candy_world 0 candy_fields (JInt 2) 3
                (JFloat three_tenths) "CASH" RefProducts)) 0) "stock" (JInt 0)
     = Ok (JInt (5 - 3)) /\
     persisted_ledger
       (sold_world candy_world 0 candy_fields (JInt 2) 3
          (JFloat three_tenths) "CASH" RefProducts)
     = (persisted_ledger candy_world ++ [candy_sale])%list).
Proof.
  split.
  - destruct (record_sale_success shop_world 0 widget_fields 5 2 "CASH"
                RefProducts widget_sale
                (sold_world shop_world 0 widget_fields (JInt 3) 2 (JInt 20)
                   "CASH" RefProducts)
                eq_refl eq_refl eq_refl eq_refl)
      as (total & Hq & Hu & Ht & _ & Hint & _ & _ & Hst & Hl & _).
    exists total. split; [exact Hq|]. split; [exact Hu|].
    split; [exact Ht|]. split; [exact (Hint 10 eq_refl)|].
    split; [exact Hst | exact Hl].
  - destruct (record_sale_success candy_world 0 candy_fields 5 3 "CASH"
                RefProducts candy_sale
                (sold_world candy_world 0 candy_fields (JInt 2) 3
                   (JFloat three_tenths) "CASH" RefProducts)
                eq_refl eq_refl eq_refl eq_refl)
      as (total & Hq & Hu & Ht & _ & _ & Hfloat & _ & Hst & Hl & _).
    destruct (Hfloat tenth eq_refl) as (fq & Hfq & Htot).
    exists total, fq. split; [exact Hq|]. split; [exact Hu|].
    split; [exact Ht|]. split; [exact Hfq|]. split; [exact Htot|].
    split; [exact Hst | exact Hl].
Defined.

(** The total of three Candies at 0.1 is the float that Python prints
    as 0.30000000000000004, not three tenths. *)
Lemma decimal_price_total :
  py_mul (JFloat tenth) 3 = Ok (JFloat three_tenths) /\
  record_sale 0 3 "CASH" RefProducts candy_world
  = (Ok candy_sale,
     sold_world candy_world 0 candy_fields (JInt 2) 3 (JFloat three_tenths)
       "CASH" RefProducts).
Proof. split; vm_compute; reflexivity. Qed.

(** A refused sale prints its message and changes nothing else. *)
Lemma record_sale_refused (w : world) (product : nat) (d : pydict)
    (qty stock_n : Z) (pm : string) (raw : pyref) :
  nth_error (w_products w) product = Some (JDict d) ->
  as_int (PyDict.get d "stock" (JInt 0)) = Some stock_n ->
  qty <= 0 \/ stock_n < qty ->
  record_sale product qty pm raw w
  = (Ok JNull, with_stdout (w_stdout w ++ [refusal d qty]) w).
Proof.
  intros Hp Hs Hq. unfold refusal, record_sale.
  destruct (Z.leb_spec qty 0) as [Hle|Hlt]; [reflexivity|].
  destruct Hq as [?|Hq]; [lia|].
  mrun. rewrite (deref_nth_error _ _ _ Hp). cbn [py_get]. mrun.
  rewrite (py_int_gt_int _ stock_n) by exact Hs.
  destruct (Z.ltb_spec stock_n qty); [reflexivity|lia].
Qed.

(** Through [sell_block] the payment line is read first; the session
    is not refreshed. *)
Lemma sell_block_refused (w : world) (product : nat) (d : pydict)
    (qty stock_n : Z) (line : string) (rest : list string) :
  nth_error (w_products w) product = Some (JDict d) ->
  as_int (PyDict.get d "stock" (JInt 0)) = Some stock_n ->
  qty <= 0 \/ stock_n < qty ->
  w_stdin w = line :: rest ->
  sell_block product qty w
  = (Ok tt,
     with_stdout (w_stdout w ++ [payment_prompt; refusal d qty])
       (with_stdin rest w)).
Proof.
  intros Hp Hs Hq Hin. unfold sell_block.
  unfold bind at 1. unfold input. cbn [w_stdin with_stdout]. rewrite Hin.
  unfold bind at 1, get_state at 1. unfold bind at 1, get_world at 1.
  unfold bind at 1.
  rewrite (record_sale_refused _ product d qty stock_n) by assumption.
  cbn [truthy]. unfold ret. cbn. rewrite <- app_assoc. reflexivity.
Qed.

(** A sale within the stock, through [sell_block]: the payment line is
    read, the stock of the product goes down by [qty], the invoice is
    added to [sale.json], and the session is refreshed. *)
Lemma sell_block_sells (w : world) (product : nat) (d : pydict)
    (stock_n qty : Z) (total : json) (line : string) (rest : list string) :
  w_stdin w = line :: rest ->
  nth_error (w_products w) product = Some (JDict d) ->
  as_int (PyDict.get d "stock" (JInt 0)) = Some stock_n ->
  py_mul (PyDict.get d "price" (JInt 0)) qty = Ok total ->
  0 < qty <= stock_n ->
  exists w',
    sell_block product qty w = (Ok tt, w') /\
    w_stdin w' = rest /\
    w_products w'
    = list_set (w_products w) product
        (JDict (PyDict.set d "stock" (JInt (stock_n - qty)))) /\
    persisted_ledger w'
    = (persisted_ledger w
       ++ [invoice_of (w_entropy w (w_tick w)) (PyDict.get d "name" JNull)
             qty (PyDict.get d "price" (JInt 0)) total
             (payment_method_of line)])%list /\
    last_sales (w_state w') = JList (persisted_ledger w') /\
    last_selected_product (w_state w') = Some product /\
    products_raw (w_state w') = products_raw (w_state w) /\
    w_stdout w'
    = (w_stdout w
       ++ [payment_prompt;
           PrintSaleRecorded
             (JStr (create_invoice_number (w_entropy w (w_tick w))));
           PrintSaleSummary (PyDict.get d "name" JNull) qty total])%list.
Proof.
  intros Hin Hp Hs Hm Hq. unfold sell_block.
  unfold bind at 1. unfold input. cbn [w_stdin with_stdout]. rewrite Hin.
  unfold bind at 1, get_state at 1. unfold bind at 1, get_world at 1.
  unfold bind at 1.
  fold (payment_method_of line).
  rewrite (record_sale_sold _ product d stock_n qty total) by assumption.
  cbn [truthy invoice_of].
  eexists. split; [reflexivity|].
  split; [reflexivity|]. split; [reflexivity|]. split; [reflexivity|].
  split; [reflexivity|]. split; [reflexivity|]. split; [reflexivity|].
  cbn. rewrite <- app_assoc. reflexivity.
Qed.

(** The stock that a sale leaves. *)
Lemma stock_after_sale (l : list json) (product : nat) (d : pydict)
    (new_stock : json) :
  nth_error l product = Some (JDict d) ->
  py_get
    (deref (list_set l product (JDict (PyDict.set d "stock" new_stock)))
       product) "stock" (JInt 0)
  = Ok new_stock.
Proof.
  intros Hp. rewrite (deref_list_set _ _ _ _ Hp). cbn [py_get].
  now rewrite dict_get_set.
Qed.

(** C2: a sale of a quantity that is not positive, or that exceeds the
    stock, returns [None] after printing the matching message; the
    world is otherwise the one before: same product objects, same
    session state with its in-memory ledger, same two files.  Through
    [sell_block] the payment line has been read, and nothing else has
    changed. *)
Theorem record_sale_rejected (w : world) (product : nat) (d : pydict)
    (qty stock_n : Z) (pm : string) (raw : pyref) :
  nth_error (w_products w) product = Some (JDict d) ->
  as_int (PyDict.get d "stock" (JInt 0)) = Some stock_n ->
  qty <= 0 \/ stock_n < qty ->
  record_sale product qty pm raw w
    = (Ok JNull, with_stdout (w_stdout w ++ [refusal d qty]) w) /\
  forall line rest,
    w_stdin w = line :: rest ->
    sell_block product qty w
    = (Ok tt,
       with_stdout (w_stdout w ++ [payment_prompt; refusal d qty])
         (with_stdin rest w)).
Proof.
  intros Hp Hs Hq. split.
  - now apply record_sale_refused with (stock_n := stock_n).
  - intros line rest Hin.
    exact (sell_block_refused w product d qty stock_n line rest Hp Hs Hq Hin).
Qed.

Lemma record_sale_rejected_witness :
  record_sale 0 10 "CASH" RefProducts shop_world
    = (Ok JNull,
       with_stdout (w_stdout shop_world ++ [refusal widget_fields 10])
         shop_world) /\
  forall line rest,
    w_stdin shop_world = line :: rest ->
    sell_block 0 10 shop_world
    = (Ok tt,
       with_stdout
         (w_stdout shop_world ++ [payment_prompt; refusal widget_fields 10])
         (with_stdin rest shop_world)).
Proof.
  apply (record_sale_rejected shop_world 0 widget_fields 10 5 "CASH"
           RefProducts); [reflexivity | reflexivity | right; lia].
Defined.

(* ================================================================== *)
(** ** What a line of input can change

    The interpreter only prints, reads lines, assigns two keys of
    [state] and sells.  A relation between worlds that all of these
    respect is respected by [parse_and_handle] and by the loop. *)

Create HintDb frame.

Section Frame.

Variable ratio : string -> string -> Q.
Variable R : world -> world -> Prop.

Hypothesis R_refl : forall w, R w w.
Hypothesis R_trans : forall a b c, R a b -> R b c -> R a c.
Hypothesis R_stdout : forall w l, R w (with_stdout l w).
Hypothesis R_stdin :
  forall w x r, w_stdin w = x :: r -> R w (with_stdin r w).
Hypothesis R_state :
  forall w s, products_raw s = products_raw (w_state w) -> R w (with_state s w).
Hypothesis R_sale :
  forall w p q pm r w',
    record_sale p q pm (sale_ref w) w = (r, w') -> R w w'.

Lemma respects_ret {A} (a : A) : respects R (ret a).
Proof. intros w r w' H; inversion H; auto. Qed.

Lemma respects_raise {A} (e : exn) : respects R (@raise A e).
Proof. intros w r w' H; inversion H; auto. Qed.

Lemma respects_lift {A} (x : result A) : respects R (lift x).
Proof. intros w r w' H; inversion H; auto. Qed.

Lemma respects_bind {A B} (m : M A) (f : A -> M B) :
  respects R m -> (forall a, respects R (f a)) -> respects R (bind m f).
Proof.
  intros Hm Hf w r w' H. unfold bind in H.
  destruct (m w) as [[a|e] w1] eqn:E.
  - eapply R_trans; [eapply Hm | eapply Hf]; eauto.
  - inversion H; subst. eapply Hm; eauto.
Qed.

Lemma respects_get_world : respects R get_world.
Proof. intros w r w' H; inversion H; auto. Qed.

Lemma respects_get_state : respects R get_state.
Proof. intros w r w' H; inversion H; auto. Qed.

Lemma respects_set_last_sales (v : json) : respects R (set_last_sales v).
Proof. intros w r w' H; inversion H; subst. now apply R_state. Qed.

Lemma respects_set_last_selected_product (p : option nat) :
  respects R (set_last_selected_product p).
Proof. intros w r w' H; inversion H; subst. now apply R_state. Qed.

Lemma respects_print (o : out) : respects R (print o).
Proof. intros w r w' H; inversion H; subst. apply R_stdout. Qed.

Lemma respects_input (p : string) : respects R (input p).
Proof.
  intros w r w' H. unfold input in H. cbn in H.
  destruct (w_stdin w) as [|x rest] eqn:E; inversion H; subst.
  - apply R_stdout.
  - eapply R_trans; [apply R_stdout|]. apply (R_stdin _ x). exact E.
Qed.

Lemma respects_load_json (p : path) (v : json) : respects R (load_json p v).
Proof. intros w r w' H; inversion H; auto. Qed.

#[local] Hint Resolve respects_ret respects_raise respects_lift
  respects_get_world respects_get_state respects_set_last_sales
  respects_set_last_selected_product
  respects_print respects_input respects_load_json : frame.

(** Goes through a computation built from binds and case distinctions. *)
Ltac frame :=
  repeat first
    [ solve [auto with frame]
    | apply respects_bind; [|intros]
    | match goal with
      | |- respects _ (if ?b then _ else _) => destruct b
      | |- respects _ (match ?x with _ => _ end) => destruct x
      end ].

Lemma respects_print_product_rows (l : list json) :
  respects R (print_product_rows l).
Proof. induction l; cbn [print_product_rows]; frame. Qed.

Lemma respects_show_products (l : list json) : respects R (show_products l).
Proof.
  pose proof respects_print_product_rows. unfold show_products. frame.
Qed.

Lemma respects_show_product (p : json) : respects R (show_product p).
Proof. unfold show_product. frame. Qed.

Lemma respects_print_sale_rows (l : list json) :
  respects R (print_sale_rows l).
Proof. induction l; cbn [print_sale_rows]; frame. Qed.

Lemma respects_show_sales (s : json) (f : option string) :
  respects R (show_sales s f).
Proof.
  pose proof respects_print_sale_rows. unfold show_sales. frame.
Qed.

Lemma respects_find_in_catalog (name : string) :
  respects R (find_in_catalog ratio name).
Proof. unfold find_in_catalog. frame. Qed.

Lemma respects_sell_block (p : nat) (qty : Z) : respects R (sell_block p qty).
Proof.
  unfold sell_block. apply respects_bind; [auto with frame|]. intros line.
  intros w r w' H.
  unfold bind at 1 in H. unfold get_state at 1 in H.
  unfold bind at 1 in H. unfold get_world at 1 in H.
  revert H. fold (sale_ref w). revert r w'. revert w.
  change (respects R
            (fun w =>
               bind (record_sale p qty
                       (let x := PyStr.upper (PyStr.strip line) in
                        if PyStr.is_empty x then "CASH" else x) (sale_ref w))
                 (fun invoice =>
                    if truthy invoice
                    then bind (load_json SALE_FILE (JList []))
                           (fun sales =>
                              bind (set_last_sales sales)
                                (fun _ => set_last_selected_product (Some p)))
                    else ret tt) w)).
  intros w r w' H. unfold bind at 1 in H.
  destruct (record_sale p qty _ (sale_ref w) w) as [[invoice|e] w1] eqn:E.
  - eapply R_trans; [eapply R_sale; exact E|].
    revert H. generalize w1 r w'.
    change (respects R
              (if truthy invoice
               then bind (load_json SALE_FILE (JList []))
                      (fun sales =>
                         bind (set_last_sales sales)
                           (fun _ => set_last_selected_product (Some p)))
               else ret tt)).
    frame.
  - inversion H; subst. eapply R_sale; exact E.
Qed.

#[local] Hint Resolve respects_show_products respects_show_product
  respects_show_sales respects_find_in_catalog respects_sell_block : frame.

Lemma respects_handle_name_or_fallback (u : string) (sales : json) :
  respects R (handle_name_or_fallback ratio u sales).
Proof. unfold handle_name_or_fallback. frame. Qed.

Lemma respects_handle_number (u : string) (lp : option nat) (sales : json) :
  respects R (handle_number ratio u lp sales).
Proof.
  pose proof respects_handle_name_or_fallback.
  unfold handle_number. frame.
Qed.

Lemma respects_handle_qty_name (u : string) (lp : option nat) (sales : json) :
  respects R (handle_qty_name ratio u lp sales).
Proof.
  pose proof respects_handle_number.
  unfold handle_qty_name. frame.
Qed.

Lemma respects_handle_sell (u : string) (lp : option nat) (sales : json) :
  respects R (handle_sell ratio u lp sales).
Proof.
  pose proof respects_handle_qty_name.
  unfold handle_sell. frame.
Qed.

Lemma respects_parse_and_handle (user : string) :
  respects R (parse_and_handle ratio user).
Proof.
  pose proof respects_handle_sell.
  unfold parse_and_handle, print_help. frame.
Qed.

Lemma respects_breaks_on_exit (m : M unit) :
  respects R m -> respects R (breaks_on_exit m).
Proof.
  intros Hm w r w' H. unfold breaks_on_exit in H.
  destruct (m w) as [[a|e] w1] eqn:E.
  - inversion H; subst. eapply Hm; eauto.
  - destruct e; inversion H; subst; eapply Hm; eauto.
Qed.

Lemma respects_main_loop (fuel : nat) : respects R (main_loop ratio fuel).
Proof.
  pose proof respects_parse_and_handle.
  induction fuel; cbn [main_loop]; frame.
  apply respects_breaks_on_exit; auto.
Qed.

End Frame.

(* ================================================================== *)
(** ** Startup *)

Lemma startup_eq (w : world) :
  startup w =
  match normalize_products (loaded_catalog w) with
  | Ok l => show_products l (started_world w l)
  | Raise e => (Raise e, files_created w)
  end.
Proof.
  destruct w as [pl st pf sf si so en tk].
  unfold startup, loaded_catalog, loaded_ledger, started_world, files_created.
  destruct pf as [v|], sf as [s|]; mrun; cbn;
    try (destruct (normalize_products v); reflexivity); reflexivity.
Qed.

Lemma print_product_rows_ok (l : list json) (w : world) :
  Forall (fun p => is_dict p = true) l ->
  print_product_rows l w
  = (Ok tt, with_stdout (w_stdout w ++ map product_row l) w).
Proof.
  intros Hl. revert w. induction Hl as [|p l Hp Hl IH]; intros w.
  - cbn. rewrite app_nil_r. destruct w; reflexivity.
  - destruct p; try discriminate. cbn [print_product_rows py_get]. mrun.
    rewrite IH. cbn. rewrite <- app_assoc. reflexivity.
Qed.

Lemma show_products_ok (l : list json) (w : world) :
  Forall (fun p => is_dict p = true) l ->
  show_products l w
  = (Ok tt, with_stdout (w_stdout w ++ product_listing l) w).
Proof.
  intros Hl. destruct l as [|p l]; [reflexivity|].
  unfold show_products. mrun. rewrite print_product_rows_ok by assumption.
  cbn. rewrite <- !app_assoc. reflexivity.
Qed.

(** A catalog of objects starts the session. *)
Lemma startup_ok (w : world) (l : list json) :
  normalize_products (loaded_catalog w) = Ok l ->
  Forall (fun p => is_dict p = true) l ->
  startup w
  = (Ok tt,
     with_stdout (w_stdout (started_world w l) ++ product_listing l)
       (started_world w l)).
Proof.
  intros Hn Hl. rewrite startup_eq, Hn. now apply show_products_ok.
Qed.

(** C6, as the code has it: a catalog record that is a boolean, a
    number or a string stops [main] with [ValueError] before the session
    exists; [null] is an empty catalog; and the ledger record never
    stops it, whatever its shape: one that is neither an array nor an
    object is an empty ledger. *)
Theorem startup_storage_shapes (w : world) :
  (forall v, w_product_file w = Some v -> is_scalar v = true ->
     startup w = (Raise ValueError, files_created w)) /\
  (w_product_file w = Some JNull ->
     exists w1, startup w = (Ok tt, w1) /\ w_products w1 = []) /\
  (forall l, normalize_products (loaded_catalog w) = Ok l ->
     Forall (fun p => is_dict p = true) l ->
     exists w1,
       startup w = (Ok tt, w1) /\
       w_products w1 = l /\
       last_sales (w_state w1) = JList (ensure_sales_list (loaded_ledger w))) /\
  (forall v, w_sale_file w = Some v -> is_list v = false ->
     is_dict v = false -> ensure_sales_list (loaded_ledger w) = []).
Proof.
  repeat split.
  - intros v Hv Hs. rewrite startup_eq. unfold loaded_catalog. rewrite Hv.
    destruct v; try discriminate; reflexivity.
  - intros Hv. eexists. split.
    + apply (startup_ok w []); [|constructor].
      unfold loaded_catalog. now rewrite Hv.
    + reflexivity.
  - intros l Hn Hl. eexists. split; [apply (startup_ok w l Hn Hl)|].
    split; reflexivity.
  - intros v Hv Hl Hd. unfold loaded_ledger. rewrite Hv.
    destruct v; try discriminate; reflexivity.
Qed.

(** A ledger record that is a number is taken as an empty ledger, a
    catalog record that is [null] as an empty catalog, and the session
    starts. *)
Lemma unexpected_shapes_start_empty :
  let w0 := initial_world (Some JNull) (Some (JInt 42)) [] sample_entropy in
  exists w1,
    startup w0 = (Ok tt, w1) /\
    w_products w1 = [] /\
    last_sales (w_state w1) = JList [] /\
    w_product_file w1 = Some JNull /\
    w_sale_file w1 = Some (JInt 42) /\
    w_stdout w1 = [welcome; Print "No products loaded."].
Proof.
  eexists. split; [vm_compute; reflexivity|]. repeat split.
Qed.

Lemma startup_storage_shapes_witness :
  let w := initial_world (Some (JInt 3)) (Some (JInt 42)) [] sample_entropy in
  startup w = (Raise ValueError, files_created w) /\
  ensure_sales_list (loaded_ledger w) = [].
Proof.
  cbv zeta.
  destruct (startup_storage_shapes
              (initial_world (Some (JInt 3)) (Some (JInt 42)) [] sample_entropy))
    as (Hscalar & _ & _ & Hledger).
  split.
  - apply (Hscalar (JInt 3)); reflexivity.
  - apply (Hledger (JInt 42)); reflexivity.
Defined.

(* ================================================================== *)
(** ** The first line *)

Section NumberLine.

Variable ratio : string -> string -> Q.

(** What [parse_and_handle] does with a line of digits: lines 250-261,
    no earlier rule applies. *)
Lemma parse_and_handle_number (u : string) (w : world) :
  u <> EmptyString -> PyStr.all_digits u = true ->
  parse_and_handle ratio u w =
  if negb (ref_truthy (w_products w) (last_selected_product (w_state w)))
  then print (Print
         "No product selected. Type product name first or use 'sell <qty> <product>'.")
         w
  else match last_selected_product (w_state w) with
       | Some p => sell_block p (PyStr.int_of_digits u) w
       | None => (Ok tt, w)
       end.
Proof.
  intros Hne Hd. unfold parse_and_handle.
  unfold bind at 1, get_state at 1.
  rewrite (strip_digits u Hd), (lower_digits u Hd).
  pose proof (rmatch_sell_digits u Hne Hd) as Hsell.
  pose proof (rmatch_qty_name_digits u Hd) as Hqn.
  pose proof (rmatch_number u Hne Hd) as Hnum.
  destruct u as [|c u]; [contradiction|].
  assert (Hc : PyStr.is_digit c = true).
  { unfold PyStr.all_digits in Hd. cbn in Hd.
    now apply andb_true_iff in Hd as [Hc _]. }
  cbn [PyStr.is_empty str_in existsb].
  rewrite !(eqb_digits _ _ c u Hc) by reflexivity.
  rewrite !(startswith_digits _ _ c u Hc) by reflexivity.
  cbn [orb].
  unfold handle_sell. rewrite Hsell.
  unfold handle_qty_name. rewrite Hqn.
  unfold handle_number. rewrite Hnum.
  unfold bind at 1, get_world at 1.
  destruct (negb _); [reflexivity|].
  destruct (last_selected_product (w_state w)); reflexivity.
Qed.

End NumberLine.

Section FirstLine.

Variable ratio : string -> string -> Q.

(** C10: [main] starts with the only product of a one-product catalog
    selected, and with no product selected otherwise; no input line has
    been read by then.  A first line of digits then sells that quantity
    of the selected product: on plain data, for a quantity within the
    stock, the payment line is read, the stock of the product goes down
    by the quantity, the invoice is added to [sale.json], and the
    product stays selected. *)
Theorem startup_selects_single_product (w : world) (l : list json) :
  normalize_products (loaded_catalog w) = Ok l ->
  Forall (fun p => is_dict p = true) l ->
  exists w1,
    startup w = (Ok tt, w1) /\
    w_products w1 = l /\
    w_stdin w1 = w_stdin w /\
    (List.length l = 1%nat ->
       last_selected_product (w_state w1) = Some O) /\
    (List.length l <> 1%nat ->
       last_selected_product (w_state w1) = None) /\
    (forall d stock_n u total line rest,
       plain_files w ->
       l = [JDict d] -> d <> [] ->
       as_int (PyDict.get d "stock" (JInt 0)) = Some stock_n ->
       py_mul (PyDict.get d "price" (JInt 0)) (PyStr.int_of_digits u)
       = Ok total ->
       PyStr.isdigit u = true -> (String.length u <= 4300)%nat ->
       0 < PyStr.int_of_digits u <= stock_n ->
       w_stdin w = line :: rest ->
       exists w2,
         parse_and_handle ratio u w1 = (Ok tt, w2) /\
         w_stdin w2 = rest /\
         w_products w2
         = [JDict (PyDict.set d "stock"
                     (JInt (stock_n - PyStr.int_of_digits u)))] /\
         persisted_ledger w2
         = (ensure_sales_list (loaded_ledger w)
            ++ [invoice_of (w_entropy w (w_tick w))
                  (PyDict.get d "name" JNull) (PyStr.int_of_digits u)
                  (PyDict.get d "price" (JInt 0)) total
                  (payment_method_of line)])%list /\
         last_sales (w_state w2) = JList (persisted_ledger w2) /\
         last_selected_product (w_state w2) = Some O).
Proof.
  intros Hn Hl. eexists. split; [apply (startup_ok w l Hn Hl)|].
  unfold started_world. cbn [w_products w_stdin w_state with_stdout with_state
    with_products last_selected_product].
  split; [reflexivity|]. split; [destruct w; reflexivity|].
  split; [intros ->; reflexivity|].
  split; [intros H; apply Nat.eqb_neq in H; now rewrite H|].
  intros d stock_n u total line rest _ -> Hd Hs Hm Hu _ Hq Hin.
  unfold PyStr.isdigit in Hu. apply andb_true_iff in Hu as [Hne Hdig].
  assert (Hne' : u <> EmptyString) by (destruct u; [discriminate|discriminate]).
  rewrite parse_and_handle_number by assumption.
  cbn [w_products w_stdin w_state with_stdout with_state with_products
    last_selected_product List.length Nat.eqb ref_truthy deref nth].
  destruct d as [|kv d]; [contradiction|]. cbn [truthy negb].
  match goal with
  | |- exists w2, sell_block O ?q ?w0 = _ /\ _ =>
      assert (Hin0 : w_stdin w0 = line :: rest) by (destruct w; exact Hin);
      destruct (sell_block_sells w0 O (kv :: d) stock_n q total line rest
                  Hin0 eq_refl Hs Hm Hq)
        as (w2 & E & Hi & Hp & Hled & Hls & Hsel & _)
  end.
  exists w2. split; [exact E|]. split; [exact Hi|]. split; [exact Hp|].
  split; [|split; assumption].
  rewrite Hled. destruct w; reflexivity.
Qed.

(** C7, as the code has it: after startup a first line of digits is
    answered by "No product selected" only when the catalog does not
    hold exactly one product; the world is otherwise unchanged.  On a
    catalog of one product that product is selected already: the
    payment method is asked, and a quantity above the stock (as 10 of
    the 5 Widgets) is refused, "Not enough stock" for a positive
    quantity, with the world otherwise unchanged.  The line has at most
    the 4300 digits that [int] reads. *)
Theorem bare_number_first_line (w : world) (l : list json) (u : string) :
  normalize_products (loaded_catalog w) = Ok l ->
  Forall (fun p => is_dict p = true) l ->
  PyStr.isdigit u = true -> (String.length u <= 4300)%nat ->
  exists w1,
    startup w = (Ok tt, w1) /\
    (List.length l <> 1%nat ->
       parse_and_handle ratio u w1
       = (Ok tt, with_stdout (w_stdout w1 ++ [no_product_selected]) w1)) /\
    (forall d stock_n line rest,
       l = [JDict d] -> d <> [] ->
       as_int (PyDict.get d "stock" (JInt 0)) = Some stock_n ->
       stock_n < PyStr.int_of_digits u ->
       w_stdin w = line :: rest ->
       parse_and_handle ratio u w1
       = (Ok tt,
          with_stdout
            (w_stdout w1 ++ [payment_prompt; refusal d (PyStr.int_of_digits u)])
            (with_stdin rest w1))).
Proof.
  intros Hn Hl Hu _. eexists. split; [apply (startup_ok w l Hn Hl)|].
  unfold PyStr.isdigit in Hu. apply andb_true_iff in Hu as [Hne Hd].
  assert (Hne' : u <> EmptyString) by (destruct u; discriminate).
  split.
  - intros Hlen. rewrite parse_and_handle_number by assumption.
    unfold started_world. cbn [w_products w_stdin w_state with_stdout with_state
      with_products last_selected_product].
    apply Nat.eqb_neq in Hlen. rewrite Hlen. reflexivity.
  - intros d s line rest -> Hd0 Hs Hlt Hin.
    rewrite parse_and_handle_number by assumption.
    unfold started_world. cbn [w_products w_stdin w_state with_stdout with_state
      with_products last_selected_product List.length Nat.eqb ref_truthy deref nth].
    destruct d as [|kv d]; [contradiction|]. cbn [truthy negb].
    erewrite sell_block_refused with (line := line) (rest := rest);
      [reflexivity | reflexivity | exact Hs | right; exact Hlt
      | destruct w; exact Hin].
Qed.

End FirstLine.

Ltac plain_data :=
  repeat split; try reflexivity; try (intros [|?]; reflexivity).

Lemma startup_selects_single_product_witness :
  let w := initial_world (Some (JList [widget])) None ["CASH"]
             sample_entropy in
  exists w1,
    startup w = (Ok tt, w1) /\
    w_products w1 = [widget] /\
    w_stdin w1 = ["CASH"] /\
    last_selected_product (w_state w1) = Some O /\
    exists w2,
      parse_and_handle RatcliffObershelp.ratio "3" w1 = (Ok tt, w2) /\
      w_stdin w2 = [] /\
      w_products w2
      = [JDict [("name", JStr "Widget"); ("price", JInt 10);
                ("stock", JInt 2)]] /\
      persisted_ledger w2
      = [invoice_of (sample_entropy 0) (JStr "Widget") 3 (JInt 10) (JInt 30)
           "CASH"] /\
      last_sales (w_state w2) = JList (persisted_ledger w2) /\
      last_selected_product (w_state w2) = Some O.
Proof.
  cbv zeta.
  destruct (startup_selects_single_product RatcliffObershelp.ratio
              (initial_world (Some (JList [widget])) None ["CASH"]
                 sample_entropy) [widget])
    as (w1 & Hs & Hp & Hi & Hsel & _ & Hsale).
  - reflexivity.
  - repeat constructor.
  - exists w1. split; [exact Hs|]. split; [exact Hp|]. split; [exact Hi|].
    split; [apply Hsel; reflexivity|].
    apply (Hsale widget_fields 5 "3" (JInt 30) "CASH" []);
      try reflexivity; try discriminate; try (cbn; lia).
    plain_data.
Defined.

(** On the catalog of one Widget, a first line "10" is a sale of 10
    Widgets, refused for lack of stock: "No product selected" is not
    printed. *)
Lemma bare_number_single_product_sells :
  let w0 := initial_world (Some (JList [widget])) None ["10"; "CASH"]
              sample_entropy in
  exists w2,
    main RatcliffObershelp.ratio 1 w0 = (Ok None, w2) /\
    w_stdout w2
    = [welcome; Print (PyStr.nl ++ "Products:");
       PrintProductRow (JStr "Widget") (JInt 10) (JInt 5); Print "";
       Prompt "You: "; payment_prompt; PrintNotEnoughStock (JInt 5)] /\
    ~ In no_product_selected (w_stdout w2).
Proof.
  eexists. split; [vm_compute; reflexivity|].
  split; [reflexivity|].
  cbn. intros H. repeat (destruct H as [H|H]; [discriminate H|]). exact H.
Qed.

Lemma bare_number_first_line_witness :
  (exists w1,
     startup (initial_world (Some (JList [widget; gadget])) None []
                sample_entropy)
     = (Ok tt, w1) /\
     parse_and_handle RatcliffObershelp.ratio "10" w1
     = (Ok tt, with_stdout (w_stdout w1 ++ [no_product_selected]) w1)) /\
  (exists w1,
     startup (initial_world (Some (JList [widget])) None ["CASH"]
                sample_entropy)
     = (Ok tt, w1) /\
     parse_and_handle RatcliffObershelp.ratio "10" w1
     = (Ok tt,
        with_stdout
          (w_stdout w1 ++ [payment_prompt; PrintNotEnoughStock (JInt 5)])
          (with_stdin [] w1))).
Proof.
  split.
  - destruct (bare_number_first_line RatcliffObershelp.ratio
                (initial_world (Some (JList [widget; gadget])) None []
                   sample_entropy) [widget; gadget] "10")
      as (w1 & Hs & Hnone & _).
    + reflexivity.
    + repeat constructor.
    + reflexivity.
    + cbn; lia.
    + exists w1. split; [exact Hs|]. apply Hnone. discriminate.
  - destruct (bare_number_first_line RatcliffObershelp.ratio
                (initial_world (Some (JList [widget])) None ["CASH"]
                   sample_entropy) [widget] "10")
      as (w1 & Hs & _ & Hrefused).
    + reflexivity.
    + repeat constructor.
    + reflexivity.
    + cbn; lia.
    + exists w1. split; [exact Hs|].
      apply (Hrefused widget_fields 5 "CASH" []);
        try reflexivity; discriminate.
Defined.

(* ================================================================== *)
(** ** The shape of product.json *)

(** Handed the raw object itself, [record_sale] writes an object back:
    the branch of line 137 does what its comment says. *)
Lemma record_sale_writes_object (w w' : world) (p j : nat) (q : Z)
    (pm : string) (invoice : json) :
  is_dict (deref (w_products w) j) = true ->
  record_sale p q pm (RefProduct j) w = (Ok invoice, w') ->
  truthy invoice = true ->
  exists d, w_product_file w' = Some (JDict d) /\
            deref (w_products w') p = JDict d.
Proof.
  intros Hj H Ht.
  destruct (record_sale_cases p q pm (RefProduct j) w)
    as [[_ E]|[[_ [e E]]|[(d & _ & _ & _ & E)|[[_ [e E]]|
        (d & s & t & Hp & Hg & Hs & Hm & Hq & E)]]]];
    rewrite E in H; inversion H; subst; try discriminate.
  unfold sold_world. cbn [w_product_file w_products ref_value].
  rewrite (is_dict_list_set _ p j _ Hj), (deref_list_set _ _ _ _ Hp).
  eauto.
Qed.

(** The sale of [sell_block] goes through the list object, whatever
    [products_raw] is: what it writes is the whole catalog. *)
Lemma sale_ref_list (w : world) : raw_ok w -> sale_ref w = RefProducts.
Proof.
  unfold raw_ok, sale_ref.
  destruct (products_raw (w_state w)) as [|j|]; cbn; auto.
  destruct (deref (w_products w) j); cbn; auto; discriminate.
Qed.

Section CatalogFile.

Variable ratio : string -> string -> Q.

(** But no line of input makes [record_sale] write an object: whatever
    the line, [product.json] is left alone or left holding an array. *)
Lemma parse_and_handle_writes_array (user : string) :
  respects catalog_file_step (parse_and_handle ratio user).
Proof.
  apply respects_parse_and_handle; unfold catalog_file_step; cbn; auto.
  - intros a b c H1 H2 Ha. destruct (H1 Ha) as [Hb F1].
    destruct (H2 Hb) as [Hc F2]. split; [exact Hc|].
    destruct F2 as [F2|F2]; [rewrite F2; exact F1 | right; exact F2].
  - intros w s E Hr. split; [|now left]. unfold raw_ok in *. cbn. now rewrite E.
  - intros w p q pm r w' H Hr. rewrite (sale_ref_list w Hr) in H.
    destruct (record_sale_cases p q pm RefProducts w)
      as [[_ E]|[[_ [e E]]|[(d & _ & _ & _ & E)|[[_ [e E]]|
          (d & s & t & Hp & Hg & Hs & Hm & Hq & E)]]]];
      rewrite E in H; inversion H; subst; try (split; [exact Hr | now left]).
    split.
    + unfold raw_ok, sold_world in *. cbn [w_state w_products].
      destruct (products_raw (w_state w)); auto. now apply is_dict_list_set.
    + right. unfold sold_world. cbn. eauto.
Qed.

(** C3, which the call sites of [record_sale] break: [main] creates
    [product.json] as the single default product, and after the first
    sale, "sell 1 Galaxy A-17", the file holds an array of one product
    instead of a single object. *)
Theorem single_object_catalog_saved_as_list :
  let w0 := initial_world None None ["CASH"] sample_entropy in
  exists w1 w2,
    startup w0 = (Ok tt, w1) /\
    w_product_file w1 = Some default_product /\
    products_raw (w_state w1) = RefProduct 0 /\
    parse_and_handle ratio "sell 1 Galaxy A-17" w1 = (Ok tt, w2) /\
    w_product_file w2
    = Some (JList [JDict [("name", JStr "Galaxy A-17"); ("price", JInt 20000);
                          ("stock", JInt 19)]]).
Proof.
  do 2 eexists. split; [vm_compute; reflexivity|].
  split; [reflexivity|]. split; [reflexivity|].
  split; [vm_compute; reflexivity|]. reflexivity.
Qed.

End CatalogFile.

(* ================================================================== *)
(** ** Listing the sales *)

Lemma filter_sales_named (name : string) (l : list json) :
  Forall (fun s => sale_name s <> None) l ->
  filter_sales name l = Ok (filter (sale_listed name) l).
Proof.
  induction 1 as [|s l Hs Hl IH]; [reflexivity|].
  cbn [filter_sales filter]. rewrite IH. unfold sale_matches, sale_listed.
  unfold sale_name in *. destruct s; try contradiction. cbn [py_get rbind].
  destruct (PyDict.get kv "product_name" (JStr "")); try contradiction.
  cbn. destruct (PyStr.contains _ _); reflexivity.
Qed.

Lemma print_sale_rows_ok (items : list json) (rows : list out) (w : world) :
  rows_of items rows ->
  print_sale_rows items w = (Ok tt, with_stdout (w_stdout w ++ rows) w).
Proof.
  intros H. revert w. induction H as [|s r items rows Hs H IH]; intros w.
  - cbn. rewrite app_nil_r. destruct w; reflexivity.
  - cbn [print_sale_rows]. mrun. rewrite Hs. mrun. rewrite IH. cbn.
    rewrite <- app_assoc. reflexivity.
Qed.

Lemma rows_of_nil (shown : list json) (rows : list out) :
  rows_of shown rows -> (shown = [] <-> rows = []).
Proof. destruct 1; split; intros; (reflexivity || discriminate). Qed.

(** [show_sales] with a filter: the entries whose product name contains
    it, latest first. *)
Lemma show_sales_filtered (l : list json) (name : string) (rows : list out)
    (w : world) :
  name <> EmptyString ->
  Forall (fun s => sale_name s <> None) l ->
  rows_of (rev (filter (sale_listed name) l)) rows ->
  show_sales (JList l) (Some name) w
  = (Ok tt, with_stdout (w_stdout w ++ sales_output l rows) w).
Proof.
  intros Hne Hl Hrows. unfold show_sales, sales_output.
  destruct l as [|s0 l0] eqn:El; [reflexivity|]. rewrite <- El in *.
  replace (truthy (JList l)) with true by (subst; reflexivity).
  cbn [negb]. destruct name as [|c n] eqn:En; [contradiction|]. rewrite <- En in *.
  replace (PyStr.is_empty name) with false by (subst; reflexivity).
  mrun. cbn [py_iter]. rewrite (filter_sales_named name l Hl). mrun.
  destruct (filter (sale_listed name) l) as [|x f] eqn:Ef.
  - cbn in Hrows. inversion Hrows; subst rows. subst l; reflexivity.
  - replace (truthy (JList (x :: f))) with true by reflexivity. cbn [negb].
    mrun. cbn [py_iter]. rewrite (print_sale_rows_ok _ rows) by exact Hrows.
    destruct rows as [|r rows'].
    + apply rows_of_nil in Hrows. destruct Hrows as [_ Hr].
      specialize (Hr eq_refl). apply (f_equal (@rev json)) in Hr.
      rewrite rev_involutive in Hr. discriminate.
    + subst l. cbn. rewrite <- !app_assoc. reflexivity.
Qed.

(** [show_sales] without a filter: every entry, latest first. *)
Lemma show_sales_all (l : list json) (rows : list out) (w : world) :
  rows_of (rev l) rows ->
  show_sales (JList l) None w
  = (Ok tt, with_stdout (w_stdout w ++ sales_output l rows) w).
Proof.
  intros Hrows. unfold show_sales, sales_output.
  destruct l as [|s0 l0] eqn:El; [reflexivity|]. rewrite <- El in *.
  assert (Ht : truthy (JList l) = true) by (subst; reflexivity).
  rewrite Ht. cbn [negb]. mrun. rewrite Ht. cbn [negb py_iter].
  rewrite (print_sale_rows_ok _ rows) by exact Hrows.
  destruct rows as [|r rows'].
  + apply rows_of_nil in Hrows. destruct Hrows as [_ Hr].
    specialize (Hr eq_refl). apply (f_equal (@rev json)) in Hr.
    rewrite rev_involutive in Hr. subst. discriminate.
  + subst l. cbn. rewrite <- !app_assoc. reflexivity.
Qed.








Section SalesLines.

Variable ratio : string -> string -> Q.





End SalesLines.



(* ================================================================== *)
(** ** The stock invariant *)

Lemma record_sale_keeps_catalog_ok (w : world) (p : nat) (q : Z) (pm : string)
    (r : result json) (w' : world) :
  record_sale p q pm (sale_ref w) w = (r, w') -> keeps_catalog_ok w w'.
Proof.
  intros H Hw. rewrite sale_ref_list in H by apply Hw.
  destruct (record_sale_cases p q pm RefProducts w)
    as [[_ E]|[[_ [e E]]|[(d & _ & _ & _ & E)|[[_ [e E]]|
        (d & s & t & Hp & Hg & Hs & Hm & Hq & E)]]]];
    rewrite E in H; inversion H; subst; auto.
  destruct Hw as (Hmem & Hfile & Hraw).
  assert (Hnew : stocks_nonneg
            (list_set (w_products w) p (JDict (PyDict.set d "stock" s)))).
  { apply stocks_nonneg_list_set; [exact Hmem|].
    intros s'. cbn [stock_of]. rewrite dict_get_set.
    exact (py_sub_int_nonneg _ _ _ _ Hg Hs). }
  split; [exact Hnew|]. split.
  - unfold sold_world, persisted_stocks_nonneg.
    cbn [w_product_file ref_value is_dict].
    intros v l Hv Hn. inversion Hv; subst v. inversion Hn; subst. exact Hnew.
  - unfold raw_ok, sold_world in *. cbn [w_state w_products].
    destruct (products_raw (w_state w)); auto.
    now apply is_dict_list_set.
Qed.

Lemma keeps_catalog_ok_state (w : world) (s : state) :
  products_raw s = products_raw (w_state w) ->
  keeps_catalog_ok w (with_state s w).
Proof.
  intros E (Hm & Hf & Hr). split; [exact Hm|]. split; [exact Hf|].
  unfold raw_ok in *. cbn. now rewrite E.
Qed.

Lemma startup_keeps_catalog_ok : respects keeps_catalog_ok startup.
Proof.
  intros w r w' H Hw. rewrite startup_eq in H.
  assert (Hfile : persisted_stocks_nonneg (files_created w)).
  { destruct Hw as (_ & Hf & _). intros v l Hv Hn.
    destruct w as [pl st pf sf si so en tk]; cbn in *.
    destruct pf as [v0|]; cbn in *.
    - eapply Hf; eauto.
    - inversion Hv; subst. inversion Hn.
      constructor; [|constructor]. cbn. intros s E; inversion E; lia. }
  destruct (normalize_products (loaded_catalog w)) as [l|e] eqn:En.
  - assert (Hstarted : catalog_ok (started_world w l)).
    { split; [|split].
      + eapply Hfile; [|exact En]. destruct w; reflexivity.
      + intros v l' Hv. apply Hfile. destruct w; exact Hv.
      + unfold raw_ok, started_world. cbn.
        destruct (loaded_catalog w); cbn in *; auto.
        inversion En; reflexivity. }
    revert Hstarted.
    apply (respects_show_products keeps_catalog_ok) with (l := l) (r := r);
      unfold keeps_catalog_ok; auto.
  - inversion H; subst. destruct Hw as (Hm & _ & Hr).
    split; [|split]; auto; destruct w; assumption.
Qed.

Section Invariant.

Variable ratio : string -> string -> Q.

(** One line of input keeps the catalog without negative stock. *)
Lemma parse_and_handle_keeps_catalog_ok (user : string) :
  respects keeps_catalog_ok (parse_and_handle ratio user).
Proof.
  apply respects_parse_and_handle; unfold keeps_catalog_ok; auto.
  - intros w s E. now apply keeps_catalog_ok_state.
  - intros w p q pm r w'. apply record_sale_keeps_catalog_ok.
Qed.

Lemma main_loop_keeps_catalog_ok (fuel : nat) :
  respects keeps_catalog_ok (main_loop ratio fuel).
Proof.
  apply respects_main_loop; unfold keeps_catalog_ok; auto.
  - intros w s E. now apply keeps_catalog_ok_state.
  - intros w p q pm r w'. apply record_sale_keeps_catalog_ok.
Qed.

Lemma main_keeps_catalog_ok (fuel : nat) :
  respects keeps_catalog_ok (main ratio fuel).
Proof.
  intros w r w' H Hw. unfold main, bind in H.
  destruct (startup w) as [[[]|e] w1] eqn:E.
  - eapply (main_loop_keeps_catalog_ok fuel); [exact H|].
    eapply startup_keeps_catalog_ok; eauto.
  - inversion H; subst. eapply startup_keeps_catalog_ok; eauto.
Qed.

(** C9: in a session started on a catalog without negative stock, no
    stock is negative after any number [fuel] of input lines, in memory
    or in [product.json]. *)
Theorem stock_never_negative (fuel : nat) (product_file sale_file : option json)
    (stdin : list string) (e : nat -> entropy) (r : result (option unit))
    (w' : world) :
  (forall v l, product_file = Some v -> normalize_products v = Ok l ->
               stocks_nonneg l) ->
  main ratio fuel (initial_world product_file sale_file stdin e) = (r, w') ->
  stocks_nonneg (w_products w') /\ persisted_stocks_nonneg w'.
Proof.
  intros Hfile H.
  assert (Hw : catalog_ok (initial_world product_file sale_file stdin e)).
  { split; [constructor|]. split; [exact Hfile | exact I]. }
  destruct (main_keeps_catalog_ok fuel _ _ _ H Hw) as (Hm & Hp & _). auto.
Qed.

End Invariant.

Lemma stock_never_negative_witness :
  let run :=
    main RatcliffObershelp.ratio 3
      (initial_world (Some (JList [widget])) None
         ["sell 2 Widget"; "CASH"; "exit"] sample_entropy) in
  stocks_nonneg (w_products (snd run)) /\ persisted_stocks_nonneg (snd run).
Proof.
  cbv zeta.
  apply (stock_never_negative RatcliffObershelp.ratio 3
           (Some (JList [widget])) None ["sell 2 Widget"; "CASH"; "exit"]
           sample_entropy
           (fst (main RatcliffObershelp.ratio 3
                   (initial_world (Some (JList [widget])) None
                      ["sell 2 Widget"; "CASH"; "exit"] sample_entropy)))).
  - intros v l Hv Hn. inversion Hv; subst v. inversion Hn; subst l.
    repeat constructor. intros s Hs. inversion Hs. lia.
  - apply surjective_pairing.
Defined.

(* ================================================================== *)
(** ** The loop ends

    Every turn of the loop reads a line and none is ever put back, so
    on a finite input the loop is left, by "exit" or by the [EOFError]
    of [input], before [fuel] runs out if [fuel] exceeds the number of
    lines. *)

Section Termination.

Variable ratio : string -> string -> Q.

Lemma parse_and_handle_reads_stdin (user : string) :
  respects reads_stdin (parse_and_handle ratio user).
Proof.
  apply respects_parse_and_handle; unfold reads_stdin; cbn; auto.
  - intros a b c H1 H2. lia.
  - intros w x r E. rewrite E. cbn. lia.
  - intros w p q pm r w' H. now rewrite (record_sale_stdin _ _ _ _ _ _ _ H).
Qed.

Lemma main_loop_ends (fuel : nat) :
  forall w w',
    (List.length (w_stdin w) < fuel)%nat ->
    main_loop ratio fuel w <> (Ok None, w').
Proof.
  induction fuel as [|fuel IH]; intros w w' Hlen; [lia|].
  cbn [main_loop]. unfold bind at 1, input.
  cbn [w_stdin with_stdout].
  destruct (w_stdin w) as [|line rest] eqn:Ein; [discriminate|].
  unfold bind. 
  destruct (breaks_on_exit _ _) as [[stop|e] w2] eqn:Eb; [|discriminate].
  destruct stop; [discriminate|].
  apply IH.
  unfold breaks_on_exit in Eb.
  destruct (parse_and_handle ratio (PyStr.strip line) _) as [[[]|e] w3] eqn:Ep.
  - inversion Eb; subst w3.
    pose proof (parse_and_handle_reads_stdin _ _ _ _ Ep) as L.
    unfold reads_stdin in L. cbn in L, Hlen. lia.
  - destruct e; discriminate.
Qed.

End Termination.

(* ================================================================== *)
(** ** The scenarios of the specification, run on the model *)

(** "sell 2 Widget", then "CASH": the stock becomes 3 and the ledger
    gains one entry, of total 20, paid in cash. *)
Example scenario_sell_two_widgets :
  let w0 := initial_world (Some (JList [widget])) None
              ["sell 2 Widget"; "CASH"; "exit"] sample_entropy in
  exists w',
    main RatcliffObershelp.ratio 3 w0 = (Ok (Some tt), w') /\
    w_products w'
    = [JDict [("name", JStr "Widget"); ("price", JInt 10); ("stock", JInt 3)]] /\
    w_product_file w' = Some (JList (w_products w')) /\
    w_sale_file w' = Some (JList [widget_sale]) /\
    last_sales (w_state w') = JList [widget_sale].
Proof.
  eexists. split; [vm_compute; reflexivity|]. repeat split.
Qed.

(** "Widget", then "3", then "UPI": the Widget is selected, then 3 of
    them are sold for 30, paid by UPI. *)
Example scenario_select_then_quantity :
  let w0 := initial_world (Some (JList [widget; gadget])) None
              ["Widget"; "3"; "UPI"; "quit"] sample_entropy in
  exists w',
    main RatcliffObershelp.ratio 4 w0 = (Ok (Some tt), w') /\
    last_selected_product (w_state w') = Some O /\
    stock_of (deref (w_products w') 0) = Some 2 /\
    last_sales (w_state w')
    = JList [invoice_of (sample_entropy 0) (JStr "Widget") 3 (JInt 10)
               (JInt 30) "UPI"].
Proof.
  eexists. split; [vm_compute; reflexivity|]. repeat split.
Qed.

(** A misspelt name is found by the fuzzy tier. *)
Example scenario_fuzzy_name :
  find_product_by_name RatcliffObershelp.ratio [widget; gadget] "gadgt pro"
    default_cutoff = Ok (Some 1%nat).
Proof. vm_compute. reflexivity. Qed.

(** The patterns on a few lines. *)
Example pattern_sales_for :
  rmatch true re_sales "Sales  for Galaxy A-17" = Some [Some "Galaxy A-17"].
Proof. vm_compute. reflexivity. Qed.

Example pattern_show_sales :
  rmatch true re_sales "show sales for Widget" = None.
Proof. vm_compute. reflexivity. Qed.

Example pattern_sell_qty_first :
  rmatch true re_sell_qty_name "sell 2 Galaxy A-17"
  = Some [Some "2"; Some "Galaxy A-17"].
Proof. vm_compute. reflexivity. Qed.

Example pattern_sell_qty_last :
  or_match (rmatch true re_sell_qty_name "sell Galaxy A-17 2")
           (rmatch true re_sell_name_qty "sell Galaxy A-17 2")
  = Some [Some "Galaxy A-17"; Some "2"].
Proof. vm_compute. reflexivity. Qed.

Example pattern_qty_name :
  rmatch false re_qty_name "12 Widget" = Some [Some "12"; Some "Widget"].
Proof. vm_compute. reflexivity. Qed.

Example similarity_of_a_typo :
  Qeq_bool (RatcliffObershelp.ratio "Widget" "widgit") (2 # 3) = true.
Proof. vm_compute. reflexivity. Qed.

(* ================================================================== *)
(** ** The ledger only grows *)

Lemma ledger_grows_refl (w : world) : ledger_grows w w.
Proof. exists []. now rewrite app_nil_r. Qed.

Lemma ledger_grows_trans (a b c : world) :
  ledger_grows a b -> ledger_grows b c -> ledger_grows a c.
Proof.
  intros [x Hx] [y Hy]. exists (x ++ y)%list. now rewrite Hy, Hx, app_assoc.
Qed.

Lemma record_sale_ledger_grows (w : world) (p : nat) (q : Z) (pm : string)
    (raw : pyref) (r : result json) (w' : world) :
  record_sale p q pm raw w = (r, w') -> ledger_grows w w'.
Proof.
  intros H.
  destruct (record_sale_cases p q pm raw w)
    as [[_ E]|[[_ [e E]]|[(d & _ & _ & _ & E)|[[_ [e E]]|
        (d & s & t & _ & _ & _ & _ & _ & E)]]]];
    rewrite E in H; inversion H; subst;
    try (exists []; rewrite app_nil_r; reflexivity).
  eexists. unfold sold_world, persisted_ledger at 1. cbn. reflexivity.
Qed.

Lemma startup_ledger_grows : respects ledger_grows startup.
Proof.
  intros w r w' H. rewrite startup_eq in H.
  assert (F : ledger_grows w (files_created w)).
  { exists []. rewrite app_nil_r. unfold persisted_ledger, files_created,
      loaded_ledger. destruct w as [pl st pf [s|] si so en tk]; reflexivity. }
  destruct (normalize_products (loaded_catalog w)) as [l|e].
  - apply (ledger_grows_trans w (started_world w l)).
    + destruct F as [x Hx]. exists x. rewrite <- Hx. reflexivity.
    + apply (respects_show_products ledger_grows ledger_grows_refl
               ledger_grows_trans (fun w0 _ => ledger_grows_refl w0) l _ _ _ H).
  - inversion H; subst. exact F.
Qed.

Section LedgerGrows.
Variable ratio : string -> string -> Q.

(** X1: The ledger is append-only: on plain data (files, lines typed,
    dates and identifiers that [json.dump] writes), whatever the number
    of lines processed, the entries that [sale.json] held when [main]
    started are still there, in the same order, at the head of the
    ledger. *)
Theorem ledger_append_only (fuel : nat) (w : world) :
  plain_files w ->
  ledger_grows w (snd (main ratio fuel w)).
Proof.
  intros _.
  destruct (main ratio fuel w) as [r w'] eqn:H. cbn [snd].
  unfold main, bind in H.
  destruct (startup w) as [[[]|e] w1] eqn:E.
  - eapply ledger_grows_trans; [eapply startup_ledger_grows; exact E|].
    apply (respects_main_loop ratio ledger_grows ledger_grows_refl
             ledger_grows_trans (fun w0 _ => ledger_grows_refl w0)
             (fun w0 _ _ _ => ledger_grows_refl w0)
             (fun w0 _ _ => ledger_grows_refl w0)
             (fun w0 p q pm r0 w0' => record_sale_ledger_grows w0 p q pm _ r0 w0')
             fuel _ _ _ H).
  - inversion H; subst. eapply startup_ledger_grows; exact E.
Qed.

End LedgerGrows.

Lemma ledger_append_only_witness :
  ledger_grows
    (initial_world (Some (JList [widget; gadget])) (Some (JList [gadget_sale]))
       ["sell 2 Widget"; "CASH"; "exit"] sample_entropy)
    (snd (main RatcliffObershelp.ratio 3
            (initial_world (Some (JList [widget; gadget]))
               (Some (JList [gadget_sale]))
               ["sell 2 Widget"; "CASH"; "exit"] sample_entropy))).
Proof.
  apply (ledger_append_only RatcliffObershelp.ratio 3
           (initial_world (Some (JList [widget; gadget]))
              (Some (JList [gadget_sale]))
              ["sell 2 Widget"; "CASH"; "exit"] sample_entropy)).
  plain_data.
Defined.

(* ================================================================== *)
(** ** The catalog in memory and the catalog on disk *)

Lemma record_sale_keeps_catalog_in_sync (w : world) (p : nat) (q : Z)
    (pm : string) (r : result json) (w' : world) :
  record_sale p q pm (sale_ref w) w = (r, w') -> keeps_catalog_in_sync w w'.
Proof.
  intros H [Hr Hs]. rewrite (sale_ref_list w Hr) in H.
  destruct (record_sale_cases p q pm RefProducts w)
    as [[_ E]|[[_ [e E]]|[(d & _ & _ & _ & E)|[[_ [e E]]|
        (d & s & t & Hp & _ & _ & _ & _ & E)]]]];
    rewrite E in H; inversion H; subst; try (split; assumption).
  split.
  - unfold raw_ok, sold_world in *. cbn [w_state w_products].
    destruct (products_raw (w_state w)); auto. now apply is_dict_list_set.
  - eexists. unfold sold_world. cbn. split; reflexivity.
Qed.

Lemma startup_catalog_in_sync (w : world) (l : list json)
    (r : result unit) (w1 : world) :
  normalize_products (loaded_catalog w) = Ok l ->
  startup w = (r, w1) -> raw_ok w1 /\ catalog_in_sync w1.
Proof.
  intros En H. rewrite startup_eq, En in H.
  assert (S0 : raw_ok (started_world w l) /\ catalog_in_sync (started_world w l)).
  { split.
    - unfold raw_ok, started_world. cbn.
      destruct (loaded_catalog w); cbn in *; auto. inversion En; reflexivity.
    - exists (loaded_catalog w). split; [destruct w; reflexivity | exact En]. }
  revert S0.
  apply (respects_show_products keeps_catalog_in_sync) with (l := l) (r := r);
    unfold keeps_catalog_in_sync; auto.
Qed.

Section CatalogSync.
Variable ratio : string -> string -> Q.

(** X2: On plain data, when [product.json] holds an object, an array or
    [null] (or is missing), [product.json] and the catalog in memory
    agree when [main] stops, however it stops and whatever plain lines
    were typed: what a restart would load is what the session held. *)
Theorem catalog_stays_in_sync (fuel : nat) (w : world) (l : list json) :
  plain_files w ->
  normalize_products (loaded_catalog w) = Ok l ->
  catalog_in_sync (snd (main ratio fuel w)).
Proof.
  intros _ Hl. unfold main, bind.
  destruct (startup w) as [[[]|e] w1] eqn:E;
    pose proof (startup_catalog_in_sync w l _ w1 Hl E) as S1;
    [|exact (proj2 S1)].
  destruct (main_loop ratio fuel w1) as [r w'] eqn:H. cbn [snd].
  refine (proj2 (respects_main_loop ratio keeps_catalog_in_sync _ _ _ _ _ _
                   fuel _ _ _ H S1));
    unfold keeps_catalog_in_sync; auto.
  - intros w0 s Es [Hr Hc]. split; [|exact Hc].
    unfold raw_ok in *. cbn. now rewrite Es.
  - intros w0 p q pm r0 w0'. apply record_sale_keeps_catalog_in_sync.
Qed.

End CatalogSync.

Lemma catalog_stays_in_sync_witness :
  catalog_in_sync
    (snd (main RatcliffObershelp.ratio 3
            (initial_world (Some widget) None
               ["sell 2 Widget"; "CASH"; "exit"] sample_entropy))).
Proof.
  apply (catalog_stays_in_sync RatcliffObershelp.ratio 3
           (initial_world (Some widget) None
              ["sell 2 Widget"; "CASH"; "exit"] sample_entropy) [widget]).
  - plain_data.
  - reflexivity.
Defined.

(* ================================================================== *)
(** ** Only a sale writes *)

Lemma writes_only_by_sale_refl (w : world) : writes_only_by_sale w w.
Proof. split; auto. Qed.

Lemma writes_only_by_sale_trans (a b c : world) :
  writes_only_by_sale a b -> writes_only_by_sale b c ->
  writes_only_by_sale a c.
Proof.
  intros [L1 H1] [L2 H2]. split; [lia|]. intros E.
  assert (E1 : w_tick b = w_tick a) by lia.
  assert (E2 : w_tick c = w_tick b) by lia.
  destruct (H1 E1) as (A1 & A2 & A3). destruct (H2 E2) as (B1 & B2 & B3).
  repeat split; congruence.
Qed.

Lemma record_sale_writes_only_by_sale (w : world) (p : nat) (q : Z)
    (pm : string) (raw : pyref) (r : result json) (w' : world) :
  record_sale p q pm raw w = (r, w') -> writes_only_by_sale w w'.
Proof.
  intros H.
  destruct (record_sale_cases p q pm raw w)
    as [[_ E]|[[_ [e E]]|[(d & _ & _ & _ & E)|[[_ [e E]]|
        (d & s & t & _ & _ & _ & _ & _ & E)]]]];
    rewrite E in H; inversion H; subst; try (split; auto; fail).
  - split; cbn; [lia|]. intros F. lia.
  - unfold sold_world. split; cbn; [lia|]. intros F. lia.
Qed.

Section OnlySaleWrites.
Variable ratio : string -> string -> Q.

(** X3: A line of input that records no sale (the clock is not read)
    leaves the catalog in memory, [product.json] and [sale.json] as they
    were; this holds whether the line is answered or raises. *)
Theorem line_without_sale_writes_nothing (user : string) (w : world) :
  let w' := snd (parse_and_handle ratio user w) in
  (w_tick w <= w_tick w')%nat /\
  (w_tick w' = w_tick w ->
   w_products w' = w_products w /\
   w_product_file w' = w_product_file w /\
   w_sale_file w' = w_sale_file w).
Proof.
  cbv zeta. destruct (parse_and_handle ratio user w) as [r w'] eqn:H. cbn [snd].
  apply (respects_parse_and_handle ratio writes_only_by_sale
           writes_only_by_sale_refl writes_only_by_sale_trans
           (fun w0 _ => writes_only_by_sale_refl w0)
           (fun w0 _ _ _ => writes_only_by_sale_refl w0)
           (fun w0 _ _ => writes_only_by_sale_refl w0)
           (fun w0 p q pm r0 w0' =>
              record_sale_writes_only_by_sale w0 p q pm _ r0 w0')
           user _ _ _ H).
Qed.

End OnlySaleWrites.


Lemma startup_same_files (w : world) (r : result unit) (w1 : world) :
  startup w = (r, w1) -> same_files (files_created w) w1.
Proof.
  intros H. rewrite startup_eq in H.
  destruct (normalize_products (loaded_catalog w)) as [l|e].
  - assert (S0 : same_files (files_created w) (started_world w l))
      by (repeat split).
    exact (respects_show_products
             (fun a b => same_files (files_created w) a ->
                         same_files (files_created w) b)
             (fun _ h => h) (fun _ _ _ f g h => g (f h)) (fun _ _ h => h)
             l (started_world w l) r w1 H S0).
  - inversion H; subst. repeat split.
Qed.

Section SessionFiles.
Variable ratio : string -> string -> Q.

(** X4: A session in which no sale is recorded (the clock is never read)
    leaves both files as it found them, whatever was typed and however
    it ends; a file that was missing holds the default that [main]
    creates: the sample product, the empty ledger. *)
Theorem session_without_sale_keeps_files (fuel : nat) (w : world) :
  let w' := snd (main ratio fuel w) in
  w_tick w' = w_tick w ->
  w_product_file w' = Some (loaded_catalog w) /\
  w_sale_file w' = Some (loaded_ledger w).
Proof.
  cbv zeta. unfold main, bind.
  destruct (startup w) as [[[]|e] w1] eqn:E;
    destruct (startup_same_files w _ w1 E) as (T1 & P1 & S1);
    cbn [snd].
  - destruct (main_loop ratio fuel w1) as [r w'] eqn:H. cbn [snd].
    intros T.
    destruct (respects_main_loop ratio writes_only_by_sale
                writes_only_by_sale_refl writes_only_by_sale_trans
                (fun w0 _ => writes_only_by_sale_refl w0)
                (fun w0 _ _ _ => writes_only_by_sale_refl w0)
                (fun w0 _ _ => writes_only_by_sale_refl w0)
                (fun w0 p q pm r0 w0' =>
                   record_sale_writes_only_by_sale w0 p q pm _ r0 w0')
                fuel _ _ _ H) as [Hle Hsame].
    destruct Hsame as (_ & P2 & S2).
    { rewrite T, T1. destruct w; reflexivity. }
    rewrite P2, S2, P1, S1. destruct w; split; reflexivity.
  - intros _. rewrite P1, S1. destruct w; split; reflexivity.
Qed.

End SessionFiles.

Lemma session_without_sale_keeps_files_witness :
  let w := initial_world None (Some (JInt 7)) ["show sales"; "9 nothing"; "exit"]
             sample_entropy in
  w_product_file (snd (main RatcliffObershelp.ratio 3 w))
  = Some (loaded_catalog w) /\
  w_sale_file (snd (main RatcliffObershelp.ratio 3 w))
  = Some (loaded_ledger w).
Proof.
  apply (session_without_sale_keeps_files RatcliffObershelp.ratio 3
           (initial_world None (Some (JInt 7))
              ["show sales"; "9 nothing"; "exit"] sample_entropy)).
  vm_compute. reflexivity.
Defined.


(* ================================================================== *)
(** ** Units are conserved *)

Lemma total_stock_list_set (l : list json) (i : nat) (old new : json) :
  nth_error l i = Some old ->
  total_stock (list_set l i new)
  = total_stock l - stock_count old + stock_count new.
Proof.
  revert i. induction l as [|x l IH]; intros [|i] H;
    cbn [nth_error list_set total_stock] in *; try discriminate.
  - inversion H; subst. lia.
  - rewrite (IH i H). lia.
Qed.

Lemma quantity_sold_app (a b : list json) :
  quantity_sold (a ++ b) = quantity_sold a + quantity_sold b.
Proof.
  induction a as [|x a IH]; cbn [app quantity_sold]; [reflexivity|].
  rewrite IH; lia.
Qed.

Lemma forallb_list_set (f : json -> bool) (l : list json) (i : nat)
    (v : json) :
  forallb f l = true -> f v = true -> forallb f (list_set l i v) = true.
Proof.
  revert i. induction l as [|x l IH]; intros [|i] H Hv; cbn in *; auto;
    apply andb_true_iff in H as [Hx Hl]; apply andb_true_iff; auto.
Qed.

Lemma forallb_nth_error (f : json -> bool) (l : list json) (i : nat)
    (x : json) :
  forallb f l = true -> nth_error l i = Some x -> f x = true.
Proof.
  intros H N. apply nth_error_In in N.
  exact (proj1 (forallb_forall f l) H x N).
Qed.

Lemma keeps_units_refl (w : world) : keeps_units w w.
Proof. intros H. split; [exact H | reflexivity]. Qed.

Lemma keeps_units_trans (a b c : world) :
  keeps_units a b -> keeps_units b c -> keeps_units a c.
Proof.
  intros H1 H2 Ha. destruct (H1 Ha) as [Hb E1]. destruct (H2 Hb) as [Hc E2].
  split; [exact Hc | congruence].
Qed.

Lemma record_sale_keeps_units (w : world) (p : nat) (q : Z) (pm : string)
    (raw : pyref) (r : result json) (w' : world) :
  record_sale p q pm raw w = (r, w') -> keeps_units w w'.
Proof.
  intros H.
  destruct (record_sale_cases p q pm raw w)
    as [[_ E]|[[_ [e E]]|[(d & _ & _ & _ & E)|[[_ [e E]]|
        (d & s & t & Hp & _ & Hs & _ & _ & E)]]]];
    rewrite E in H; inversion H; subst;
    try (intros Hc0; split; [exact Hc0 | reflexivity]).
  intros Hc.
  pose proof (forallb_nth_error _ _ _ _ Hc Hp) as Hd. cbn [counted] in Hd.
  destruct (as_int (PyDict.get d "stock" (JInt 0))) as [n|] eqn:En;
    [clear Hd | discriminate].
  rewrite (py_sub_int_int _ n) in Hs by exact En. inversion Hs; subst s.
  split.
  - unfold sold_world. cbn [w_products].
    apply forallb_list_set; [exact Hc|]. cbn [counted].
    now rewrite dict_get_set.
  - unfold units.
    assert (L : persisted_ledger
                  (sold_world w p d (JInt (n - q)) q t pm raw)
                = (persisted_ledger w
                   ++ [invoice_of (w_entropy w (w_tick w))
                         (PyDict.get d "name" JNull) q
                         (PyDict.get d "price" (JInt 0)) t pm])%list)
      by reflexivity.
    rewrite L, quantity_sold_app.
    unfold sold_world. cbn [w_products].
    rewrite (total_stock_list_set _ _ (JDict d) _ Hp).
    unfold stock_count, stock_of. rewrite dict_get_set, En.
    cbn. lia.
Qed.

Lemma startup_units (w : world) (l : list json) (r : result unit)
    (w1 : world) :
  normalize_products (loaded_catalog w) = Ok l ->
  forallb counted l = true ->
  startup w = (r, w1) ->
  forallb counted (w_products w1) = true /\
  units w1 = total_stock l + quantity_sold (persisted_ledger w).
Proof.
  intros En Hc H. rewrite startup_eq, En in H.
  assert (S0 : units (started_world w l)
               = total_stock l + quantity_sold (persisted_ledger w)).
  { unfold units, started_world, persisted_ledger, files_created, loaded_ledger.
    destruct w as [pl st pf [s|] si so en tk]; reflexivity. }
  rewrite <- S0.
  apply (respects_show_products keeps_units keeps_units_refl keeps_units_trans
           (fun w0 _ => keeps_units_refl _) l _ _ _ H).
  exact Hc.
Qed.

(** The stocks of a plain catalog are integers. *)
Lemma plain_product_counted (p : json) :
  plain_product p = true -> counted p = true.
Proof.
  unfold plain_product, counted. intros H.
  apply andb_true_iff in H as [_ H]. destruct p; auto.
  apply andb_true_iff in H as [_ H].
  destruct (PyDict.get kv "stock" (JInt 0)); cbn in *; auto; discriminate.
Qed.

Lemma plain_products_counted (l : list json) :
  forallb plain_product l = true -> forallb counted l = true.
Proof.
  induction l as [|p l IH]; cbn; [reflexivity|]. intros H.
  apply andb_true_iff in H as [Hp Hl].
  now rewrite (plain_product_counted p Hp), IH.
Qed.

Lemma plain_catalog_loaded (w : world) (l : list json) :
  plain_files w ->
  normalize_products (loaded_catalog w) = Ok l ->
  forallb plain_product l = true.
Proof.
  intros (Hf & _) En. unfold loaded_catalog in En.
  destruct (w_product_file w) as [v|]; cbn [plain_file] in Hf.
  - destruct v; cbn in En; try discriminate; inversion En; subst; cbn;
      try reflexivity; try exact Hf.
    cbn [plain_catalog] in Hf. now rewrite Hf.
  - inversion En; subst. reflexivity.
Qed.

Section Units.
Variable ratio : string -> string -> Q.

(** X5: Nothing is lost and nothing is invented: on plain data, when
    [main] stops, however it stops, the units in stock plus the units
    that the ledger says were sold are the units the catalog started
    with plus the units the ledger already held. *)
Theorem units_are_conserved (fuel : nat) (w : world) (l : list json) :
  plain_files w ->
  normalize_products (loaded_catalog w) = Ok l ->
  let w' := snd (main ratio fuel w) in
  total_stock (w_products w') + quantity_sold (persisted_ledger w')
  = total_stock l + quantity_sold (persisted_ledger w).
Proof.
  intros Hplain Hl. cbv zeta.
  pose proof (plain_products_counted l (plain_catalog_loaded w l Hplain Hl))
    as Hc.
  unfold main, bind.
  destruct (startup w) as [[[]|e] w1] eqn:E;
    destruct (startup_units w l _ w1 Hl Hc E) as [C1 S1]; [|exact S1].
  destruct (main_loop ratio fuel w1) as [r w'] eqn:H. cbn [snd].
  rewrite <- S1.
  refine (proj2 (respects_main_loop ratio keeps_units keeps_units_refl
                   keeps_units_trans (fun w0 _ => keeps_units_refl _)
                   (fun w0 _ _ _ => keeps_units_refl _)
                   (fun w0 _ _ => keeps_units_refl _)
                   (fun w0 p q pm r0 w0' =>
                      record_sale_keeps_units w0 p q pm _ r0 w0')
                   fuel _ _ _ H C1)).
Qed.

End Units.

Lemma units_are_conserved_witness :
  let w' := snd (main RatcliffObershelp.ratio 3
                   (initial_world (Some (JList [widget; gadget])) None
                      ["sell 2 Widget"; "CASH"; "exit"] sample_entropy)) in
  total_stock (w_products w') + quantity_sold (persisted_ledger w')
  = total_stock [widget; gadget]
    + quantity_sold
        (persisted_ledger
           (initial_world (Some (JList [widget; gadget])) None
              ["sell 2 Widget"; "CASH"; "exit"] sample_entropy)).
Proof.
  apply (units_are_conserved RatcliffObershelp.ratio 3
           (initial_world (Some (JList [widget; gadget])) None
              ["sell 2 Widget"; "CASH"; "exit"] sample_entropy)
           [widget; gadget]).
  - plain_data.
  - reflexivity.
Defined.


(* ================================================================== *)
(** ** What a sale touches *)

Lemma nth_error_list_set_other (l : list json) (i j : nat) (v : json) :
  j <> i -> nth_error (list_set l i v) j = nth_error l j.
Proof.
  revert i j. induction l as [|x l IH]; intros [|i] [|j] N; cbn;
    try reflexivity; try contradiction.
  apply IH. congruence.
Qed.

Lemma length_list_set (l : list json) (i : nat) (v : json) :
  List.length (list_set l i v) = List.length l.
Proof.
  revert i. induction l as [|x l IH]; intros [|i]; cbn; auto.
Qed.

(** X6: [record_sale] changes one thing in the catalog, the stock of the
    product sold: every other product is the same object as before, the
    catalog has as many products, and every other field of the product
    sold (its name, its price) reads as before.  It leaves the session
    state and the pending input alone.  This holds however the call
    ends. *)
Theorem record_sale_touches_stock_only (product : nat) (qty : Z)
    (pm : string) (raw : pyref) (w : world) :
  let w' := snd (record_sale product qty pm raw w) in
  (forall j, j <> product ->
     nth_error (w_products w') j = nth_error (w_products w) j) /\
  List.length (w_products w') = List.length (w_products w) /\
  (forall k dflt, k <> "stock" ->
     py_get (deref (w_products w') product) k dflt
     = py_get (deref (w_products w) product) k dflt) /\
  w_state w' = w_state w /\
  w_stdin w' = w_stdin w.
Proof.
  cbv zeta.
  destruct (record_sale_cases product qty pm raw w)
    as [[_ E]|[[_ [e E]]|[(d & _ & _ & _ & E)|[[_ [e E]]|
        (d & s & t & Hp & _ & _ & _ & _ & E)]]]];
    rewrite E; cbn [snd]; try (repeat split; reflexivity).
  unfold sold_world. cbn [w_products w_state w_stdin].
  repeat split.
  - intros j N. now apply nth_error_list_set_other.
  - apply length_list_set.
  - intros k dflt N.
    rewrite (deref_list_set _ _ _ _ Hp), (deref_nth_error _ _ _ Hp).
    cbn [py_get]. f_equal. apply dict_get_set_other. congruence.
Qed.

(* ================================================================== *)
(** ** A sale through the interpreter *)

(** X7: On plain data, a sale within the stock through the interpreter
    reads one line, the payment method (upper-cased and trimmed, "CASH"
    when blank), takes the quantity off the stock of the product, adds
    the invoice to [sale.json], makes the product sold the selected
    product, and reloads the session's ledger: it is then the ledger of
    [sale.json]. *)
Theorem sell_block_sold (w : world) (product : nat) (d : pydict)
    (stock_n qty : Z) (total : json) (line : string) (rest : list string) :
  plain_world w ->
  w_stdin w = line :: rest ->
  nth_error (w_products w) product = Some (JDict d) ->
  as_int (PyDict.get d "stock" (JInt 0)) = Some stock_n ->
  py_mul (PyDict.get d "price" (JInt 0)) qty = Ok total ->
  0 < qty <= stock_n ->
  exists w',
    sell_block product qty w = (Ok tt, w') /\
    w_stdin w' = rest /\
    py_get (deref (w_products w') product) "stock" (JInt 0)
    = Ok (JInt (stock_n - qty)) /\
    persisted_ledger w'
    = (persisted_ledger w
       ++ [invoice_of (w_entropy w (w_tick w)) (PyDict.get d "name" JNull)
             qty (PyDict.get d "price" (JInt 0)) total
             (payment_method_of line)])%list /\
    last_sales (w_state w') = JList (persisted_ledger w') /\
    last_selected_product (w_state w') = Some product /\
    products_raw (w_state w') = products_raw (w_state w).
Proof.
  intros _ Hin Hp Hs Hm Hq.
  destruct (sell_block_sells w product d stock_n qty total line rest
              Hin Hp Hs Hm Hq)
    as (w' & E & Hi & Hl & Hled & Hls & Hsel & Hraw & _).
  exists w'. split; [exact E|]. split; [exact Hi|].
  split; [rewrite Hl; now apply stock_after_sale|].
  repeat split; assumption.
Qed.

Lemma sell_block_sold_witness :
  exists w',
    sell_block 0 2 shop_world = (Ok tt, w') /\
    w_stdin w' = [] /\
    py_get (deref (w_products w') 0) "stock" (JInt 0) = Ok (JInt (5 - 2)) /\
    persisted_ledger w'
    = (persisted_ledger shop_world
       ++ [invoice_of (w_entropy shop_world (w_tick shop_world))
             (PyDict.get widget_fields "name" JNull)
             2 (PyDict.get widget_fields "price" (JInt 0)) (JInt 20)
             (payment_method_of "CASH")])%list /\
    last_sales (w_state w') = JList (persisted_ledger w') /\
    last_selected_product (w_state w') = Some O /\
    products_raw (w_state w') = products_raw (w_state shop_world).
Proof.
  apply (sell_block_sold shop_world 0 widget_fields 5 2 (JInt 20) "CASH" []);
    try reflexivity; try lia.
  plain_data.
Defined.


(* ================================================================== *)
(** ** The display helpers only print *)

Lemma prints_only_lift {A} (x : result A) : prints_only (lift x).
Proof.
  intros w. exists []. rewrite app_nil_r. now destruct w.
Qed.

Lemma prints_only_ret {A} (a : A) : prints_only (ret a).
Proof.
  intros w. exists []. rewrite app_nil_r. now destruct w.
Qed.

Lemma prints_only_print (o : out) : prints_only (print o).
Proof. intros w. now exists [o]. Qed.

Lemma prints_only_bind {A B} (m : M A) (f : A -> M B) :
  prints_only m -> (forall a, prints_only (f a)) -> prints_only (bind m f).
Proof.
  intros Hm Hf w. unfold bind.
  destruct (Hm w) as [o1 E1].
  destruct (m w) as [[a|e] w1]; cbn [snd] in *.
  - destruct (Hf a w1) as [o2 E2]. exists (o1 ++ o2)%list.
    rewrite E2, E1. cbn. now rewrite app_assoc.
  - now exists o1.
Qed.

Create HintDb prints.

#[local] Hint Resolve prints_only_lift prints_only_ret prints_only_print
  : prints.

Ltac prints :=
  repeat first
    [ solve [auto with prints]
    | apply prints_only_bind; [|intros]
    | match goal with
      | |- prints_only (if ?b then _ else _) => destruct b
      | |- prints_only (match ?x with _ => _ end) => destruct x
      end ].

Lemma prints_only_product_rows (l : list json) :
  prints_only (print_product_rows l).
Proof. induction l; cbn [print_product_rows]; prints. Qed.

Lemma prints_only_sale_rows (l : list json) :
  prints_only (print_sale_rows l).
Proof. induction l; cbn [print_sale_rows]; prints. Qed.

(** X8: [show_products], [show_product] and [show_sales] do nothing but
    print, on any argument: the catalog, the session, the two files and
    the pending input are as before, and the output has only grown,
    also when the listing stops on an entry it cannot read. *)
Theorem display_helpers_only_print :
  (forall products, prints_only (show_products products)) /\
  (forall product, prints_only (show_product product)) /\
  (forall sales filter_name, prints_only (show_sales sales filter_name)).
Proof.
  pose proof prints_only_product_rows. pose proof prints_only_sale_rows.
  split; [|split]; intros; [unfold show_products | unfold show_product
                           | unfold show_sales]; prints.
Qed.


(* ================================================================== *)
(** ** The three tiers of the name matcher *)

(** The loop up to the first product that does not fail the test with
    [false]. *)
Lemma first_match_skip (test : json -> result bool) (l : list json)
    (k : nat) (v : json) :
  forall i0,
    (forall j p, (j < k)%nat -> nth_error l j = Some p -> test p = Ok false) ->
    nth_error l k = Some v ->
    first_match test l i0
    = rbind (test v)
        (fun b => if b then Ok (Some (i0 + k)%nat)
                  else first_match test (skipn (S k) l) (S (i0 + k))).
Proof.
  revert l. induction k as [|k IH]; intros [|x l] i0 Hbefore Hk;
    try discriminate.
  - cbn in Hk. inversion Hk; subst. cbn [first_match skipn].
    now rewrite Nat.add_0_r.
  - cbn [first_match]. rewrite (Hbefore O x) by (reflexivity || lia).
    cbn [rbind]. rewrite (IH l (S i0)).
    + now rewrite <- Nat.add_succ_comm.
    + intros j p Hj Hp. apply (Hbefore (S j) p); [lia | exact Hp].
    + exact Hk.
Qed.

(** What the loop has seen when it returns a product. *)
Lemma first_match_some (test : json -> result bool) (l : list json) :
  forall i0 i,
    first_match test l i0 = Ok (Some i) ->
    exists k p,
      i = (i0 + k)%nat /\ nth_error l k = Some p /\ test p = Ok true /\
      forall j p', (j < k)%nat -> nth_error l j = Some p' ->
                   test p' = Ok false.
Proof.
  induction l as [|x l IH]; intros i0 i H; [discriminate|].
  cbn [first_match] in H. destruct (test x) as [[|]|e] eqn:Ex;
    cbn [rbind] in H; try discriminate.
  - inversion H; subst. exists O, x. rewrite Nat.add_0_r.
    repeat split; auto. intros j p' Hj. lia.
  - destruct (IH _ _ H) as (k & p & -> & Hk & Hp & Hb).
    exists (S k), p. split; [lia|]. repeat split; auto.
    intros [|j] p' Hj Hp'; cbn in Hp'.
    + now inversion Hp'; subst.
    + apply (Hb j); [lia | exact Hp'].
Qed.

Lemma name_test_named (m : string) (p : json) (n : string) :
  name_of p = Some n -> name_test m p = Ok (String.eqb n m).
Proof.
  unfold name_of, name_test. destruct p; try discriminate. cbn.
  destruct (PyDict.get kv "name" (JStr "")); try discriminate.
  now intros [= ->].
Qed.

Lemma exact_test_name_equals (q : string) (p : json) :
  has_name p -> exact_test q p = Ok (name_equals q p).
Proof.
  unfold has_name, name_equals. intros H.
  destruct (name_of p) as [n|] eqn:E; [|contradiction].
  now apply exact_test_named.
Qed.

Lemma substring_test_name_contains (q : string) (p : json) :
  has_name p -> substring_test q p = Ok (name_contains q p).
Proof.
  unfold has_name, name_contains. intros H.
  destruct (name_of p) as [n|] eqn:E; [|contradiction].
  now apply substring_test_named.
Qed.

Lemma exact_test_true (q : string) (p : json) :
  exact_test q p = Ok true ->
  exists n, name_of p = Some n /\ name_equals q p = true.
Proof.
  unfold exact_test, name_equals, name_of. destruct p; try discriminate.
  cbn. destruct (PyDict.get kv "name" (JStr "")); try discriminate.
  cbn. intros [= H]. eauto.
Qed.

Lemma substring_test_true (q : string) (p : json) :
  substring_test q p = Ok true ->
  exists n, name_of p = Some n /\ name_contains q p = true.
Proof.
  unfold substring_test, name_contains, name_of. destruct p; try discriminate.
  cbn. destruct (PyDict.get kv "name" (JStr "")); try discriminate.
  cbn. intros [= H]. eauto.
Qed.

Lemma name_equals_contains (q : string) (p : json) :
  name_equals q p = true -> name_contains q p = true.
Proof.
  unfold name_equals, name_contains. destruct (name_of p); [|discriminate].
  intros H. apply String.eqb_eq in H. rewrite H. apply contains_refl.
Qed.

Lemma nth_error_has_name (l : list json) (i : nat) (p : json) :
  Forall has_name l -> nth_error l i = Some p -> has_name p.
Proof.
  intros H E. apply nth_error_In in E.
  exact (proj1 (Forall_forall _ _) H p E).
Qed.

Section MatcherTiers.

Variable ratio : string -> string -> Q.

(** X9: The second tier, for a query and names in ASCII: when no name
    equals the query, the first product whose name contains it is
    found, whatever the similarity function and the cutoff. *)
Theorem substring_tier_first_wins (cutoff : Q) (products : list json)
    (query : string) (i : nat) (P : json) :
  ascii_text query = true ->
  ascii_names products = true ->
  PyStr.strip query <> EmptyString ->
  Forall has_name products ->
  (forall p, In p products -> name_equals (PyStr.strip query) p = false) ->
  nth_error products i = Some P ->
  name_contains (PyStr.strip query) P = true ->
  (forall j p, (j < i)%nat -> nth_error products j = Some p ->
     name_contains (PyStr.strip query) p = false) ->
  find_product_by_name ratio products query cutoff = Ok (Some i).
Proof.
  intros _ _ Hne Hall Hneq Hi Hc Hfirst. unfold find_product_by_name.
  destruct (PyStr.strip query) as [|c q'] eqn:Q; [contradiction|].
  cbn [PyStr.is_empty]. rewrite <- Q in *.
  rewrite first_match_none.
  - cbn [rbind].
    rewrite (first_match_skip _ products i P 0).
    + rewrite substring_test_name_contains, Hc
        by (eapply nth_error_has_name; eauto). reflexivity.
    + intros j p Hj Hp.
      rewrite substring_test_name_contains
        by (eapply nth_error_has_name; eauto).
      f_equal. eapply Hfirst; eauto.
    + exact Hi.
  - apply Forall_forall. intros p Hp.
    rewrite exact_test_name_equals
      by exact (proj1 (Forall_forall _ _) Hall p Hp).
    f_equal. now apply Hneq.
Qed.

End MatcherTiers.

Lemma substring_tier_first_wins_witness :
  find_product_by_name RatcliffObershelp.ratio [widget; gadget; widget] "dget"
    default_cutoff = Ok (Some O).
Proof.
  apply (substring_tier_first_wins RatcliffObershelp.ratio default_cutoff
           [widget; gadget; widget] "dget" 0 widget).
  - reflexivity.
  - reflexivity.
  - discriminate.
  - repeat constructor; discriminate.
  - intros p [<-|[<-|[<-|[]]]]; reflexivity.
  - reflexivity.
  - reflexivity.
  - intros j p Hj. lia.
Defined.

(** *** The fuzzy tier *)

Section FuzzyTier.

Variable ratio : string -> string -> Q.

(** The candidates are the names at or above the cutoff, in catalog
    order, each with its score. *)
Lemma close_candidates_filter (word : string) (cutoff : Q) (ns : list string) :
  close_candidates ratio word (map JStr ns) cutoff
  = Ok (map (fun n => (ratio n word, n))
          (filter (fun n => Qle_bool cutoff (ratio n word)) ns)).
Proof.
  induction ns as [|n ns IH]; [reflexivity|].
  cbn [map close_candidates filter]. rewrite IH. cbn [rbind].
  destruct (Qle_bool cutoff (ratio n word)); reflexivity.
Qed.

Lemma tuple_gt_true (a b : Q * string) :
  tuple_gt a b = true -> (fst b <= fst a)%Q.
Proof.
  unfold tuple_gt. destruct (Qeq_bool (fst a) (fst b)) eqn:E.
  - intros _. apply Qeq_bool_iff in E. apply Qle_lteq. right.
    now symmetry.
  - intros H. now apply Qle_bool_iff.
Qed.

Lemma tuple_gt_false (a b : Q * string) :
  tuple_gt a b = false -> (fst a <= fst b)%Q.
Proof.
  unfold tuple_gt. destruct (Qeq_bool (fst a) (fst b)) eqn:E.
  - intros _. apply Qeq_bool_iff in E. apply Qle_lteq. now right.
  - intros H. apply Qlt_le_weak, Qnot_le_lt. intros C.
    apply Qle_bool_iff in C. congruence.
Qed.

(** [max] returns one of the tuples, and none has a higher score. *)
Lemma tuple_max_spec (r : list (Q * string)) :
  forall c,
    In (tuple_max c r) (c :: r) /\
    forall x, In x (c :: r) -> (fst x <= fst (tuple_max c r))%Q.
Proof.
  induction r as [|y r IH]; intros c; cbn [tuple_max].
  - split; [now left|]. intros x [<-|[]]. apply Qle_refl.
  - destruct (IH (if tuple_gt y c then y else c)) as [Hin Hmax].
    split.
    + destruct Hin as [E|Hin]; [|now right; right].
      rewrite <- E. destruct (tuple_gt y c); [right; now left | now left].
    + intros x Hx.
      assert (Hb : forall z, z = c \/ z = y ->
                 (fst z <= fst (if tuple_gt y c then y else c))%Q).
      { intros z [->| ->]; destruct (tuple_gt y c) eqn:G;
          try apply Qle_refl.
        - now apply tuple_gt_true.
        - now apply tuple_gt_false. }
      destruct Hx as [<-|[<-|Hx]].
      * eapply Qle_trans; [apply Hb; now left|]. apply Hmax. now left.
      * eapply Qle_trans; [apply Hb; now right|]. apply Hmax. now left.
      * apply Hmax. now right.
Qed.

Lemma named_in (l : list json) (ns : list string) :
  Forall2 (fun p n => name_of p = Some n) l ns ->
  (forall n, In n ns -> exists k p, nth_error l k = Some p /\
                                    name_of p = Some n) /\
  (forall p n, In p l -> name_of p = Some n -> In n ns).
Proof.
  induction 1 as [|p n l ns Hn F [IH1 IH2]].
  - split; [intros n [] | intros p n []].
  - split.
    + intros m [<-|Hm].
      * exists O, p. now split.
      * destruct (IH1 m Hm) as (k & q & Hk & Hq). exists (S k), q. now split.
    + intros q m [<-|Hq] Hm.
      * left. congruence.
      * right. eapply IH2; eauto.
Qed.

(** The loop of lines 73-75 finds the first product that bears the
    name, when one does. *)
Lemma first_match_name (l : list json) (m : string) :
  Forall has_name l ->
  (exists k p, nth_error l k = Some p /\ name_of p = Some m) ->
  forall i0, exists i P,
    first_match (name_test m) l i0 = Ok (Some (i0 + i)%nat) /\
    nth_error l i = Some P /\ name_of P = Some m.
Proof.
  induction 1 as [|x l Hx Hl IH]; intros (k & p & Hk & Hp) i0.
  - destruct k; discriminate.
  - unfold has_name in Hx. destruct (name_of x) as [n|] eqn:En;
      [|contradiction].
    cbn [first_match]. rewrite (name_test_named m x n En). cbn [rbind].
    destruct (String.eqb_spec n m) as [->|N].
    + exists O, x. rewrite Nat.add_0_r. repeat split; auto.
    + destruct k as [|k]; [cbn in Hk; congruence|].
      destruct (IH (ex_intro _ k (ex_intro _ p (conj Hk Hp))) (S i0))
        as (i & P & E & Hi & HP).
      exists (S i), P. rewrite <- Nat.add_succ_comm. repeat split; auto.
Qed.

(** X10: The third tier, for a query and names in ASCII: when no name
    contains the query and some name is at least [cutoff]-similar to
    it, a product is found; its name is at least [cutoff]-similar to
    the query, and no name in the catalog is more similar. *)
Theorem fuzzy_tier_best_wins (cutoff : Q) (products : list json)
    (query : string) (P0 : json) (n0 : string) :
  ascii_text query = true ->
  ascii_names products = true ->
  PyStr.strip query <> EmptyString ->
  (0 <= cutoff)%Q -> (cutoff <= 1)%Q ->
  Forall has_name products ->
  (forall p, In p products -> name_contains (PyStr.strip query) p = false) ->
  In P0 products -> name_of P0 = Some n0 ->
  (cutoff <= ratio n0 (PyStr.strip query))%Q ->
  exists i P n,
    find_product_by_name ratio products query cutoff = Ok (Some i) /\
    nth_error products i = Some P /\
    name_of P = Some n /\
    (cutoff <= ratio n (PyStr.strip query))%Q /\
    forall P' n', In P' products -> name_of P' = Some n' ->
      (ratio n' (PyStr.strip query) <= ratio n (PyStr.strip query))%Q.
Proof.
  intros _ _ Hne H0 H1 Hall Hnosub HP0 Hn0 Hclose.
  unfold find_product_by_name.
  destruct (PyStr.strip query) as [|c q'] eqn:Q; [contradiction|].
  cbn [PyStr.is_empty]. rewrite <- Q in *.
  rewrite first_match_none.
  2:{ apply Forall_forall. intros p Hp.
      rewrite exact_test_name_equals
        by exact (proj1 (Forall_forall _ _) Hall p Hp).
      f_equal. destruct (name_equals (PyStr.strip query) p) eqn:E;
        [|reflexivity].
      apply name_equals_contains in E. rewrite Hnosub in E; auto. }
  cbn [rbind]. rewrite first_match_none.
  2:{ apply Forall_forall. intros p Hp.
      rewrite substring_test_name_contains
        by exact (proj1 (Forall_forall _ _) Hall p Hp).
      f_equal. now apply Hnosub. }
  cbn [rbind].
  destruct (names_of_named products Hall) as [ns [En F]].
  destruct (named_in products ns F) as [Hns1 Hns2].
  rewrite En. cbn [rbind]. unfold get_close_matches_1.
  apply Qle_bool_iff in H0. apply Qle_bool_iff in H1. rewrite H0, H1.
  cbn [andb negb]. rewrite close_candidates_filter. cbn [rbind].
  set (score := fun n : string => (ratio n (PyStr.strip query), n)).
  set (close := fun n : string =>
                  Qle_bool cutoff (ratio n (PyStr.strip query))).
  assert (Hin0 : In (score n0) (map score (filter close ns))).
  { apply in_map, filter_In. split; [eapply Hns2; eauto|].
    now apply Qle_bool_iff. }
  destruct (map score (filter close ns)) as [|c0 r0] eqn:Ec; [contradiction|].
  destruct (tuple_max_spec r0 c0) as [Hmem Hmax].
  rewrite <- Ec in Hmem, Hmax.
  apply in_map_iff in Hmem as (n & Hn & Hnin).
  apply filter_In in Hnin as [Hnin Hnclose].
  rewrite <- Hn. cbn [snd score].
  destruct (first_match_name products n Hall (Hns1 n Hnin) 0)
    as (i & P & E & Hi & HP).
  exists i, P, n. cbn [Nat.add] in E.
  split; [exact E|]. split; [exact Hi|]. split; [exact HP|].
  split; [now apply Qle_bool_iff|].
  intros P' n' HP' Hn'.
  destruct (Qle_bool cutoff (ratio n' (PyStr.strip query))) eqn:Ecl.
  - assert (Hx : In (score n') (map score (filter close ns))).
    { apply in_map, filter_In. split; [eapply Hns2; eauto | exact Ecl]. }
    specialize (Hmax _ Hx). rewrite <- Hn in Hmax. exact Hmax.
  - apply Qlt_le_weak. eapply Qlt_le_trans; [|apply Qle_bool_iff; exact Hnclose].
    apply Qnot_le_lt. intros C. apply Qle_bool_iff in C. congruence.
Qed.

End FuzzyTier.

Lemma fuzzy_tier_best_wins_witness :
  exists i P n,
    find_product_by_name RatcliffObershelp.ratio [widget; gadget] "gadgt pro"
      default_cutoff = Ok (Some i) /\
    nth_error [widget; gadget] i = Some P /\
    name_of P = Some n /\
    (default_cutoff <= RatcliffObershelp.ratio n (PyStr.strip "gadgt pro"))%Q /\
    forall P' n', In P' [widget; gadget] -> name_of P' = Some n' ->
      (RatcliffObershelp.ratio n' (PyStr.strip "gadgt pro")
       <= RatcliffObershelp.ratio n (PyStr.strip "gadgt pro"))%Q.
Proof.
  apply (fuzzy_tier_best_wins RatcliffObershelp.ratio default_cutoff
           [widget; gadget] "gadgt pro" gadget "Gadget Pro").
  - reflexivity.
  - reflexivity.
  - discriminate.
  - vm_compute; discriminate.
  - vm_compute; discriminate.
  - repeat constructor; discriminate.
  - intros p [<-|[<-|[]]]; reflexivity.
  - right; left; reflexivity.
  - reflexivity.
  - vm_compute; discriminate.
Defined.

(** *** What a found product is, and what stops the search *)

Section MatcherSound.

Variable ratio : string -> string -> Q.

Lemma close_candidates_sound (word : string) (cutoff : Q) (l : list json) :
  forall cs,
    close_candidates ratio word l cutoff = Ok cs ->
    forall c, In c cs ->
      fst c = ratio (snd c) word /\ (cutoff <= ratio (snd c) word)%Q.
Proof.
  induction l as [|x l IH]; intros cs H c Hc.
  - inversion H; subst. contradiction.
  - cbn [close_candidates] in H. destruct x; try discriminate.
    destruct (close_candidates ratio word l cutoff) as [rest|] eqn:E;
      [|discriminate].
    cbn [rbind] in H.
    destruct (Qle_bool cutoff (ratio s word)) eqn:Q; inversion H; subst.
    + destruct Hc as [<-|Hc]; [|eapply IH; eauto].
      split; [reflexivity | now apply Qle_bool_iff].
    + eapply IH; eauto.
Qed.

Lemma name_test_true (m : string) (p : json) :
  name_test m p = Ok true -> name_of p = Some m.
Proof.
  unfold name_test, name_of. destruct p; try discriminate. cbn.
  destruct (PyDict.get kv "name" (JStr "")); try discriminate.
  cbn. intros [= H]. apply String.eqb_eq in H. now subst.
Qed.

(** X11: For a query and names in ASCII, whatever product the matcher
    returns is in the catalog, and either its trimmed name contains the
    trimmed query, case aside, or its name is at least [cutoff]-similar
    to it; a blank query finds nothing. *)
Theorem found_product_matches (cutoff : Q) (products : list json)
    (query : string) (i : nat) :
  ascii_text query = true ->
  ascii_names products = true ->
  find_product_by_name ratio products query cutoff = Ok (Some i) ->
  PyStr.strip query <> EmptyString /\
  exists P n,
    nth_error products i = Some P /\
    name_of P = Some n /\
    (name_contains (PyStr.strip query) P = true \/
     (cutoff <= ratio n (PyStr.strip query))%Q).
Proof.
  intros _ _. unfold find_product_by_name.
  destruct (PyStr.strip query) as [|c q'] eqn:Q; [discriminate|].
  cbn [PyStr.is_empty]. rewrite <- Q. intros H.
  split; [rewrite Q; discriminate|].
  destruct (first_match (exact_test (PyStr.strip query)) products 0)
    as [[i1|]|e] eqn:E1; cbn [rbind] in H; try discriminate.
  { inversion H; subst i1.
    destruct (first_match_some _ _ _ _ E1) as (k & p & -> & Hk & Hp & _).
    destruct (exact_test_true _ _ Hp) as (n & Hn & He).
    exists p, n. repeat split; auto. left. now apply name_equals_contains. }
  destruct (first_match (substring_test (PyStr.strip query)) products 0)
    as [[i2|]|e] eqn:E2; cbn [rbind] in H; try discriminate.
  { inversion H; subst i2.
    destruct (first_match_some _ _ _ _ E2) as (k & p & -> & Hk & Hp & _).
    destruct (substring_test_true _ _ Hp) as (n & Hn & He).
    exists p, n. repeat split; auto. }
  destruct (names_of products) as [names|e]; cbn [rbind] in H;
    [|discriminate].
  unfold get_close_matches_1 in H.
  destruct (negb _); [discriminate|].
  destruct (close_candidates ratio (PyStr.strip query) names cutoff)
    as [cs|e] eqn:Ec; cbn [rbind] in H; [|discriminate].
  destruct cs as [|c0 r0]; [discriminate|].
  destruct (first_match_some _ _ _ _ H) as (k & p & -> & Hk & Hp & _).
  apply name_test_true in Hp.
  exists p, (snd (tuple_max c0 r0)). repeat split; auto. right.
  exact (proj2 (close_candidates_sound _ _ _ _ Ec _
                  (proj1 (tuple_max_spec r0 c0)))).
Qed.

(** X12: A catalog entry whose name cannot be read (the entry is no object,
    or its name is no string) stops with [AttributeError] every search
    that reaches it: every query that is not blank and that equals none
    of the names before it, the query and the names being in ASCII. *)
Theorem unreadable_name_stops_search (cutoff : Q) (products : list json)
    (query : string) (k : nat) (v : json) :
  ascii_text query = true ->
  ascii_names products = true ->
  PyStr.strip query <> EmptyString ->
  nth_error products k = Some v ->
  name_of v = None ->
  (forall j p, (j < k)%nat -> nth_error products j = Some p ->
     has_name p /\ name_equals (PyStr.strip query) p = false) ->
  find_product_by_name ratio products query cutoff = Raise AttributeError.
Proof.
  intros _ _ Hne Hk Hv Hbefore. unfold find_product_by_name.
  destruct (PyStr.strip query) as [|c q'] eqn:Q; [contradiction|].
  cbn [PyStr.is_empty]. rewrite <- Q in *.
  rewrite (first_match_skip _ products k v 0).
  - assert (E : exact_test (PyStr.strip query) v = Raise AttributeError).
    { unfold exact_test, name_of in *. destruct v; try reflexivity. cbn.
      destruct (PyDict.get kv "name" (JStr "")); try reflexivity.
      discriminate. }
    now rewrite E.
  - intros j p Hj Hp. destruct (Hbefore j p Hj Hp) as [Hn Hf].
    rewrite exact_test_name_equals by exact Hn. now rewrite Hf.
  - exact Hk.
Qed.

End MatcherSound.

Lemma found_product_matches_witness :
  PyStr.strip "gadgt pro" <> EmptyString /\
  exists P n,
    nth_error [widget; gadget] 1 = Some P /\
    name_of P = Some n /\
    (name_contains (PyStr.strip "gadgt pro") P = true \/
     (default_cutoff <= RatcliffObershelp.ratio n (PyStr.strip "gadgt pro"))%Q).
Proof.
  apply (found_product_matches RatcliffObershelp.ratio default_cutoff
           [widget; gadget] "gadgt pro" 1).
  - reflexivity.
  - reflexivity.
  - vm_compute. reflexivity.
Defined.

Lemma unreadable_name_stops_search_witness :
  find_product_by_name RatcliffObershelp.ratio
    [widget; JDict [("name", JNull); ("price", JInt 1); ("stock", JInt 1)];
     gadget]
    "Gadget Pro" default_cutoff
  = Raise AttributeError.
Proof.
  apply (unreadable_name_stops_search RatcliffObershelp.ratio default_cutoff
           [widget; JDict [("name", JNull); ("price", JInt 1); ("stock", JInt 1)];
            gadget]
           "Gadget Pro" 1
           (JDict [("name", JNull); ("price", JInt 1); ("stock", JInt 1)])).
  - reflexivity.
  - reflexivity.
  - discriminate.
  - reflexivity.
  - reflexivity.
  - intros [|j] p Hj Hp; [|lia]. inversion Hp; subst.
    split; [discriminate | reflexivity].
Defined.


(* ================================================================== *)
(** ** What the patterns capture *)

Lemma plus_greedy_inv {A} (cls : ascii -> bool) (s : string) :
  forall (pos : nat) (k : nat -> string -> option A) (x : A),
    Re.plus_greedy cls pos s k = Some x ->
    exists c r,
      s = c ++ r /\ c <> EmptyString /\ PyStr.all_chars cls c = true /\
      k (pos + String.length c)%nat r = Some x.
Proof.
  induction s as [|a s IH]; intros pos k x H; [discriminate|].
  rewrite plus_greedy_cons in H. destruct (cls a) eqn:Ha; [|discriminate].
  destruct (Re.plus_greedy cls (S pos) s k) as [y|] eqn:E.
  - inversion H; subst y.
    destruct (IH _ _ _ E) as (c & r & -> & _ & Hc & Hk).
    exists (String a c), r. cbn [String.append PyStr.all_chars String.length].
    rewrite Ha, Hc, <- Nat.add_succ_comm.
    repeat split; auto; discriminate.
  - exists (String a EmptyString), s. cbn. rewrite Ha, Nat.add_1_r.
    repeat split; auto; discriminate.
Qed.

Lemma plus_lazy_inv {A} (cls : ascii -> bool) (s : string) :
  forall (pos : nat) (k : nat -> string -> option A) (x : A),
    Re.plus_lazy cls pos s k = Some x ->
    exists c r,
      s = c ++ r /\ c <> EmptyString /\ PyStr.all_chars cls c = true /\
      k (pos + String.length c)%nat r = Some x.
Proof.
  induction s as [|a s IH]; intros pos k x H; [discriminate|].
  cbn [Re.plus_lazy] in H. destruct (cls a) eqn:Ha; [|discriminate].
  destruct (k (S pos) s) as [y|] eqn:E.
  - inversion H; subst y.
    exists (String a EmptyString), s. cbn. rewrite Ha, Nat.add_1_r.
    repeat split; auto; discriminate.
  - destruct (IH _ _ _ H) as (c & r & -> & _ & Hc & Hk).
    exists (String a c), r. cbn [String.append PyStr.all_chars String.length].
    rewrite Ha, Hc, <- Nat.add_succ_comm.
    repeat split; auto; discriminate.
Qed.

Lemma take_app (c r : string) (n : nat) :
  n = String.length c -> PyStr.take n (c ++ r) = c.
Proof.
  intros ->. unfold PyStr.take. induction c as [|a c IH]; cbn.
  - now destruct r.
  - now rewrite IH.
Qed.

Lemma isdigit_run (c : string) :
  c <> EmptyString -> PyStr.all_chars Re.digit c = true ->
  PyStr.isdigit c = true.
Proof.
  intros Hne Hd. unfold PyStr.isdigit, PyStr.all_digits.
  destruct c; [contradiction|]. exact Hd.
Qed.

Lemma rstrip_newline (a : string) :
  PyStr.rstrip (a ++ PyStr.nl) = PyStr.rstrip a.
Proof.
  induction a as [|c a IH]; [reflexivity|].
  cbn [String.append PyStr.rstrip]. now rewrite IH.
Qed.

Lemma length_append (a b : string) :
  String.length (a ++ b) = (String.length a + String.length b)%nat.
Proof. induction a as [|c a IH]; cbn; [reflexivity | now rewrite IH]. Qed.

Lemma stripped_no_newline (x a : string) :
  PyStr.strip x <> a ++ PyStr.nl.
Proof.
  intros H. pose proof (strip_idem x) as I. rewrite H in I.
  apply strip_fixed in I as [_ I]. rewrite rstrip_newline in I.
  pose proof (rstrip_length a) as L. rewrite I in L.
  rewrite length_append in L. cbn in L. lia.
Qed.

Lemma lit_length (icase : bool) (p s r : string) :
  Re.lit icase p s = Some r -> (String.length r <= String.length s)%nat.
Proof.
  revert s. induction p as [|a p IH]; intros s H; cbn in H.
  - inversion H; subst. lia.
  - destruct s as [|b s]; [discriminate|].
    destruct (Re.char_eq icase a b); [|discriminate].
    apply IH in H. cbn. lia.
Qed.

(** The captures of the five patterns whose groups the interpreter
    reads: both groups are parts of the line. *)
Lemma re_sell_qty_name_groups (u : string) (m : captures) :
  rmatch true re_sell_qty_name u = Some m ->
  exists g1 g2, m = [Some g1; Some g2] /\ PyStr.isdigit g1 = true /\
    (String.length g1 <= String.length u)%nat /\
    (String.length g2 <= String.length u)%nat.
Proof.
  unfold rmatch, re_sell_qty_name. cbn [run ngroups Nat.add List.repeat].
  destruct (Re.lit true "sell" u) as [s0|] eqn:L; [|discriminate].
  intros H. apply lit_length in L.
  apply plus_greedy_inv in H as (c1 & r1 & -> & _ & _ & H).
  apply plus_greedy_inv in H as (c2 & r2 & -> & N2 & D2 & H).
  apply plus_greedy_inv in H as (c3 & r3 & -> & _ & _ & H).
  apply plus_greedy_inv in H as (c4 & r4 & -> & _ & _ & H).
  injection H as <-. rewrite !take_app by lia. cbn.
  rewrite !length_append in L.
  eexists _, _. split; [reflexivity|].
  split; [now apply isdigit_run|]. split; lia.
Qed.

Lemma re_sell_name_qty_groups (u : string) (m : captures) :
  rmatch true re_sell_name_qty u = Some m ->
  exists g1 g2, m = [Some g1; Some g2] /\ PyStr.isdigit g2 = true /\
    (String.length g1 <= String.length u)%nat /\
    (String.length g2 <= String.length u)%nat.
Proof.
  unfold rmatch, re_sell_name_qty. cbn [run ngroups Nat.add List.repeat].
  destruct (Re.lit true "sell" u) as [s0|] eqn:L; [|discriminate].
  intros H. apply lit_length in L.
  apply plus_greedy_inv in H as (c1 & r1 & -> & _ & _ & H).
  apply plus_lazy_inv in H as (c2 & r2 & -> & _ & _ & H).
  apply plus_greedy_inv in H as (c3 & r3 & -> & _ & _ & H).
  apply plus_greedy_inv in H as (c4 & r4 & -> & N4 & D4 & H).
  destruct (_ || _); [|discriminate].
  injection H as <-. rewrite !take_app by lia. cbn.
  rewrite !length_append in L.
  eexists _, _. split; [reflexivity|].
  split; [now apply isdigit_run|]. split; lia.
Qed.

Lemma re_qty_name_groups (u : string) (m : captures) :
  rmatch false re_qty_name u = Some m ->
  exists g1 g2, m = [Some g1; Some g2] /\ PyStr.isdigit g1 = true /\
    (String.length g1 <= String.length u)%nat.
Proof.
  unfold rmatch, re_qty_name.
  cbn [run ngroups Nat.add List.repeat Nat.eqb].
  intros H.
  apply plus_greedy_inv in H as (c1 & r1 & -> & N1 & D1 & H).
  apply plus_greedy_inv in H as (c2 & r2 & -> & _ & _ & H).
  apply plus_greedy_inv in H as (c3 & r3 & -> & _ & _ & H).
  destruct (_ || _); [|discriminate].
  injection H as <-. rewrite !take_app by lia. cbn.
  eexists _, _. split; [reflexivity|].
  split; [now apply isdigit_run|]. rewrite !length_append. lia.
Qed.

Lemma strip_length (s : string) :
  (String.length (PyStr.strip s) <= String.length s)%nat.
Proof.
  unfold PyStr.strip. pose proof (rstrip_length (PyStr.lstrip s)).
  pose proof (lstrip_length s). lia.
Qed.

Lemma plain_line_length (s : string) :
  plain_line s = true -> (String.length s <= 4300)%nat.
Proof.
  unfold plain_line. intros H.
  apply andb_true_iff in H as [H _]. apply andb_true_iff in H as [_ H].
  now apply Nat.leb_le in H.
Qed.

Lemma re_number_digits (x : string) (m : captures) :
  rmatch false re_number (PyStr.strip x) = Some m ->
  PyStr.isdigit (PyStr.strip x) = true.
Proof.
  unfold rmatch, re_number.
  cbn [run ngroups Nat.add List.repeat Nat.eqb].
  intros H.
  apply plus_greedy_inv in H as (c1 & r1 & E & N1 & D1 & H).
  destruct (PyStr.is_empty r1 || String.eqb r1 PyStr.nl) eqn:R;
    [|discriminate].
  apply orb_true_iff in R as [R|R].
  - destruct r1; [|discriminate]. rewrite E.
    replace (c1 ++ "")%string with c1
      by (clear; induction c1; cbn; congruence).
    now apply isdigit_run.
  - apply String.eqb_eq in R. subst r1.
    now apply stripped_no_newline in E.
Qed.

Lemma re_show_groups (u : string) (m : captures) :
  rmatch true re_show u = Some m -> exists g, m = [Some g].
Proof.
  unfold rmatch, re_show. cbn [run ngroups Nat.add List.repeat].
  intros H.
  assert (K : forall pos s,
             Re.plus_greedy Re.space pos s
               (fun pos' s' =>
                  Re.plus_greedy Re.dot pos' s'
                    (fun pos'0 s'0 =>
                       Some (Re.set_capture [None] (1 - 1)
                               (PyStr.take (pos'0 - pos') s'))))
             = Some m -> exists g, m = [Some g]).
  { intros pos s K.
    apply plus_greedy_inv in K as (c1 & r1 & -> & _ & _ & K).
    apply plus_greedy_inv in K as (c2 & r2 & -> & _ & _ & K).
    injection K as <-. cbn. eauto. }
  repeat match type of H with
         | match ?x with _ => _ end = _ => destruct x eqn:?
         end; try discriminate; eauto;
  repeat match goal with
         | E : match ?x with _ => _ end = _ |- _ =>
             destruct x eqn:?; try discriminate
         end;
  match goal with
  | E : Re.plus_greedy _ _ _ _ = Some ?c |- _ =>
      inversion H; subst; eapply K; exact E
  end.
Qed.

Lemma re_sales_for_groups (u : string) (m : captures) :
  rmatch true re_sales_for u = Some m -> exists g, m = [Some g].
Proof.
  unfold rmatch, re_sales_for. cbn [run ngroups Nat.add List.repeat].
  destruct (Re.lit true "sales" u) as [s0|]; [|discriminate].
  intros H.
  apply plus_greedy_inv in H as (c1 & r1 & -> & _ & _ & H).
  destruct (Re.lit true "for" r1) as [s1|]; [|discriminate].
  apply plus_greedy_inv in H as (c2 & r2 & -> & _ & _ & H).
  apply plus_greedy_inv in H as (c3 & r3 & -> & _ & _ & H).
  injection H as <-. cbn. eauto.
Qed.

(** X13: On a plain line (ASCII, at most 4300 characters), every quantity
    that the interpreter hands to [int] is a string that [int] reads,
    non-empty, of digits, and of at most 4300 of them: whenever one of
    the two "sell" patterns matches, both groups are captured and the
    one that the interpreter takes for the quantity (the first if it is
    of digits, else the second) is such a string, so the answer
    "Couldn't parse quantity." is never given; the first group of
    "<qty> <product>" is one; and a trimmed line that matches the
    bare-number pattern is one. *)
Theorem quantities_are_digits (line : string) :
  plain_line line = true ->
  let u := PyStr.strip line in
  (forall m,
     or_match (rmatch true re_sell_qty_name u) (rmatch true re_sell_name_qty u)
     = Some m ->
     exists g1 g2,
       m = [Some g1; Some g2] /\
       int_reads (if PyStr.isdigit g1 then g1 else g2)) /\
  (forall m,
     rmatch false re_qty_name u = Some m ->
     exists g1 g2, m = [Some g1; Some g2] /\ int_reads g1) /\
  (forall m, rmatch false re_number u = Some m -> int_reads u).
Proof.
  intros Hline. cbv zeta.
  pose proof (plain_line_length line Hline) as Hlen.
  pose proof (strip_length line) as Hstrip.
  unfold int_reads. split; [|split].
  - intros m H. unfold or_match in H.
    destruct (rmatch true re_sell_qty_name (PyStr.strip line)) as [m1|] eqn:E1.
    + inversion H; subst m1.
      destruct (re_sell_qty_name_groups _ _ E1) as (g1 & g2 & -> & D & L1 & _).
      exists g1, g2. split; [reflexivity|]. rewrite D. split; [exact D | lia].
    + destruct (re_sell_name_qty_groups _ _ H) as (g1 & g2 & -> & D & L1 & L2).
      exists g1, g2. split; [reflexivity|].
      destruct (PyStr.isdigit g1) eqn:D1; split; auto; lia.
  - intros m H.
    destruct (re_qty_name_groups _ _ H) as (g1 & g2 & -> & D & L1).
    exists g1, g2. repeat split; auto; lia.
  - intros m H. split; [now apply (re_number_digits line m) | lia].
Qed.

Lemma quantities_are_digits_witness :
  (exists g1 g2,
     [Some "2"; Some "Widget"] = [Some g1; Some g2] /\
     int_reads (if PyStr.isdigit g1 then g1 else g2)) /\
  (exists g1 g2,
     [Some "Widget"; Some "2"] = [Some g1; Some g2] /\
     int_reads (if PyStr.isdigit g1 then g1 else g2)) /\
  (exists g1 g2,
     [Some "12"; Some "Gadget Pro"] = [Some g1; Some g2] /\ int_reads g1) /\
  int_reads (PyStr.strip " 10 ").
Proof.
  split; [|split; [|split]].
  - apply (proj1 (quantities_are_digits " sell 2 Widget " eq_refl)).
    vm_compute. reflexivity.
  - apply (proj1 (quantities_are_digits "sell Widget 2" eq_refl)).
    vm_compute. reflexivity.
  - apply (proj1 (proj2 (quantities_are_digits "12 Gadget Pro" eq_refl))).
    vm_compute. reflexivity.
  - apply (proj2 (proj2 (quantities_are_digits " 10 " eq_refl))
             [] ).
    vm_compute. reflexivity.
Defined.


(* ================================================================== *)
(** ** The sale commands *)

Lemma append_nil_r (s : string) : (s ++ "")%string = s.
Proof. induction s as [|c s IH]; cbn; [reflexivity | now rewrite IH]. Qed.

Lemma append_assoc (a b c : string) :
  ((a ++ b) ++ c)%string = (a ++ b ++ c)%string.
Proof. induction a as [|x a IH]; cbn; [reflexivity | now rewrite IH]. Qed.

Lemma digits_head (qty rest : string) :
  qty <> EmptyString -> PyStr.all_digits qty = true ->
  exists c u, (qty ++ rest)%string = String c u /\ PyStr.is_digit c = true.
Proof.
  intros Hne Hd. destruct qty as [|c q]; [contradiction|].
  unfold PyStr.all_digits in Hd. cbn in Hd.
  apply andb_true_iff in Hd as [Hc _]. exists c, (q ++ rest)%string.
  now split.
Qed.

Lemma blanks_head (ws rest : string) :
  blanks ws ->
  exists c u, (ws ++ rest)%string = String c u /\ PyStr.is_space c = true.
Proof.
  intros [Hne Hb]. destruct ws as [|c q]; [contradiction|].
  cbn in Hb. apply andb_true_iff in Hb as [Hc _].
  exists c, (q ++ rest)%string. now split.
Qed.

Lemma space_not_digit (c : ascii) :
  PyStr.is_space c = true -> PyStr.is_digit c = false.
Proof.
  intros H. destruct (PyStr.is_digit c) eqn:E; [|reflexivity].
  rewrite (digit_not_space c E) in H. discriminate.
Qed.

(** A line made of parts of which the first begins with no blank and
    the last is a typed name is left alone by [strip]. *)
Lemma strip_line (head tail name : string) (c : ascii) (u : string) :
  head = String c u -> PyStr.is_space c = false -> typed_name name ->
  PyStr.strip (head ++ tail ++ name) = head ++ tail ++ name.
Proof.
  intros -> Hc (Hne & Hs & _).
  destruct (strip_fixed name Hs) as [_ Hr].
  unfold PyStr.strip. cbn [String.append PyStr.lstrip]. rewrite Hc.
  destruct (rstrip_app_fixed tail name Hne Hr) as [E1 N1].
  change (String c (u ++ tail ++ name))
    with (String c u ++ tail ++ name)%string.
  apply (rstrip_app_fixed (String c u) _ N1 E1).
Qed.

Lemma rmatch_sell_qty_name (line qty name : string) :
  is_sell_qty_name line qty name ->
  rmatch true re_sell_qty_name line = Some [Some qty; Some name].
Proof.
  intros (kw & ws1 & ws2 & -> & Hk & [N1 B1] & [Nq Dq] & [N2 B2]
          & Hne & Hs & Hdot).
  unfold rmatch, re_sell_qty_name.
  cbn [ngroups Nat.add List.repeat run].
  rewrite (lit_lower "sell" kw) by exact Hk.
  destruct (digits_head qty (ws2 ++ name) Nq Dq) as (c & u & Eq & Hc).
  destruct (blanks_head ws2 name (conj N2 B2)) as (c2 & u2 & E2 & Hc2).
  erewrite plus_greedy_run; [reflexivity | exact N1 | exact B1 | |].
  - rewrite Eq. cbn. now apply digit_not_space.
  - cbn beta.
    erewrite plus_greedy_run; [reflexivity | exact Nq | exact Dq | |].
    + rewrite E2. cbn. now apply space_not_digit.
    + cbn beta.
      apply plus_greedy_run; [exact N2 | exact B2 | now apply trimmed_head |].
      destruct name as [|a n]; [contradiction|].
      rewrite plus_greedy_all by (assumption || discriminate).
      f_equal. cbn [Nat.sub set_capture].
      rewrite (take_app qty) by lia.
      replace (PyStr.take _ (String a n)) with (String a n); [reflexivity|].
      symmetry. rewrite <- (append_nil_r (String a n)) at 1.
      apply take_app. cbn [String.length]. lia.
Qed.

Lemma sell_is_no_command (rest : string) :
  str_in ("sell" ++ rest) ["help"; "?"] = false /\
  str_in ("sell" ++ rest) ["exit"; "quit"] = false /\
  str_in ("sell" ++ rest) ["show products"; "list products"; "products"]
  = false /\
  PyStr.startswith ("sell" ++ rest) "show sales"
  || PyStr.startswith ("sell" ++ rest) "sales" = false /\
  str_in ("sell" ++ rest) ["show last sale"; "last sale"] = false /\
  PyStr.startswith ("sell" ++ rest) "show "
  || PyStr.startswith ("sell" ++ rest) "price of "
  || PyStr.startswith ("sell" ++ rest) "how many " = false.
Proof. repeat split. Qed.

Section SaleCommands.

Variable ratio : string -> string -> Q.

(** A name that finds nothing is answered "Product not found.". *)
Lemma sell_by_name_not_found (name : string) (q : Z) (w : world) :
  find_product_by_name ratio (w_products w) name default_cutoff = Ok None ->
  sell_by_name ratio name q w
  = (Ok tt, with_stdout (w_stdout w ++ [Print "Product not found."]) w).
Proof.
  intros Hf. unfold sell_by_name, find_in_catalog, bind, get_world, lift.
  rewrite Hf. reflexivity.
Qed.

(** A name that finds a product sells it. *)
Lemma sell_by_name_sells (name : string) (q : Z) (w : world) (i : nat)
    (d : pydict) (stock_n : Z) (total : json) (pay : string)
    (rest : list string) :
  find_product_by_name ratio (w_products w) name default_cutoff
  = Ok (Some i) ->
  nth_error (w_products w) i = Some (JDict d) -> d <> [] ->
  as_int (PyDict.get d "stock" (JInt 0)) = Some stock_n ->
  0 < q <= stock_n ->
  py_mul (PyDict.get d "price" (JInt 0)) q = Ok total ->
  w_stdin w = pay :: rest ->
  exists w',
    sell_by_name ratio name q w = (Ok tt, w') /\
    sale_effect w i d stock_n q total pay rest w'.
Proof.
  intros Hf Hp Hd Hs Hq Hm Hin.
  unfold sell_by_name, find_in_catalog, bind, get_world, lift.
  rewrite Hf. cbn [ref_truthy]. rewrite (deref_nth_error _ _ _ Hp).
  destruct d as [|kv d]; [contradiction|]. cbn [truthy negb].
  exact (sell_block_sells w i (kv :: d) stock_n q total pay rest
           Hin Hp Hs Hm Hq).
Qed.

(** No other rule of the interpreter takes a line "sell <qty> <name>". *)
Lemma parse_sell_qty_name (line qty name : string) (w : world) :
  is_sell_qty_name line qty name ->
  parse_and_handle ratio line w
  = sell_by_name ratio name (PyStr.int_of_digits qty) w.
Proof.
  intros H. pose proof (rmatch_sell_qty_name line qty name H) as Hm.
  destruct H as (kw & ws1 & ws2 & -> & Hk & HB1 & [Nq Dq] & HB2 & Hname).
  destruct (lower_head kw _ _ Hk) as (c & k & -> & Hc & Hk').
  assert (Hstrip : PyStr.strip (String c k ++ ws1 ++ qty ++ ws2 ++ name)
                   = (String c k ++ ws1 ++ qty ++ ws2 ++ name)%string).
  { replace (ws1 ++ qty ++ ws2 ++ name)%string
      with ((ws1 ++ qty ++ ws2) ++ name)%string
      by (now rewrite !append_assoc).
    apply (strip_line _ _ _ c k eq_refl); [|exact Hname].
    rewrite <- is_space_lower_char, Hc. reflexivity. }
  unfold parse_and_handle. unfold bind at 1, get_state at 1. cbv zeta.
  rewrite Hstrip, lower_app, Hk.
  destruct (sell_is_no_command (PyStr.lower (ws1 ++ qty ++ ws2 ++ name)))
    as (E1 & E2 & E3 & E4 & E5 & E6).
  cbn [PyStr.is_empty String.append].
  cbn [String.append] in E1, E2, E3, E4, E5, E6, Hm.
  rewrite E1, E2, E3, E4, E5, E6.
  unfold handle_sell. rewrite Hm. cbn [or_match].
  cbn [List.length Nat.eqb andb group nth Nat.sub group_str].
  unfold bind at 1, lift at 1. unfold bind at 1, lift at 1.
  assert (Hd : PyStr.isdigit qty = true).
  { unfold PyStr.isdigit. rewrite Dq. destruct qty; [contradiction|].
    reflexivity. }
  rewrite Hd. destruct Hname as (_ & -> & _). reflexivity.
Qed.

(** X14: On plain data, "sell <qty> <name>" looks <name> up in the
    catalog.  When no product is found the answer is "Product not
    found." and nothing else changes.  When a product is found and
    [int(<qty>)] is within its stock, that many units of it are sold:
    the payment line is read, the stock goes down by the quantity, the
    invoice is added to [sale.json], the session's ledger is reloaded
    and the product is selected. *)
Theorem sell_qty_name_line (line qty name : string) (w : world) :
  plain_world w -> plain_line line = true ->
  is_sell_qty_name line qty name ->
  (find_product_by_name ratio (w_products w) name default_cutoff = Ok None ->
   parse_and_handle ratio line w
   = (Ok tt, with_stdout (w_stdout w ++ [Print "Product not found."]) w)) /\
  (forall i d stock_n total pay rest,
     find_product_by_name ratio (w_products w) name default_cutoff
     = Ok (Some i) ->
     nth_error (w_products w) i = Some (JDict d) -> d <> [] ->
     as_int (PyDict.get d "stock" (JInt 0)) = Some stock_n ->
     0 < PyStr.int_of_digits qty <= stock_n ->
     py_mul (PyDict.get d "price" (JInt 0)) (PyStr.int_of_digits qty)
     = Ok total ->
     w_stdin w = pay :: rest ->
     exists w',
       parse_and_handle ratio line w = (Ok tt, w') /\
       sale_effect w i d stock_n (PyStr.int_of_digits qty) total pay rest w').
Proof.
  intros _ _ H. rewrite (parse_sell_qty_name line qty name w H). split.
  - apply sell_by_name_not_found.
  - intros i d stock_n total pay rest. apply sell_by_name_sells.
Qed.

End SaleCommands.

Lemma sell_qty_name_line_witness :
  parse_and_handle RatcliffObershelp.ratio "SELL  2 Gizmo" shop_world
  = (Ok tt,
     with_stdout (w_stdout shop_world ++ [Print "Product not found."])
       shop_world) /\
  exists w',
    parse_and_handle RatcliffObershelp.ratio "Sell 2  widget" shop_world
    = (Ok tt, w') /\
    sale_effect shop_world 0 widget_fields 5 2 (JInt 20) "CASH" [] w'.
Proof.
  split.
  - apply (proj1 (sell_qty_name_line RatcliffObershelp.ratio "SELL  2 Gizmo"
                    "2" "Gizmo" shop_world ltac:(plain_data) eq_refl
                    ltac:(exists "SELL", "  ", " ";
                          repeat split; discriminate))).
    vm_compute. reflexivity.
  - apply (proj2 (sell_qty_name_line RatcliffObershelp.ratio "Sell 2  widget"
                    "2" "widget" shop_world ltac:(plain_data) eq_refl
                    ltac:(exists "Sell", " ", "  ";
                          repeat split; discriminate))
             0%nat widget_fields 5 (JInt 20) "CASH" []);
      try reflexivity; try discriminate.
    cbn. lia.
Defined.

Lemma rmatch_qty_name (line qty name : string) :
  is_qty_name line qty name ->
  rmatch false re_qty_name line = Some [Some qty; Some name].
Proof.
  intros (ws & -> & [Nq Dq] & [N B] & Hne & Hs & Hdot).
  unfold rmatch, re_qty_name.
  cbn [ngroups Nat.add List.repeat run Nat.eqb].
  destruct (blanks_head ws name (conj N B)) as (c2 & u2 & E2 & Hc2).
  erewrite plus_greedy_run; [reflexivity | exact Nq | exact Dq | |].
  - rewrite E2. cbn. now apply space_not_digit.
  - cbn beta.
    apply plus_greedy_run; [exact N | exact B | now apply trimmed_head |].
    destruct name as [|a n]; [contradiction|].
    rewrite plus_greedy_all by (assumption || discriminate).
    cbn [PyStr.is_empty orb]. f_equal. cbn [Nat.sub set_capture].
    rewrite (take_app qty) by lia.
    replace (PyStr.take _ (String a n)) with (String a n); [reflexivity|].
    symmetry. rewrite <- (append_nil_r (String a n)) at 1.
    apply take_app. cbn [String.length]. lia.
Qed.

Lemma rmatch_sell_digit_head (c : ascii) (u : string) :
  PyStr.is_digit c = true ->
  or_match (rmatch true re_sell_qty_name (String c u))
           (rmatch true re_sell_name_qty (String c u)) = None.
Proof.
  intros Hc. unfold rmatch, re_sell_qty_name, re_sell_name_qty.
  cbn [run]. rewrite !(lit_digits _ c u) by (assumption || reflexivity).
  reflexivity.
Qed.

Section QuantityName.

Variable ratio : string -> string -> Q.

(** No other rule of the interpreter takes a line "<qty> <name>". *)
Lemma parse_qty_name (line qty name : string) (w : world) :
  is_qty_name line qty name ->
  parse_and_handle ratio line w
  = sell_by_name_or_hint ratio name (PyStr.int_of_digits qty) w.
Proof.
  intros H. pose proof (rmatch_qty_name line qty name H) as Hm.
  destruct H as (ws & -> & [Nq Dq] & HB & Hname).
  destruct (digits_head qty (ws ++ name) Nq Dq) as (c & u & Eq & Hc).
  assert (Hstrip : PyStr.strip (qty ++ ws ++ name) = (qty ++ ws ++ name)%string).
  { destruct qty as [|c0 q]; [contradiction|]. cbn in Eq. inversion Eq; subst.
    apply (strip_line _ _ _ c q eq_refl); [|exact Hname].
    now apply digit_not_space. }
  unfold parse_and_handle. unfold bind at 1, get_state at 1. cbv zeta.
  rewrite Hstrip. rewrite Eq in *.
  cbn [PyStr.lower PyStr.map_chars]. rewrite (digit_lower c Hc).
  cbn [PyStr.is_empty str_in existsb].
  rewrite !(eqb_digits _ _ c _ Hc) by reflexivity.
  rewrite !(startswith_digits _ _ c _ Hc) by reflexivity.
  cbn [orb].
  unfold handle_sell. rewrite (rmatch_sell_digit_head c u Hc).
  unfold handle_qty_name. rewrite Hm.
  cbn [group nth Nat.sub group_str].
  unfold bind at 1, lift at 1. unfold bind at 1, lift at 1.
  destruct Hname as (_ & -> & _).
  unfold sell_by_name_or_hint, find_in_catalog, bind, get_world, lift.
  destruct (find_product_by_name ratio (w_products w) name default_cutoff);
    reflexivity.
Qed.

(** X15: On plain data, "<qty> <name>", without the word "sell", looks
    <name> up in the catalog.  When no product is found the answer is
    "Product not found.", with a hint at "show products" when a product
    is selected, and nothing else changes.  When a product is found and
    [int(<qty>)] is within its stock, that many units of it are sold:
    the payment line is read, the stock goes down by the quantity, the
    invoice is added to [sale.json], the session's ledger is reloaded
    and the product is selected. *)
Theorem qty_name_line (line qty name : string) (w : world) :
  plain_world w -> plain_line line = true ->
  is_qty_name line qty name ->
  (find_product_by_name ratio (w_products w) name default_cutoff = Ok None ->
   parse_and_handle ratio line w
   = (Ok tt,
      with_stdout
        (w_stdout w
         ++ [Print (if ref_truthy (w_products w)
                         (last_selected_product (w_state w))
                    then "Product not found. Try 'show products' to see names."
                    else "Product not found.")])
        w)) /\
  (forall i d stock_n total pay rest,
     find_product_by_name ratio (w_products w) name default_cutoff
     = Ok (Some i) ->
     nth_error (w_products w) i = Some (JDict d) -> d <> [] ->
     as_int (PyDict.get d "stock" (JInt 0)) = Some stock_n ->
     0 < PyStr.int_of_digits qty <= stock_n ->
     py_mul (PyDict.get d "price" (JInt 0)) (PyStr.int_of_digits qty)
     = Ok total ->
     w_stdin w = pay :: rest ->
     exists w',
       parse_and_handle ratio line w = (Ok tt, w') /\
       sale_effect w i d stock_n (PyStr.int_of_digits qty) total pay rest w').
Proof.
  intros _ _ H. rewrite (parse_qty_name line qty name w H). split.
  - intros Hf.
    unfold sell_by_name_or_hint, find_in_catalog, bind, get_world, lift.
    rewrite Hf. cbn [ref_truthy].
    destruct (ref_truthy (w_products w) (last_selected_product (w_state w)));
      reflexivity.
  - intros i d stock_n total pay rest Hf Hp Hd Hs Hq Hm Hin.
    unfold sell_by_name_or_hint, find_in_catalog, bind, get_world, lift.
    rewrite Hf. cbn [ref_truthy]. rewrite (deref_nth_error _ _ _ Hp).
    destruct d as [|kv d]; [contradiction|]. cbn [truthy].
    exact (sell_block_sells w i (kv :: d) stock_n _ total pay rest
             Hin Hp Hs Hm Hq).
Qed.

End QuantityName.

Lemma qty_name_line_witness :
  parse_and_handle RatcliffObershelp.ratio "12 Gizmo" shop_world
  = (Ok tt,
     with_stdout
       (w_stdout shop_world
        ++ [Print "Product not found. Try 'show products' to see names."])
       shop_world) /\
  exists w',
    parse_and_handle RatcliffObershelp.ratio "3 Widget" shop_world
    = (Ok tt, w') /\
    sale_effect shop_world 0 widget_fields 5 3 (JInt 30) "CASH" [] w'.
Proof.
  split.
  - apply (proj1 (qty_name_line RatcliffObershelp.ratio "12 Gizmo" "12"
                    "Gizmo" shop_world ltac:(plain_data) eq_refl
                    ltac:(exists " "; repeat split; discriminate))).
    vm_compute. reflexivity.
  - apply (proj2 (qty_name_line RatcliffObershelp.ratio "3 Widget" "3"
                    "Widget" shop_world ltac:(plain_data) eq_refl
                    ltac:(exists " "; repeat split; discriminate))
             0%nat widget_fields 5 (JInt 30) "CASH" []);
      try reflexivity; try discriminate.
    cbn. lia.
Defined.

(** *** The quantity after the name *)

(** The greedy [+] fails when what follows fails wherever it is
    tried. *)
Lemma plus_greedy_blocked {A} (cls : ascii -> bool) (rest : string)
    (k : nat -> string -> option A) :
  starts_without cls rest ->
  forall ws,
    PyStr.all_chars cls ws = true ->
    (forall a b pos, ws = (a ++ b)%string -> k pos (b ++ rest)%string = None) ->
    forall pos, Re.plus_greedy cls pos (ws ++ rest) k = None.
Proof.
  intros Hrest. induction ws as [|x ws IH]; intros Hall Hk pos.
  - cbn [String.append]. destruct rest as [|c r]; [reflexivity|].
    cbn in *. now rewrite Hrest.
  - cbn [PyStr.all_chars] in Hall. apply andb_true_iff in Hall as [Hx Hws].
    cbn [String.append]. rewrite plus_greedy_cons, Hx, IH.
    + apply (Hk (String x EmptyString) ws). reflexivity.
    + exact Hws.
    + intros a b pos' E. apply (Hk (String x a) b). cbn. now rewrite E.
Qed.

(** The lazy [+] stops at the first place where what follows
    accepts. *)
Lemma plus_lazy_run {A} (cls : ascii -> bool) (rest : string)
    (k : nat -> string -> option A) (x : A) :
  forall name,
    name <> EmptyString -> PyStr.all_chars cls name = true ->
    (forall a b pos, name = (a ++ b)%string -> a <> EmptyString ->
       b <> EmptyString -> k pos (b ++ rest)%string = None) ->
    forall pos,
      k (pos + String.length name)%nat rest = Some x ->
      Re.plus_lazy cls pos (name ++ rest) k = Some x.
Proof.
  induction name as [|c n IH]; intros Hne Hall Hk pos Hend; [contradiction|].
  cbn [PyStr.all_chars] in Hall. apply andb_true_iff in Hall as [Hc Hn].
  cbn [String.append Re.plus_lazy]. rewrite Hc.
  cbn [String.length] in Hend. rewrite <- Nat.add_succ_comm in Hend.
  destruct n as [|c' n'].
  - cbn in *. rewrite Nat.add_0_r in Hend. now rewrite Hend.
  - rewrite (Hk (String c EmptyString) (String c' n')) by
      (reflexivity || discriminate).
    apply IH; [discriminate | exact Hn | | exact Hend].
    intros a b pos' E Ha Hb. apply (Hk (String c a) b); try assumption.
    + cbn. now rewrite E.
    + discriminate.
Qed.

Lemma rstrip_suffix (a b : string) :
  PyStr.rstrip (a ++ b) = (a ++ b)%string -> b <> EmptyString ->
  PyStr.rstrip b = b.
Proof.
  intros H Hb. induction a as [|x a IH]; [exact H|].
  apply IH. cbn [String.append PyStr.rstrip] in H.
  destruct (PyStr.rstrip (a ++ b)) as [|y r] eqn:E.
  - destruct (PyStr.is_space x); [discriminate|].
    inversion H as [H1]. destruct a; cbn in H1; [now subst|discriminate].
  - now inversion H.
Qed.

Lemma lstrip_empty_rstrip (b : string) :
  PyStr.lstrip b = EmptyString -> PyStr.rstrip b = EmptyString.
Proof.
  induction b as [|c r IH]; [reflexivity|]. cbn.
  destruct (PyStr.is_space c) eqn:E; [|discriminate].
  intros H. now rewrite (IH H).
Qed.

Lemma lstrip_app (b t : string) :
  PyStr.lstrip b <> EmptyString ->
  PyStr.lstrip (b ++ t) = (PyStr.lstrip b ++ t)%string.
Proof.
  induction b as [|c r IH]; intros H; [contradiction|].
  cbn in *. destruct (PyStr.is_space c); [now apply IH | reflexivity].
Qed.

Lemma lstrip_blanks (c1 r : string) :
  PyStr.all_chars PyStr.is_space c1 = true ->
  PyStr.lstrip (c1 ++ r) = PyStr.lstrip r.
Proof.
  induction c1 as [|c s IH]; intros H; [reflexivity|].
  cbn in *. apply andb_true_iff in H as [Hc Hs]. rewrite Hc. now apply IH.
Qed.

Lemma all_chars_app (cls : ascii -> bool) (a b : string) :
  PyStr.all_chars cls (a ++ b)
  = PyStr.all_chars cls a && PyStr.all_chars cls b.
Proof.
  induction a as [|c a IH]; cbn; [reflexivity|].
  now rewrite IH, andb_assoc.
Qed.

(** The end of a typed name, blanks and a quantity do not read as
    blanks followed by digits up to the end of the line. *)
Lemma name_end_is_no_quantity (b ws2 qty c1 c2 r2 : string) :
  b <> EmptyString -> PyStr.rstrip b = b ->
  blanks ws2 -> typed_quantity qty ->
  PyStr.all_chars PyStr.is_space c1 = true ->
  c2 <> EmptyString -> PyStr.all_chars PyStr.is_digit c2 = true ->
  PyStr.is_empty r2 || String.eqb r2 PyStr.nl = true ->
  (b ++ ws2 ++ qty)%string <> (c1 ++ c2 ++ r2)%string.
Proof.
  intros Hb Hrb [N2 B2] [Nq Dq] Hc1 Nc2 Dc2 Hr2 E.
  apply orb_true_iff in Hr2 as [Hr2|Hr2].
  - destruct r2; [|discriminate]. rewrite append_nil_r in E.
    apply (f_equal PyStr.lstrip) in E.
    rewrite (lstrip_blanks c1 c2 Hc1) in E.
    assert (L2 : PyStr.lstrip c2 = c2).
    { destruct c2 as [|c r]; [contradiction|]. cbn in *.
      apply andb_true_iff in Dc2 as [Hc _]. now rewrite digit_not_space. }
    rewrite L2, lstrip_app in E.
    + rewrite <- E, !all_chars_app in Dc2.
      destruct ws2 as [|s ws]; [contradiction|]. cbn in B2, Dc2.
      apply andb_true_iff in B2 as [Hs _].
      rewrite (space_not_digit s Hs) in Dc2.
      rewrite andb_false_r in Dc2. discriminate.
    + intros L. apply lstrip_empty_rstrip in L. congruence.
  - apply String.eqb_eq in Hr2. subst r2.
    assert (R : PyStr.rstrip (b ++ ws2 ++ qty) = (b ++ ws2 ++ qty)%string).
    { destruct (strip_fixed qty (strip_digits qty Dq)) as [_ Rq].
      destruct (rstrip_app_fixed ws2 qty Nq Rq) as [E1 N1].
      apply (rstrip_app_fixed b _ N1 E1). }
    rewrite E in R.
    replace (c1 ++ c2 ++ PyStr.nl)%string
      with ((c1 ++ c2) ++ PyStr.nl)%string in R by apply append_assoc.
    rewrite rstrip_newline in R.
    pose proof (rstrip_length (c1 ++ c2)) as L. rewrite R in L.
    rewrite !length_append in L. cbn in L. lia.
Qed.

Lemma rmatch_sell_name_first (line name qty : string) :
  is_sell_name_qty line name qty ->
  rmatch true re_sell_qty_name line = None /\
  rmatch true re_sell_name_qty line = Some [Some name; Some qty].
Proof.
  intros (kw & ws1 & ws2 & -> & Hk & [N1 B1] & (Hne & Hs & Hdot) & Hnd
          & [N2 B2] & [Nq Dq]).
  pose proof (trimmed_head name Hs) as Hhead.
  destruct (strip_fixed name Hs) as [_ Hr].
  split.
  - unfold rmatch, re_sell_qty_name.
    cbn [ngroups Nat.add List.repeat run].
    rewrite (lit_lower "sell" kw) by exact Hk.
    apply plus_greedy_blocked; [|exact B1|].
    + destruct name; [contradiction | exact Hhead].
    + intros a b pos E.
      assert (Hb : PyStr.all_chars PyStr.is_space b = true).
      { rewrite E, all_chars_app in B1.
        now apply andb_true_iff in B1 as [_ Hb]. }
      destruct b as [|c r].
      * destruct name as [|c n]; [contradiction|]. cbn in *.
        unfold Re.digit. now rewrite Hnd.
      * cbn in *. apply andb_true_iff in Hb as [Hc _].
        unfold Re.digit. now rewrite (space_not_digit c Hc).
  - unfold rmatch, re_sell_name_qty.
    cbn [ngroups Nat.add List.repeat run].
    rewrite (lit_lower "sell" kw) by exact Hk.
    destruct (digits_head qty "" Nq Dq) as (cq & uq & Eq & Hcq).
    rewrite append_nil_r in Eq.
    erewrite plus_greedy_run; [reflexivity | exact N1 | exact B1 | |].
    { destruct name; [contradiction | exact Hhead]. }
    cbn beta.
    apply plus_lazy_run; [exact Hne | exact Hdot | |].
    + intros a b pos E Ha Hb.
      match goal with
      | |- ?t = None => destruct t as [y|] eqn:F; [exfalso|reflexivity]
      end.
      apply plus_greedy_inv in F as (c1 & r1 & E1 & _ & Hc1 & F).
      apply plus_greedy_inv in F as (c2 & r2 & -> & Nc2 & Dc2 & F).
      destruct (PyStr.is_empty r2 || String.eqb r2 PyStr.nl) eqn:R;
        [|discriminate].
      apply (name_end_is_no_quantity b ws2 qty c1 c2 r2); auto.
      * rewrite E in Hr. now apply (rstrip_suffix a b).
      * now split.
      * now split.
    + apply plus_greedy_run; [exact N2 | exact B2 | |].
      { rewrite Eq. cbn. now apply digit_not_space. }
      rewrite Eq in *.
      rewrite plus_greedy_all by (assumption || discriminate).
      cbn [PyStr.is_empty orb]. f_equal. cbn [Nat.sub set_capture].
      rewrite (take_app name) by lia.
      replace (PyStr.take _ (String cq uq)) with (String cq uq);
        [reflexivity|].
      symmetry. rewrite <- (append_nil_r (String cq uq)) at 1.
      apply take_app. cbn [String.length]. lia.
Qed.

Section SellNameFirst.

Variable ratio : string -> string -> Q.

(** "sell <name> <qty>", for a name that begins with no digit, is read
    with the quantity last. *)
Lemma parse_sell_name_qty (line name qty : string) (w : world) :
  is_sell_name_qty line name qty ->
  parse_and_handle ratio line w
  = sell_by_name ratio name (PyStr.int_of_digits qty) w.
Proof.
  intros H. destruct (rmatch_sell_name_first line name qty H) as [Hm1 Hm2].
  destruct H as (kw & ws1 & ws2 & -> & Hk & HB1 & Hname & Hnd & HB2
                 & [Nq Dq]).
  destruct (lower_head kw _ _ Hk) as (c & k & -> & Hc & Hk').
  assert (Hq : typed_name qty).
  { split; [exact Nq|]. split; [now apply strip_digits|].
    clear - Dq. induction qty as [|x q IH]; [reflexivity|].
    unfold PyStr.all_digits in *. cbn in *.
    apply andb_true_iff in Dq as [Hx Hq]. now rewrite digit_dot, IH. }
  assert (Hstrip : PyStr.strip (String c k ++ ws1 ++ name ++ ws2 ++ qty)
                   = (String c k ++ ws1 ++ name ++ ws2 ++ qty)%string).
  { replace (ws1 ++ name ++ ws2 ++ qty)%string
      with ((ws1 ++ name ++ ws2) ++ qty)%string
      by (now rewrite !append_assoc).
    apply (strip_line _ _ _ c k eq_refl); [|exact Hq].
    rewrite <- is_space_lower_char, Hc. reflexivity. }
  unfold parse_and_handle. unfold bind at 1, get_state at 1. cbv zeta.
  rewrite Hstrip, lower_app, Hk.
  destruct (sell_is_no_command (PyStr.lower (ws1 ++ name ++ ws2 ++ qty)))
    as (E1 & E2 & E3 & E4 & E5 & E6).
  cbn [PyStr.is_empty String.append].
  cbn [String.append] in E1, E2, E3, E4, E5, E6, Hm1, Hm2.
  rewrite E1, E2, E3, E4, E5, E6.
  unfold handle_sell. rewrite Hm1, Hm2. cbn [or_match].
  cbn [List.length Nat.eqb andb group nth Nat.sub group_str].
  unfold bind at 1, lift at 1. unfold bind at 1, lift at 1.
  assert (Hn : PyStr.isdigit name = false).
  { destruct Hname as (Hne & _). destruct name as [|x n]; [contradiction|].
    unfold PyStr.isdigit, PyStr.all_digits. cbn in *. now rewrite Hnd. }
  assert (Hd : PyStr.isdigit qty = true).
  { unfold PyStr.isdigit. rewrite Dq. destruct qty; [contradiction|].
    reflexivity. }
  rewrite Hn, Hd. destruct Hname as (_ & -> & _). reflexivity.
Qed.

(** X16: On plain data, "sell <name> <qty>", for a name that begins with
    no digit, is read with the quantity last.  When <name> finds no
    product the answer is "Product not found." and nothing else
    changes.  When it finds one and [int(<qty>)] is within its stock,
    that many units of it are sold, as for "sell <qty> <name>". *)
Theorem sell_name_qty_line (line name qty : string) (w : world) :
  plain_world w -> plain_line line = true ->
  is_sell_name_qty line name qty ->
  (find_product_by_name ratio (w_products w) name default_cutoff = Ok None ->
   parse_and_handle ratio line w
   = (Ok tt, with_stdout (w_stdout w ++ [Print "Product not found."]) w)) /\
  (forall i d stock_n total pay rest,
     find_product_by_name ratio (w_products w) name default_cutoff
     = Ok (Some i) ->
     nth_error (w_products w) i = Some (JDict d) -> d <> [] ->
     as_int (PyDict.get d "stock" (JInt 0)) = Some stock_n ->
     0 < PyStr.int_of_digits qty <= stock_n ->
     py_mul (PyDict.get d "price" (JInt 0)) (PyStr.int_of_digits qty)
     = Ok total ->
     w_stdin w = pay :: rest ->
     exists w',
       parse_and_handle ratio line w = (Ok tt, w') /\
       sale_effect w i d stock_n (PyStr.int_of_digits qty) total pay rest w').
Proof.
  intros _ _ H. rewrite (parse_sell_name_qty line name qty w H). split.
  - apply sell_by_name_not_found.
  - intros i d stock_n total pay rest. apply sell_by_name_sells.
Qed.

End SellNameFirst.

Lemma sell_name_qty_line_witness :
  parse_and_handle RatcliffObershelp.ratio "sell Gizmo Max 1" shop_world
  = (Ok tt,
     with_stdout (w_stdout shop_world ++ [Print "Product not found."])
       shop_world) /\
  exists w',
    parse_and_handle RatcliffObershelp.ratio "sell Widget 5" shop_world
    = (Ok tt, w') /\
    sale_effect shop_world 0 widget_fields 5 5 (JInt 50) "CASH" [] w'.
Proof.
  split.
  - apply (proj1 (sell_name_qty_line RatcliffObershelp.ratio
                    "sell Gizmo Max 1" "Gizmo Max" "1" shop_world
                    ltac:(plain_data) eq_refl
                    ltac:(exists "sell", " ", " ";
                          repeat split; discriminate))).
    vm_compute. reflexivity.
  - apply (proj2 (sell_name_qty_line RatcliffObershelp.ratio
                    "sell Widget 5" "Widget" "5" shop_world
                    ltac:(plain_data) eq_refl
                    ltac:(exists "sell", " ", " ";
                          repeat split; discriminate))
             0%nat widget_fields 5 (JInt 50) "CASH" []);
      try reflexivity; try discriminate.
    cbn. lia.
Defined.


(* ================================================================== *)
(** ** Looking a product up *)

Lemma lit_head_mismatch (a : ascii) (p : string) (c : ascii) (u : string) :
  Ascii.eqb (PyStr.lower_char a) (PyStr.lower_char c) = false ->
  Re.lit true (String a p) (String c u) = None.
Proof. intros H. cbn. unfold Re.char_eq. now rewrite H. Qed.

Lemma rmatch_show (line name : string) :
  is_show_line line name -> rmatch true re_show line = Some [Some name].
Proof.
  intros (kw & ws & -> & Hk & Hws & Hne & Hs & Hdot).
  assert (Tail : forall pos,
            Re.plus_greedy Re.space pos (" " ++ ws ++ name)
              (fun pos' s' =>
                 Re.plus_greedy Re.dot pos' s'
                   (fun pos'0 s'0 =>
                      Some (Re.set_capture [None] (1 - 1)
                              (PyStr.take (pos'0 - pos') s'))))
            = Some [Some name]).
  { intros pos.
    replace (" " ++ ws ++ name)%string with ((" " ++ ws) ++ name)%string
      by apply append_assoc.
    apply plus_greedy_run;
      [discriminate | cbn; exact Hws | now apply trimmed_head |].
    destruct name as [|a n]; [contradiction|].
    rewrite plus_greedy_all by (assumption || discriminate).
    f_equal. cbn [Nat.sub set_capture].
    replace (PyStr.take _ (String a n)) with (String a n); [reflexivity|].
    symmetry. rewrite <- (append_nil_r (String a n)) at 1.
    apply take_app. cbn [String.length]. lia. }
  unfold rmatch, re_show. cbn [ngroups Nat.add List.repeat run].
  destruct Hk as [Hk|[Hk|Hk]].
  - rewrite (lit_lower "show" kw) by exact Hk. now rewrite Tail.
  - destruct (lower_head kw _ _ Hk) as (c & k & -> & Hc & Hk').
    assert (F : forall p rest,
              Ascii.eqb (PyStr.lower_char p) "p"%char = false ->
              forall q, Re.lit true (String p q) (String c k ++ rest) = None).
    { intros p rest Hp q. cbn [String.append]. apply lit_head_mismatch.
      now rewrite Hc. }
    rewrite F by reflexivity.
    rewrite (lit_lower "price of" (String c k)) by exact Hk. now rewrite Tail.
  - destruct (lower_head kw _ _ Hk) as (c & k & -> & Hc & Hk').
    assert (F : forall p rest,
              Ascii.eqb (PyStr.lower_char p) "h"%char = false ->
              forall q, Re.lit true (String p q) (String c k ++ rest) = None).
    { intros p rest Hp q. cbn [String.append]. apply lit_head_mismatch.
      now rewrite Hc. }
    rewrite !F by reflexivity.
    rewrite (lit_lower "how many" (String c k)) by exact Hk. now rewrite Tail.
Qed.

Section ShowLine.

Variable ratio : string -> string -> Q.

(** The lines "show <name>", "price of <name>" and "how many <name>"
    that are no listing command go to the lookup of lines 196-203. *)
Lemma parse_show (line name : string) (w : world) :
  is_show_line line name ->
  is_listing (PyStr.lower line) = false ->
  parse_and_handle ratio line w = show_by_name ratio name w.
Proof.
  intros H Hl. pose proof (rmatch_show line name H) as Hm.
  destruct H as (kw & ws & -> & Hk & Hws & Hname).
  assert (Hhead : exists c k, kw = String c k /\ PyStr.is_space c = false).
  { destruct Hk as [Hk|[Hk|Hk]];
      destruct (lower_head kw _ _ Hk) as (c & k & -> & Hc & _);
      exists c, k; (split; [reflexivity|]);
      rewrite <- is_space_lower_char, Hc; reflexivity. }
  destruct Hhead as (c & k & Ekw & Hc).
  assert (Hstrip : PyStr.strip (kw ++ " " ++ ws ++ name)
                   = (kw ++ " " ++ ws ++ name)%string).
  { replace (" " ++ ws ++ name)%string with ((" " ++ ws) ++ name)%string
      by apply append_assoc.
    now apply (strip_line _ _ _ c k Ekw). }
  unfold parse_and_handle. unfold bind at 1, get_state at 1. cbv zeta.
  rewrite Hstrip, Hm.
  unfold is_listing in Hl.
  apply orb_false_iff in Hl as [Hl H3]. apply orb_false_iff in Hl as [H1 H2].
  rewrite H1, H2, H3.
  rewrite lower_app in *.
  assert (G : PyStr.is_empty (kw ++ " " ++ ws ++ name) = false
              /\ str_in (PyStr.lower kw ++ PyStr.lower (" " ++ ws ++ name))
                   ["help"; "?"] = false
              /\ str_in (PyStr.lower kw ++ PyStr.lower (" " ++ ws ++ name))
                   ["exit"; "quit"] = false
              /\ PyStr.startswith
                   (PyStr.lower kw ++ PyStr.lower (" " ++ ws ++ name)) "show "
                 || PyStr.startswith
                      (PyStr.lower kw ++ PyStr.lower (" " ++ ws ++ name))
                      "price of "
                 || PyStr.startswith
                      (PyStr.lower kw ++ PyStr.lower (" " ++ ws ++ name))
                      "how many " = true).
  { split; [rewrite Ekw; reflexivity|].
    destruct Hk as [-> |[-> | ->]]; repeat split. }
  destruct G as (G0 & G1 & G2 & G3). rewrite G0, G1, G2, G3.
  cbn [group nth Nat.sub group_str].
  unfold bind at 1, lift at 1.
  destruct Hname as (_ & -> & _). reflexivity.
Qed.

(** X17: On plain data, "show <name>", "price of <name>" and "how many
    <name>" look <name> up: the product found is printed (its name, its
    price, its stock) and selected, and nothing else changes; when no
    product is found the answer is "Product not found." and nothing
    else changes.  This for every such line that is not one of the
    listing commands ("show products", "show sales ...", "show last
    sale"), which are tried first. *)
Theorem show_line (line name : string) (w : world) :
  plain_world w -> plain_line line = true ->
  is_show_line line name ->
  is_listing (PyStr.lower line) = false ->
  (find_product_by_name ratio (w_products w) name default_cutoff = Ok None ->
   parse_and_handle ratio line w
   = (Ok tt, with_stdout (w_stdout w ++ [Print "Product not found."]) w)) /\
  (forall i d,
     find_product_by_name ratio (w_products w) name default_cutoff
     = Ok (Some i) ->
     nth_error (w_products w) i = Some (JDict d) -> d <> [] ->
     parse_and_handle ratio line w
     = (Ok tt,
        with_state
          (mkState (products_raw (w_state w)) (Some i)
             (last_sales (w_state w)))
          (with_stdout
             (w_stdout w
              ++ [PrintProductName (PyDict.get d "name" JNull);
                  PrintProductPrice (PyDict.get d "price" JNull);
                  PrintProductStock (PyDict.get d "stock" JNull)])
             w))).
Proof.
  intros _ _ H Hl. rewrite (parse_show line name w H Hl). split.
  - intros Hf. unfold show_by_name, find_in_catalog, bind, get_world, lift.
    rewrite Hf. reflexivity.
  - intros i d Hf Hp Hd.
    unfold show_by_name, find_in_catalog, bind, get_world, lift.
    rewrite Hf. cbn [ref_truthy]. rewrite (deref_nth_error _ _ _ Hp).
    destruct d as [|kv d]; [contradiction|]. cbn [truthy].
    unfold show_product. cbn [truthy negb py_get]. mrun.
    cbn. rewrite <- !app_assoc. reflexivity.
Qed.

End ShowLine.

Lemma show_line_witness :
  parse_and_handle RatcliffObershelp.ratio "show Gizmo" shop_world
  = (Ok tt,
     with_stdout (w_stdout shop_world ++ [Print "Product not found."])
       shop_world) /\
  parse_and_handle RatcliffObershelp.ratio "Price Of  widget" ledger_world
  = (Ok tt,
     with_state (mkState RefProducts (Some O) (JList [widget_sale; gadget_sale]))
       (with_stdout
          (w_stdout ledger_world
           ++ [PrintProductName (JStr "Widget"); PrintProductPrice (JInt 10);
               PrintProductStock (JInt 5)])
          ledger_world)).
Proof.
  split.
  - apply (proj1 (show_line RatcliffObershelp.ratio "show Gizmo" "Gizmo"
                    shop_world ltac:(plain_data) eq_refl
                    ltac:(exists "show", ""; repeat split; auto; discriminate)
                    eq_refl)).
    vm_compute. reflexivity.
  - apply (proj2 (show_line RatcliffObershelp.ratio "Price Of  widget"
                    "widget" ledger_world ltac:(plain_data) eq_refl
                    ltac:(exists "Price Of", " ";
                          repeat split; auto; discriminate)
                    eq_refl) 0%nat widget_fields);
      try reflexivity; discriminate.
Defined.


(* ================================================================== *)
(** ** The most recent sale *)

Section LastSale.

Variable ratio : string -> string -> Q.

(** X18: "last sale" and "show last sale", in any letter case, print the
    entry that the session's ledger holds last, and nothing but it;
    on an empty ledger they answer "No sales yet.".  Nothing else
    changes. *)
Theorem last_sale_line (line : string) (w : world) :
  PyStr.lower (PyStr.strip line) = "last sale" \/
  PyStr.lower (PyStr.strip line) = "show last sale" ->
  (forall l s r,
     last_sales (w_state w) = JList (l ++ [s]) -> sale_row s = Ok r ->
     parse_and_handle ratio line w
     = (Ok tt,
        with_stdout
          (w_stdout w ++ [Print (PyStr.nl ++ "Sales:"); r; Print ""]) w)) /\
  (last_sales (w_state w) = JList [] ->
   parse_and_handle ratio line w
   = (Ok tt, with_stdout (w_stdout w ++ [Print "No sales yet."]) w)).
Proof.
  intros Hl.
  assert (Hne : PyStr.is_empty (PyStr.strip line) = false).
  { destruct (PyStr.strip line); [destruct Hl; discriminate | reflexivity]. }
  assert (E : parse_and_handle ratio line w
              = (if truthy (last_sales (w_state w))
                 then last <- lift (py_last (last_sales (w_state w))) ;;
                      show_sales (JList [last]) None
                 else print (Print "No sales yet.")) w).
  { unfold parse_and_handle. unfold bind at 1, get_state at 1. cbv zeta.
    rewrite Hne. destruct Hl as [-> | ->]; reflexivity. }
  rewrite E. split.
  - intros l s r Hs Hr. rewrite Hs.
    assert (T : truthy (JList (l ++ [s])) = true) by (destruct l; reflexivity).
    rewrite T. cbn [py_last]. rewrite rev_app_distr. cbn [rev app].
    unfold bind at 1, lift at 1.
    rewrite (show_sales_all [s] [r]); [reflexivity|].
    constructor; [exact Hr | constructor].
  - intros Hs. rewrite Hs. reflexivity.
Qed.

End LastSale.

Lemma last_sale_line_witness :
  (forall l s r,
     last_sales (w_state ledger_world) = JList (l ++ [s]) ->
     sale_row s = Ok r ->
     parse_and_handle RatcliffObershelp.ratio " Last Sale" ledger_world
     = (Ok tt,
        with_stdout
          (w_stdout ledger_world ++ [Print (PyStr.nl ++ "Sales:"); r; Print ""])
          ledger_world)) /\
  parse_and_handle RatcliffObershelp.ratio " Last Sale" ledger_world
  = (Ok tt,
     with_stdout
       (w_stdout ledger_world
        ++ [Print (PyStr.nl ++ "Sales:"); gadget_row; Print ""])
       ledger_world).
Proof.
  pose proof (proj1 (last_sale_line RatcliffObershelp.ratio " Last Sale"
                       ledger_world (or_introl eq_refl))) as H.
  split; [exact H|].
  apply (H [widget_sale] gadget_sale gadget_row); reflexivity.
Defined.


(* ================================================================== *)
(** ** Leaving the loop *)

Section Exit.
Variable ratio : string -> string -> Q.

(** X19: "exit" or "quit", in any letter case and with blanks around it,
    ends the session: "Goodbye!" is printed, [main]'s loop returns, and
    the lines that follow are not read. *)
Theorem exit_ends_session (fuel : nat) (w : world) (line : string)
    (rest : list string) :
  w_stdin w = line :: rest ->
  PyStr.lower (PyStr.strip line) = "exit" \/
  PyStr.lower (PyStr.strip line) = "quit" ->
  main_loop ratio (S fuel) w
  = (Ok (Some tt),
     with_stdout (w_stdout w ++ [Prompt "You: "; Print "Goodbye!"])
       (with_stdin rest w)).
Proof.
  intros Hin Hq. cbn [main_loop]. unfold bind at 1, input.
  cbn [w_stdin with_stdout]. rewrite Hin.
  unfold bind at 1, breaks_on_exit, parse_and_handle.
  unfold bind at 1, get_state at 1. cbv zeta. rewrite strip_idem.
  assert (Hne : PyStr.is_empty (PyStr.strip line) = false).
  { destruct (PyStr.strip line); [destruct Hq; discriminate | reflexivity]. }
  rewrite Hne.
  destruct Hq as [-> | ->]; cbn; rewrite <- app_assoc; reflexivity.
Qed.

End Exit.

Lemma exit_ends_session_witness :
  main_loop RatcliffObershelp.ratio 1
    (with_stdin ["  QuIt "; "sell 2 Widget"] shop_world)
  = (Ok (Some tt),
     with_stdout
       (w_stdout (with_stdin ["  QuIt "; "sell 2 Widget"] shop_world)
        ++ [Prompt "You: "; Print "Goodbye!"])
       (with_stdin ["sell 2 Widget"]
          (with_stdin ["  QuIt "; "sell 2 Widget"] shop_world))).
Proof.
  apply (exit_ends_session RatcliffObershelp.ratio 0
           (with_stdin ["  QuIt "; "sell 2 Widget"] shop_world)
           "  QuIt " ["sell 2 Widget"]).
  - reflexivity.
  - right. reflexivity.
Defined.


(* ================================================================== *)
(** ** No crash on readable files *)

Lemma wf_world_stdout (w : world) (l : list out) :
  wf_world w -> wf_world (with_stdout l w).
Proof. intros H. exact H. Qed.

Lemma wf_world_stdin (w : world) (l : list string) :
  wf_world w -> wf_world (with_stdin l w).
Proof. intros H. exact H. Qed.

Lemma safe_bind_at {A B} (m : M A) (f : A -> M B) (w : world) :
  safe_out (m w) ->
  (forall a w1, m w = (Ok a, w1) -> wf_world w1 -> safe_out (f a w1)) ->
  safe_out (bind m f w).
Proof.
  intros [Hb Hw] Hf. unfold bind.
  destruct (m w) as [[a|e] w1]; cbn [fst snd] in *.
  - now apply Hf.
  - split; assumption.
Qed.

Lemma safe_bind {A B} (m : M A) (f : A -> M B) :
  safe m -> (forall a, safe (f a)) -> safe (bind m f).
Proof.
  intros Hm Hf w Hw. apply safe_bind_at; [now apply Hm|].
  intros a w1 _ Hw1. now apply Hf.
Qed.

Lemma safe_ret {A} (a : A) : safe (ret a).
Proof. intros w Hw. split; [exact I | exact Hw]. Qed.

Lemma safe_print (o : out) : safe (print o).
Proof. intros w Hw. split; [exact I | exact Hw]. Qed.

Lemma safe_exit : safe (@raise unit SystemExit).
Proof. intros w Hw. split; [now left | exact Hw]. Qed.

Lemma safe_input (p : string) : safe (input p).
Proof.
  intros w Hw. unfold input. cbn [w_stdin with_stdout].
  destruct (w_stdin w); (split; [cbn; auto | exact Hw]).
Qed.

Lemma safe_set_last_selected_product (p : option nat) :
  safe (set_last_selected_product p).
Proof. intros w Hw. split; [exact I | exact Hw]. Qed.

(** A computation that reads the world first. *)
Lemma safe_get_world {B} (f : world -> M B) :
  (forall w, wf_world w -> safe_out (f w w)) -> safe (bind get_world f).
Proof. intros H w Hw. now apply H. Qed.

Lemma safe_get_state {B} (f : state -> M B) :
  (forall w, wf_world w -> safe_out (f (w_state w) w)) ->
  safe (bind get_state f).
Proof. intros H w Hw. now apply H. Qed.

Lemma safe_lift_ok {A B} (x : result A) (f : A -> M B) :
  (exists a, x = Ok a) -> (forall a, x = Ok a -> safe (f a)) ->
  safe (bind (lift x) f).
Proof. intros [a ->] H w Hw. now apply (H a). Qed.

Lemma safe_lift {A} (a : A) : safe (lift (Ok a)).
Proof. intros w Hw. split; [exact I | exact Hw]. Qed.

Create HintDb safe.

#[local] Hint Resolve safe_ret safe_print safe_exit safe_input
  safe_set_last_selected_product safe_lift : safe.

Ltac safe_tac :=
  repeat first
    [ solve [auto with safe]
    | apply safe_bind; [|intros]
    | match goal with
      | |- safe (if ?b then _ else _) => destruct b eqn:?
      | |- safe (match ?x with _ => _ end) => destruct x eqn:?
      end ].

(** *** Readable products *)

Lemma wf_product_inv (p : json) :
  wf_product p = true ->
  exists d n s,
    p = JDict d /\ PyDict.lookup d "name" = Some (JStr n) /\
    as_int (PyDict.get d "stock" (JInt 0)) = Some s /\
    readable_price (PyDict.get d "price" (JInt 0)) = true.
Proof.
  unfold wf_product. destruct p as [| | | | | |d]; try discriminate.
  intros H. apply andb_true_iff in H as [H Hp].
  apply andb_true_iff in H as [Hn Hs].
  destruct (PyDict.lookup d "name") as [[| | | |n| |]|] eqn:En; try discriminate.
  destruct (as_int (PyDict.get d "stock" (JInt 0))) as [s|] eqn:Es;
    try discriminate.
  exists d, n, s. auto.
Qed.

Lemma wf_product_has_name (p : json) : wf_product p = true -> has_name p.
Proof.
  intros H. destruct (wf_product_inv p H) as (d & n & s & -> & Hn & _).
  unfold has_name, name_of, PyDict.get. now rewrite Hn.
Qed.

Lemma wf_products_named (l : list json) :
  forallb wf_product l = true -> Forall has_name l.
Proof.
  intros H. apply Forall_forall. intros p Hp.
  apply wf_product_has_name. exact (proj1 (forallb_forall _ _) H p Hp).
Qed.

Lemma wf_products_dicts (l : list json) :
  forallb wf_product l = true -> Forall (fun p => is_dict p = true) l.
Proof.
  intros H. apply Forall_forall. intros p Hp.
  destruct (wf_product_inv p (proj1 (forallb_forall _ _) H p Hp))
    as (d & _ & _ & -> & _). reflexivity.
Qed.

(** A reference that tests true points into the catalog. *)
Lemma wf_products_truthy (l : list json) (i : nat) :
  forallb wf_product l = true -> truthy (deref l i) = true ->
  exists d, nth_error l i = Some (JDict d) /\ wf_product (JDict d) = true.
Proof.
  intros H T. unfold deref in T.
  destruct (nth_error l i) as [p|] eqn:E.
  - pose proof (proj1 (forallb_forall _ _) H p (nth_error_In _ _ E)) as Hp.
    destruct (wf_product_inv p Hp) as (d & _ & _ & -> & _). eauto.
  - apply nth_error_None in E. rewrite nth_overflow in T by exact E.
    discriminate.
Qed.

Lemma dict_lookup_set_other (d : pydict) (k k' : string) (v : json) :
  k <> k' -> PyDict.lookup (PyDict.set d k v) k' = PyDict.lookup d k'.
Proof.
  intros N. induction d as [|[k0 v0] d IH]; cbn.
  - destruct (String.eqb_spec k k'); [contradiction | reflexivity].
  - destruct (String.eqb_spec k0 k) as [->|Nk]; cbn.
    + destruct (String.eqb_spec k k'); [contradiction | reflexivity].
    + destruct (String.eqb k0 k'); [reflexivity | exact IH].
Qed.

Lemma readable_price_mul (v : json) (q : Z) :
  readable_price v = true -> exists t, py_mul v q = Ok t.
Proof. destruct v; cbn; try discriminate; eauto. Qed.

Section FindTotal.
Variable ratio : string -> string -> Q.

Lemma first_match_total (test : json -> result bool) (l : list json) :
  Forall (fun p => exists b, test p = Ok b) l ->
  forall i0, exists r, first_match test l i0 = Ok r.
Proof.
  induction 1 as [|p l [b Hb] Hl IH]; intros i0; cbn [first_match];
    [eauto|].
  rewrite Hb. cbn [rbind]. destruct b; eauto.
Qed.

(** On a catalog of named products the matcher returns. *)
Lemma find_product_by_name_total (products : list json) (name : string) :
  Forall has_name products ->
  exists r,
    find_product_by_name ratio products name default_cutoff = Ok r.
Proof.
  intros Hall. unfold find_product_by_name.
  destruct (PyStr.is_empty (PyStr.strip name)); [eauto|].
  destruct (first_match_total (exact_test (PyStr.strip name)) products)
    with (i0 := O) as [[i|] E].
  { eapply Forall_impl; [|exact Hall]. intros p Hp.
    rewrite exact_test_name_equals by exact Hp. eauto. }
  { rewrite E. cbn. eauto. }
  rewrite E. cbn [rbind].
  destruct (first_match_total (substring_test (PyStr.strip name)) products)
    with (i0 := O) as [[i|] E2].
  { eapply Forall_impl; [|exact Hall]. intros p Hp.
    rewrite substring_test_name_contains by exact Hp. eauto. }
  { rewrite E2. cbn. eauto. }
  rewrite E2. cbn [rbind].
  destruct (names_of_named products Hall) as [ns [En F]].
  rewrite En. cbn [rbind]. unfold get_close_matches_1.
  replace (Qle_bool 0 default_cutoff && Qle_bool default_cutoff 1)
    with true by reflexivity.
  cbn [negb]. rewrite close_candidates_filter. cbn [rbind].
  match goal with
  | |- context [match ?x with [] => Ok [] | _ => _ end] =>
      destruct x as [|c r]
  end; cbn [rbind]; [eauto|].
  apply first_match_total.
  eapply Forall_impl; [|exact Hall]. intros p Hp.
  unfold has_name in Hp. destruct (name_of p) as [n|] eqn:Hn; [|contradiction].
  rewrite (name_test_named _ p n Hn). eauto.
Qed.

Lemma safe_find_in_catalog (name : string) :
  safe (find_in_catalog ratio name).
Proof.
  intros w Hw. unfold find_in_catalog, bind, get_world, lift.
  destruct (find_product_by_name_total (w_products w) name) as [r E].
  { apply wf_products_named, Hw. }
  rewrite E. split; [exact I | exact Hw].
Qed.

End FindTotal.

(** *** The display helpers on readable values *)

Lemma safe_show_products_catalog :
  safe (w <- get_world ;; show_products (w_products w)).
Proof.
  apply safe_get_world. intros w Hw.
  rewrite show_products_ok by apply wf_products_dicts, Hw.
  split; [exact I | exact Hw].
Qed.

Lemma safe_show_product (d : pydict) : safe (show_product (JDict d)).
Proof. unfold show_product. cbn [py_get]. safe_tac. Qed.

Lemma wf_sale_row (s : json) :
  wf_sale s = true -> exists r, sale_row s = Ok r.
Proof.
  unfold wf_sale. destruct s as [| | | | | |d]; try discriminate.
  intros H. apply andb_true_iff in H as [Hn H].
  cbn [forallb] in H. unfold has_key in H.
  repeat (apply andb_true_iff in H as [? H]).
  unfold sale_row, py_subscript.
  repeat match goal with
         | E : match PyDict.lookup d ?k with _ => _ end = true |- _ =>
             destruct (PyDict.lookup d k); [clear E | discriminate E]
         end.
  cbn. eauto.
Qed.

Lemma wf_sales_rows (l : list json) :
  forallb wf_sale l = true -> exists rows, rows_of l rows.
Proof.
  induction l as [|s l IH]; intros H.
  - exists []. constructor.
  - cbn in H. apply andb_true_iff in H as [Hs Hl].
    destruct (wf_sale_row s Hs) as [r Hr]. destruct (IH Hl) as [rows Hrows].
    exists (r :: rows). now constructor.
Qed.

Lemma wf_sale_named (s : json) : wf_sale s = true -> sale_name s <> None.
Proof.
  unfold wf_sale, sale_name, PyDict.get.
  destruct s as [| | | | | |d]; try discriminate.
  destruct (PyDict.lookup d "product_name") as [[| | | |n| |]|];
    cbn; discriminate.
Qed.

Lemma forallb_rev {A} (f : A -> bool) (l : list A) :
  forallb f l = true -> forallb f (rev l) = true.
Proof.
  intros H. apply forallb_forall. intros x Hx. apply in_rev in Hx.
  exact (proj1 (forallb_forall _ _) H x Hx).
Qed.

Lemma forallb_filter {A} (f g : A -> bool) (l : list A) :
  forallb f l = true -> forallb f (filter g l) = true.
Proof.
  intros H. apply forallb_forall. intros x Hx. apply filter_In in Hx as [Hx _].
  exact (proj1 (forallb_forall _ _) H x Hx).
Qed.

Lemma safe_show_sales (sales : json) (f : option string) :
  sales_ok sales -> safe (show_sales sales f).
Proof.
  intros (l & -> & Hl) w Hw.
  assert (All : exists rows,
            show_sales (JList l) None w
            = (Ok tt, with_stdout (w_stdout w ++ sales_output l rows) w)).
  { destruct (wf_sales_rows (rev l) (forallb_rev _ _ Hl)) as [rows Hrows].
    exists rows. now apply show_sales_all. }
  destruct f as [[|c n]|].
  - destruct All as [rows E].
    replace (show_sales (JList l) (Some "") w)
      with (show_sales (JList l) None w) by reflexivity.
    rewrite E. split; [exact I | exact Hw].
  - destruct (wf_sales_rows (rev (filter (sale_listed (String c n)) l)))
      as [rows Hrows].
    { apply forallb_rev, forallb_filter, Hl. }
    rewrite (show_sales_filtered l (String c n) rows w);
      [split; [exact I | exact Hw] | discriminate | | exact Hrows].
    apply Forall_forall. intros s Hs. apply wf_sale_named.
    exact (proj1 (forallb_forall _ _) Hl s Hs).
  - destruct All as [rows E]. rewrite E. split; [exact I | exact Hw].
Qed.

Lemma safe_last_sale (sales : json) :
  sales_ok sales ->
  safe (if truthy sales
        then last <- lift (py_last sales) ;; show_sales (JList [last]) None
        else print (Print "No sales yet.")).
Proof.
  intros (l & -> & Hl).
  destruct (truthy (JList l)) eqn:T; [|apply safe_print].
  cbn [py_last].
  destruct (rev l) as [|x r] eqn:R.
  - destruct l; [discriminate|]. apply (f_equal (@List.length json)) in R.
    rewrite length_rev in R. discriminate.
  - pose proof (forallb_rev _ _ Hl) as Hr. rewrite R in Hr. cbn in Hr.
    apply andb_true_iff in Hr as [Hx _].
    apply safe_lift_ok; [eauto|]. intros a [= <-].
    apply safe_show_sales. exists [x]. split; [reflexivity|].
    cbn. now rewrite Hx.
Qed.

(** *** The sale *)

Lemma wf_sold_world (w : world) (p : nat) (d : pydict) (s q : Z) (t : json)
    (pm : string) (raw : pyref) :
  wf_world w ->
  nth_error (w_products w) p = Some (JDict d) ->
  wf_product (JDict d) = true ->
  let w' := sold_world w p d (JInt s) q t pm raw in
  forallb wf_product (w_products w') = true /\
  forallb wf_sale (persisted_ledger w') = true /\
  w_sale_file w' = Some (JList (persisted_ledger w')) /\
  w_state w' = w_state w.
Proof.
  intros (Hp & Hs & Hl) Hn Hd. cbv zeta.
  destruct (wf_product_inv _ Hd) as (d' & n & s' & [= <-] & En & Es & Ep).
  repeat split.
  - unfold sold_world. cbn [w_products]. apply forallb_list_set; [exact Hp|].
    unfold wf_product.
    rewrite dict_lookup_set_other, En, dict_get_set by discriminate.
    rewrite dict_get_set_other, Ep by discriminate. reflexivity.
  - change (forallb wf_sale
              (persisted_ledger w
               ++ [invoice_of (w_entropy w (w_tick w))
                     (PyDict.get d "name" JNull) q
                     (PyDict.get d "price" (JInt 0)) t pm])%list = true).
    rewrite forallb_app, Hl. unfold PyDict.get. rewrite En. reflexivity.
Qed.

Lemma safe_sell_block (p : nat) (qty : Z) (w : world) :
  wf_world w -> truthy (deref (w_products w) p) = true ->
  safe_out (sell_block p qty w).
Proof.
  intros Hw T.
  destruct (wf_products_truthy _ _ (proj1 Hw) T) as (d & Hn & Hd).
  destruct (wf_product_inv _ Hd) as (d' & n & s & [= <-] & En & Es & Ep).
  destruct (readable_price_mul _ qty Ep) as [t Et].
  destruct (w_stdin w) as [|line rest] eqn:Ein.
  { unfold sell_block, bind at 1, input. cbn [w_stdin with_stdout].
    rewrite Ein. split; [now right | exact Hw]. }
  destruct (Z_le_gt_dec qty 0) as [Hq|Hq];
    [|destruct (Z_lt_le_dec s qty) as [Hq'|Hq']].
  - rewrite (sell_block_refused w p d qty s line rest) by auto.
    split; [exact I | exact Hw].
  - rewrite (sell_block_refused w p d qty s line rest) by auto.
    split; [exact I | exact Hw].
  - unfold sell_block.
    unfold bind at 1. unfold input. cbn [w_stdin with_stdout]. rewrite Ein.
    unfold bind at 1, get_state at 1. unfold bind at 1, get_world at 1.
    unfold bind at 1.
    rewrite (record_sale_sold _ p d s qty t) by (auto; lia).
    cbn [truthy invoice_of].
    match goal with
    | |- context [sold_world ?w0 p d (JInt (s - qty)) qty t ?pm ?raw] =>
        destruct (wf_sold_world w0 p d (s - qty) qty t pm raw)
          as (H1 & H2 & H3 & H4); auto
    end.
    split; [exact I|].
    split; [exact H1|]. split; [|exact H2].
    reflexivity.
Qed.

(** *** The interpreter *)

Section Safety.
Variable ratio : string -> string -> Q.

#[local] Hint Resolve safe_find_in_catalog safe_show_product : safe.

(** What lines 198-203 and 265-268 do with the product found. *)
Lemma safe_select (p : option nat) (w : world) (otherwise : M unit) :
  wf_world w -> safe otherwise ->
  safe_out
    ((if ref_truthy (w_products w) p then
        match p with
        | Some i =>
            show_product (deref (w_products w) i) ;;
            set_last_selected_product (Some i)
        | None => ret tt
        end
      else otherwise) w).
Proof.
  intros Hw Ho. destruct (ref_truthy (w_products w) p) eqn:T;
    [|now apply Ho].
  destruct p as [i|]; [|discriminate]. cbn [ref_truthy] in T.
  destruct (wf_products_truthy _ _ (proj1 Hw) T) as (d & Hn & _).
  rewrite (deref_nth_error _ _ _ Hn).
  clear T Hn. revert w Hw. change (safe (show_product (JDict d) ;;
                                  set_last_selected_product (Some i))).
  safe_tac.
Qed.

(** What lines 217-226 and 233-248 do with the product found. *)
Lemma safe_sell_found (p : option nat) (qty : Z) (w : world)
    (otherwise : M unit) :
  wf_world w -> safe otherwise ->
  safe_out
    ((if ref_truthy (w_products w) p then
        match p with
        | Some i => sell_block i qty
        | None => ret tt
        end
      else otherwise) w).
Proof.
  intros Hw Ho. destruct (ref_truthy (w_products w) p) eqn:T;
    [|now apply Ho].
  destruct p as [i|]; [|discriminate]. now apply safe_sell_block.
Qed.

Lemma safe_handle_name_or_fallback (u : string) (sales : json) :
  sales_ok sales -> safe (handle_name_or_fallback ratio u sales).
Proof.
  intros Hs. unfold handle_name_or_fallback.
  apply safe_bind; [auto with safe|]. intros p.
  apply safe_get_world. intros w Hw. apply safe_select; [exact Hw|].
  destruct (rmatch true re_sales_for u) as [m|] eqn:E; [|apply safe_print].
  destruct (re_sales_for_groups u m E) as [g ->]. cbn [group nth Nat.sub group_str].
  apply safe_bind; [apply safe_lift|]. intros name.
  now apply safe_show_sales.
Qed.

Lemma safe_handle_number (u : string) (lp : option nat) (sales : json) :
  sales_ok sales -> safe (handle_number ratio u lp sales).
Proof.
  intros Hs. unfold handle_number.
  destruct (rmatch false re_number u);
    [|now apply safe_handle_name_or_fallback].
  apply safe_get_world. intros w Hw.
  destruct (ref_truthy (w_products w) lp) eqn:T; cbn [negb];
    [|now apply safe_print].
  destruct lp as [p|]; [|discriminate]. now apply safe_sell_block.
Qed.

Lemma safe_handle_qty_name (u : string) (lp : option nat) (sales : json) :
  sales_ok sales -> safe (handle_qty_name ratio u lp sales).
Proof.
  intros Hs. unfold handle_qty_name.
  destruct (rmatch false re_qty_name u) as [m|] eqn:E;
    [|now apply safe_handle_number].
  destruct (re_qty_name_groups u m E) as (g1 & g2 & -> & _).
  cbn [group nth Nat.sub group_str].
  apply safe_bind; [apply safe_lift|]. intros x1.
  apply safe_bind; [apply safe_lift|]. intros x2.
  apply safe_bind; [auto with safe|]. intros p.
  apply safe_get_world. intros w Hw. apply safe_sell_found; [exact Hw|].
  safe_tac.
Qed.

Lemma safe_sell_or_not_found (p : option nat) (qty : Z) (w : world) :
  wf_world w ->
  safe_out
    ((if negb (ref_truthy (w_products w) p) then
        print (Print "Product not found.")
      else
        match p with
        | Some i => sell_block i qty
        | None => ret tt
        end) w).
Proof.
  intros Hw. destruct (ref_truthy (w_products w) p) eqn:T; cbn [negb];
    [|now apply safe_print].
  destruct p as [i|]; [|discriminate]. now apply safe_sell_block.
Qed.

Lemma safe_handle_sell (u : string) (lp : option nat) (sales : json) :
  sales_ok sales -> safe (handle_sell ratio u lp sales).
Proof.
  intros Hs. unfold handle_sell.
  destruct (or_match _ _) as [m|] eqn:E; [|now apply safe_handle_qty_name].
  assert (G : exists g1 g2, m = [Some g1; Some g2]).
  { unfold or_match in E.
    destruct (rmatch true re_sell_qty_name u) as [m1|] eqn:E1.
    - inversion E; subst m1.
      destruct (re_sell_qty_name_groups _ _ E1) as (g1 & g2 & -> & _). eauto.
    - destruct (re_sell_name_qty_groups _ _ E) as (g1 & g2 & -> & _). eauto. }
  destruct G as (g1 & g2 & ->).
  cbn [List.length Nat.eqb andb group nth Nat.sub group_str].
  apply safe_bind; [apply safe_lift|]. intros x1.
  apply safe_bind; [apply safe_lift|]. intros x2.
  destruct (PyStr.isdigit x1); [|destruct (PyStr.isdigit x2)].
  - apply safe_bind; [auto with safe|]. intros p.
    apply safe_get_world. intros w Hw. now apply safe_sell_or_not_found.
  - apply safe_bind; [auto with safe|]. intros p.
    apply safe_get_world. intros w Hw. now apply safe_sell_or_not_found.
  - apply safe_print.
Qed.

Lemma safe_parse_and_handle (user : string) :
  safe (parse_and_handle ratio user).
Proof.
  unfold parse_and_handle. apply safe_get_state. intros w Hw.
  assert (Hs : sales_ok (last_sales (w_state w))).
  { exists (persisted_ledger w). split; [apply Hw | apply Hw]. }
  cbv beta zeta.
  set (lp := last_selected_product (w_state w)).
  set (sales := last_sales (w_state w)) in *.
  clearbody lp sales. revert w Hw. refine (_ : safe _).
  destruct (PyStr.is_empty _); [apply safe_ret|].
  destruct (str_in _ _); [apply safe_print|].
  destruct (str_in _ _); [safe_tac|].
  destruct (str_in _ _); [apply safe_show_products_catalog|].
  destruct (_ || _).
  { destruct (rmatch true re_sales _); now apply safe_show_sales. }
  destruct (str_in _ _); [now apply safe_last_sale|].
  destruct (_ || _); [|now apply safe_handle_sell].
  destruct (rmatch true re_show _) as [m|] eqn:E;
    [|now apply safe_handle_sell].
  destruct (re_show_groups _ m E) as [g ->].
  cbn [group nth Nat.sub group_str].
  apply safe_bind; [apply safe_lift|]. intros x.
  apply safe_bind; [auto with safe|]. intros p.
  apply safe_get_world. intros w Hw. apply safe_select; [exact Hw|].
  apply safe_print.
Qed.

End Safety.

Section SafeSession.
Variable ratio : string -> string -> Q.

Lemma main_loop_safe (fuel : nat) :
  forall w r w',
    wf_world w -> main_loop ratio fuel w = (r, w') ->
    (forall e, r = Raise e -> e = EOFError) /\ wf_world w'.
Proof.
  induction fuel as [|fuel IH]; intros w r w' Hw H.
  { inversion H; subst. split; [discriminate | exact Hw]. }
  cbn [main_loop] in H. unfold bind at 1, input in H.
  cbn [w_stdin with_stdout] in H.
  destruct (w_stdin w) as [|line rest] eqn:Ein.
  { inversion H; subst. split; [now intros e [= <-] | exact Hw]. }
  unfold bind at 1, breaks_on_exit in H.
  set (w1 := with_stdin rest (with_stdout (w_stdout w ++ [Prompt "You: "]) w))
    in H.
  assert (Hw1 : wf_world w1) by exact Hw.
  destruct (safe_parse_and_handle ratio (PyStr.strip line) w1 Hw1) as [Hb Hw2].
  destruct (parse_and_handle ratio (PyStr.strip line) w1) as [[[]|e] w2];
    cbn [fst snd] in *.
  - now apply (IH w2).
  - destruct Hb as [->| ->]; inversion H; subst;
      (split; [|exact Hw2]); [discriminate | now intros e [= <-]].
Qed.

(** The session that [main] runs on readable files. *)
Lemma main_safe (fuel : nat) (w : world) (l : list json)
    (r : result (option unit)) (w' : world) :
  normalize_products (loaded_catalog w) = Ok l ->
  forallb wf_product l = true ->
  forallb wf_sale (persisted_ledger w) = true ->
  main ratio fuel w = (r, w') ->
  (forall e, r = Raise e -> e = EOFError) /\ wf_world w' /\
  ((List.length (w_stdin w) < fuel)%nat -> r <> Ok None).
Proof.
  intros Hn Hl Hs H. unfold main, bind in H.
  rewrite (startup_ok w l Hn (wf_products_dicts l Hl)) in H.
  set (w1 := with_stdout _ _) in H.
  assert (Hled : persisted_ledger w1 = persisted_ledger w).
  { unfold persisted_ledger, w1, started_world, files_created, loaded_ledger.
    destruct w as [pl st pf [s|] si so en tk]; reflexivity. }
  assert (Hw1 : wf_world w1).
  { split; [exact Hl|]. split; [|now rewrite Hled].
    rewrite Hled.
    unfold w1, started_world, persisted_ledger, loaded_ledger. cbn.
    destruct (w_sale_file w); reflexivity. }
  destruct (main_loop_safe fuel w1 r w' Hw1 H) as [He Hw'].
  split; [exact He|]. split; [exact Hw'|].
  intros Hlen ->. apply (main_loop_ends ratio fuel w1 w'); [|exact H].
  unfold w1, started_world, files_created.
  destruct w as [pl st [pf|] [s|] si so en tk]; exact Hlen.
Qed.

(** X20: On readable files of plain data (products with a name, an
    integer stock and an integer price; ledger entries with the seven
    keys of an invoice) the chatbot does not crash, whatever plain
    lines are typed: [main] stops by "exit" or "quit", or by the
    [EOFError] of [input] when the input ends first; no other exception
    is raised.  The catalog and the ledger it leaves are readable
    again. *)
Theorem no_crash_on_readable_files (fuel : nat) (w : world) (l : list json) :
  plain_files w ->
  normalize_products (loaded_catalog w) = Ok l ->
  forallb wf_product l = true ->
  forallb wf_sale (persisted_ledger w) = true ->
  (List.length (w_stdin w) < fuel)%nat ->
  (fst (main ratio fuel w) = Ok (Some tt) \/
   fst (main ratio fuel w) = Raise EOFError) /\
  forallb wf_product (w_products (snd (main ratio fuel w))) = true /\
  forallb wf_sale (persisted_ledger (snd (main ratio fuel w))) = true.
Proof.
  intros _ Hn Hl Hs Hlen.
  destruct (main ratio fuel w) as [r w'] eqn:E. cbn [fst snd].
  destruct (main_safe fuel w l r w' Hn Hl Hs E) as (He & Hw' & Hend).
  split; [|split; [exact (proj1 Hw') | exact (proj2 (proj2 Hw'))]].
  destruct r as [[[]|]|e].
  - now left.
  - now destruct (Hend Hlen).
  - right. now rewrite (He e eq_refl).
Qed.

(** X21: On readable files of plain data the ledger of the session is
    at every stop of [main] the ledger of [sale.json]: what "show
    sales" would list is what the file holds. *)
Theorem session_ledger_mirrors_file (fuel : nat) (w : world) (l : list json) :
  plain_files w ->
  normalize_products (loaded_catalog w) = Ok l ->
  forallb wf_product l = true ->
  forallb wf_sale (persisted_ledger w) = true ->
  last_sales (w_state (snd (main ratio fuel w)))
  = JList (persisted_ledger (snd (main ratio fuel w))).
Proof.
  intros _ Hn Hl Hs.
  destruct (main ratio fuel w) as [r w'] eqn:E. cbn [snd].
  destruct (main_safe fuel w l r w' Hn Hl Hs E) as (_ & Hw' & _).
  exact (proj1 (proj2 Hw')).
Qed.

End SafeSession.

Lemma no_crash_on_readable_files_witness :
  let w := initial_world (Some (JList [widget; gadget])) (Some (JList [widget_sale]))
             ["gadgt pro"; "5"; "card"; "sales for gadget"; "sell widget 2"]
             sample_entropy in
  (fst (main RatcliffObershelp.ratio 6 w) = Ok (Some tt) \/
   fst (main RatcliffObershelp.ratio 6 w) = Raise EOFError) /\
  forallb wf_product (w_products (snd (main RatcliffObershelp.ratio 6 w)))
  = true /\
  forallb wf_sale (persisted_ledger (snd (main RatcliffObershelp.ratio 6 w)))
  = true.
Proof.
  apply (no_crash_on_readable_files RatcliffObershelp.ratio 6
           (initial_world (Some (JList [widget; gadget]))
              (Some (JList [widget_sale]))
              ["gadgt pro"; "5"; "card"; "sales for gadget"; "sell widget 2"]
              sample_entropy)
           [widget; gadget]).
  - plain_data.
  - reflexivity.
  - reflexivity.
  - reflexivity.
  - cbn. lia.
Defined.

Lemma session_ledger_mirrors_file_witness :
  let w := initial_world (Some widget) (Some widget_sale)
             ["sell 1 widget"; "upi"; "3"; ""] sample_entropy in
  last_sales (w_state (snd (main RatcliffObershelp.ratio 2 w)))
  = JList (persisted_ledger (snd (main RatcliffObershelp.ratio 2 w))).
Proof.
  apply (session_ledger_mirrors_file RatcliffObershelp.ratio 2
           (initial_world (Some widget) (Some widget_sale)
              ["sell 1 widget"; "upi"; "3"; ""] sample_entropy)
           [widget]);
    try reflexivity.
  plain_data.
Defined.


(* ================================================================== *)
(** ** What unreadable records do *)

Lemma print_product_rows_stops (k : nat) (v : json) :
  forall l w,
    (forall j p, (j < k)%nat -> nth_error l j = Some p -> is_dict p = true) ->
    nth_error l k = Some v -> is_dict v = false ->
    print_product_rows l w
    = (Raise AttributeError,
       with_stdout (w_stdout w ++ map product_row (firstn k l)) w).
Proof.
  induction k as [|k IH]; intros [|x l] w Hbefore Hk Hv; try discriminate.
  - cbn in Hk. inversion Hk; subst x. cbn [firstn map].
    rewrite app_nil_r. destruct v; try discriminate; destruct w; reflexivity.
  - pose proof (Hbefore O x (Nat.lt_0_succ k) eq_refl) as Hx.
    destruct x as [| | | | | |d]; try discriminate.
    cbn [print_product_rows py_get]. mrun.
    rewrite (IH l); [| |exact Hk|exact Hv].
    + cbn. rewrite <- app_assoc. reflexivity.
    + intros j p Hj Hp. apply (Hbefore (S j) p); [lia | exact Hp].
Qed.

Lemma show_products_stops (k : nat) (v : json) (l : list json) (w : world) :
  (forall j p, (j < k)%nat -> nth_error l j = Some p -> is_dict p = true) ->
  nth_error l k = Some v -> is_dict v = false ->
  show_products l w
  = (Raise AttributeError,
     with_stdout
       (w_stdout w ++ [Print (PyStr.nl ++ "Products:")]
        ++ map product_row (firstn k l)) w).
Proof.
  intros Hbefore Hk Hv.
  destruct l as [|x l']; [destruct k; discriminate|].
  unfold show_products. unfold bind at 1, print at 1. unfold bind at 1.
  rewrite (print_product_rows_stops k v (x :: l') _ Hbefore Hk Hv).
  cbn [w_stdout with_stdout]. rewrite <- app_assoc. reflexivity.
Qed.

Lemma sale_row_raises (s : json) (e : exn) :
  sale_row s = Raise e -> e = KeyError \/ e = TypeError.
Proof.
  unfold sale_row, py_subscript. destruct s as [| | | | | |d];
    try (intros [= <-]; now right).
  repeat match goal with
         | |- context [PyDict.lookup d ?k] =>
             destruct (PyDict.lookup d k); cbn [rbind];
             [|intros [= <-]; now left]
         end.
  discriminate.
Qed.

Section Crashes.

Variable ratio : string -> string -> Q.

(** X22: A catalog with an entry that is not an object stops [main]
    before the first prompt: the greeting, the heading and the products
    before that entry are printed, then [show_products] raises
    [AttributeError]; no line of input is read. *)
Theorem unreadable_product_stops_startup (fuel : nat) (w : world)
    (l : list json) (k : nat) (v : json) :
  normalize_products (loaded_catalog w) = Ok l ->
  nth_error l k = Some v -> is_dict v = false ->
  (forall j p, (j < k)%nat -> nth_error l j = Some p -> is_dict p = true) ->
  main ratio fuel w
  = (Raise AttributeError,
     with_stdout
       (w_stdout w
        ++ [welcome; Print (PyStr.nl ++ "Products:")]
        ++ map product_row (firstn k l))
       (started_world w l)).
Proof.
  intros Hn Hk Hv Hbefore. unfold main, bind.
  rewrite startup_eq, Hn, (show_products_stops k v l _ Hbefore Hk Hv).
  unfold started_world at 1. cbn [w_stdout with_stdout].
  rewrite <- app_assoc. reflexivity.
Qed.

(** X23: A ledger whose last entry cannot be printed (it is no object,
    or lacks one of the seven keys) ends the session at "sales" or
    "show sales": the heading is printed, then the [KeyError] or
    [TypeError] of the entry leaves [main]'s loop, which catches
    [SystemExit] only; the lines that follow are not read. *)
Theorem unreadable_sale_stops_session (fuel : nat) (w : world)
    (line : string) (rest : list string) (l : list json) (s : json)
    (e : exn) :
  w_stdin w = line :: rest ->
  PyStr.lower (PyStr.strip line) = "sales" \/
  PyStr.lower (PyStr.strip line) = "show sales" ->
  last_sales (w_state w) = JList (l ++ [s]) ->
  sale_row s = Raise e ->
  main_loop ratio (S fuel) w
  = (Raise e,
     with_stdout
       (w_stdout w ++ [Prompt "You: "; Print (PyStr.nl ++ "Sales:")])
       (with_stdin rest w)).
Proof.
  intros Hin Hl Hs He. cbn [main_loop]. unfold bind at 1, input.
  cbn [w_stdin with_stdout]. rewrite Hin.
  set (w1 := with_stdin rest _).
  assert (Hne : PyStr.is_empty (PyStr.strip line) = false).
  { destruct (PyStr.strip line); [destruct Hl; discriminate | reflexivity]. }
  assert (Hm : match rmatch true re_sales (PyStr.strip line) with
               | Some m => group m 1
               | None => None
               end = None).
  { destruct Hl as [Hl|Hl].
    - unfold rmatch, re_sales. cbn [ngroups Nat.add List.repeat run].
      rewrite <- (append_nil_r (PyStr.strip line)).
      rewrite (lit_lower "sales" (PyStr.strip line) "") by exact Hl.
      reflexivity.
    - destruct (lower_head _ _ _ Hl) as (c1 & k1 & E1 & Hc1 & Hk1).
      destruct (lower_head _ _ _ Hk1) as (c2 & k2 & E2 & Hc2 & _).
      rewrite E1, E2. unfold rmatch, re_sales.
      cbn [ngroups Nat.add List.repeat run Re.lit]. unfold Re.char_eq.
      rewrite Hc1, Hc2. reflexivity. }
  assert (E : parse_and_handle ratio (PyStr.strip line) w1
              = show_sales (JList (l ++ [s])) None w1).
  { unfold parse_and_handle. unfold bind at 1, get_state at 1. cbv zeta.
    rewrite strip_idem, Hne.
    change (last_sales (w_state w1)) with (last_sales (w_state w)).
    rewrite Hs.
    destruct (rmatch true re_sales (PyStr.strip line)) as [m|];
      [rewrite Hm|]; destruct Hl as [-> | ->]; reflexivity. }
  unfold bind at 1, breaks_on_exit. rewrite E.
  assert (T : truthy (JList (l ++ [s])) = true) by (destruct l; reflexivity).
  unfold show_sales. rewrite T. cbn [negb]. mrun. rewrite T. cbn [negb py_iter].
  rewrite rev_app_distr. cbn [rev app print_sale_rows]. mrun. rewrite He.
  destruct (sale_row_raises s e He) as [-> | ->]; cbn;
    rewrite <- app_assoc; reflexivity.
Qed.

End Crashes.

Lemma unreadable_product_stops_startup_witness :
  let w := initial_world (Some (JList [widget; JInt 3; gadget])) None ["exit"]
             sample_entropy in
  main RatcliffObershelp.ratio 1 w
  = (Raise AttributeError,
     with_stdout
       (w_stdout w
        ++ [welcome; Print (PyStr.nl ++ "Products:")]
        ++ map product_row (firstn 1 [widget; JInt 3; gadget]))
       (started_world w [widget; JInt 3; gadget])).
Proof.
  apply (unreadable_product_stops_startup RatcliffObershelp.ratio 1
           (initial_world (Some (JList [widget; JInt 3; gadget])) None ["exit"]
              sample_entropy)
           [widget; JInt 3; gadget] 1 (JInt 3)); try reflexivity.
  intros [|j] p Hj Hp; [|lia]. now inversion Hp.
Defined.

Lemma unreadable_sale_stops_session_witness :
  let w := with_state
             (mkState RefProducts None
                (JList [widget_sale; JDict [("product_name", JStr "Widget")]]))
             (with_stdin [" Show Sales"; "exit"] shop_world) in
  main_loop RatcliffObershelp.ratio 2 w
  = (Raise KeyError,
     with_stdout
       (w_stdout w ++ [Prompt "You: "; Print (PyStr.nl ++ "Sales:")])
       (with_stdin ["exit"] w)).
Proof.
  apply (unreadable_sale_stops_session RatcliffObershelp.ratio 1
           (with_state
              (mkState RefProducts None
                 (JList [widget_sale; JDict [("product_name", JStr "Widget")]]))
              (with_stdin [" Show Sales"; "exit"] shop_world))
           " Show Sales" ["exit"] [widget_sale]
           (JDict [("product_name", JStr "Widget")]) KeyError).
  - reflexivity.
  - right. reflexivity.
  - reflexivity.
  - reflexivity.
Defined.
